(** * Dal survey dashboard: data cleaning, statistics and chart shaping

    A shallow embedding of [app.py].  The application reads one sheet of a
    workbook into a pandas [DataFrame], cleans it inside [get_table_data],
    and derives a statistics record ([get_basic_statistics]) and a chart
    bundle ([create_visualizations]) from the cleaned frame.

    Conventions of the embedding.

    - A Python [str] is a Rocq [string]; its characters are the code points
      below 256, for which whitespace and case mapping are written out.
    - A column is a [series]: a dtype together with cells of that dtype
      (object, int64 or float64, the dtypes the cleaning code tells apart;
      boolean and datetime columns are left out).  Integers are unbounded:
      an integer column with values beyond int64, which pandas types
      uint64, is an int64 column here.
    - A frame is the ordered list of its labelled columns.  The workbook
      reader delivers frames with pairwise distinct labels and columns of one
      common length ([well_formed]); statements that depend on this say so.
    - Python exceptions are values of [exn] in the error monad [result].
    - pandas semantics are those of the 1.x/2.x releases, where text columns
      have dtype object and a [.loc] assignment of a string into a numeric
      column upcasts that column to object, whatever rows the mask selects.
    - A float64 is a binary64 number of the kernel ([PrimFloat.float]), so
      that sums, quotients, roots and roundings are those of IEEE 754, as
      numpy computes them.  Reading a number in a string and printing a
      float are parameters of the development.
    - [jsonify] encodes Python numbers and the float64 scalars of numpy; it
      raises on an integer scalar of numpy. *)

From Stdlib Require Import String Ascii List ZArith QArith Qround Qabs Bool Lia.
From Stdlib Require Import DecimalString Permutation.
From Stdlib Require Import PrimFloat.
From Stdlib Require SpecFloat FloatOps.
Import ListNotations.

Set Warnings "-inexact-float".

Local Open Scope string_scope.
Local Open Scope Z_scope.

(** ** Python strings *)

Module PyStr.

(** [str.isspace] on one character: the separators of the Latin-1 range. *)
Definition isspace (c : ascii) : bool :=
  let n := N_of_ascii c in
  (((9 <=? n) && (n <=? 13)) || ((28 <=? n) && (n <=? 32))
   || (n =? 133) || (n =? 160))%N.

(** [str.lower] on one character: A-Z and the accented capitals. *)
Definition lower_char (c : ascii) : ascii :=
  let n := N_of_ascii c in
  if (((65 <=? n) && (n <=? 90))
      || ((192 <=? n) && (n <=? 222) && negb (n =? 215)))%N
  then ascii_of_N (n + 32) else c.

Fixpoint lower (s : string) : string :=
  match s with
  | EmptyString => EmptyString
  | String c r => String (lower_char c) (lower r)
  end.

Fixpoint lstrip (s : string) : string :=
  match s with
  | EmptyString => EmptyString
  | String c r => if isspace c then lstrip r else s
  end.

Fixpoint rstrip (s : string) : string :=
  match s with
  | EmptyString => EmptyString
  | String c r =>
      match rstrip r with
      | EmptyString => if isspace c then EmptyString else String c EmptyString
      | r' => String c r'
      end
  end.

(** [s.strip()] *)
Definition strip (s : string) : string := rstrip (lstrip s).

(** [s.replace(old, new)] for a one-character [old]. *)
Fixpoint replace (old : ascii) (new : string) (s : string) : string :=
  match s with
  | EmptyString => EmptyString
  | String c r =>
      if Ascii.eqb c old then new ++ replace old new r
      else String c (replace old new r)
  end.

Fixpoint contains (c : ascii) (s : string) : bool :=
  match s with
  | EmptyString => false
  | String d r => Ascii.eqb d c || contains c r
  end.

End PyStr.

(** ** Numbers *)

(** A float64 is a [float] of the kernel; there is one NaN. *)
Definition NaN : float := nan.

(** A Python or numpy number. *)
Inductive number : Type :=
| NInt (z : Z)
| NFloat (f : float).

(** A Python object as held in a cell of an object column. *)
Inductive value : Type :=
| VStr (s : string)
| VNum (n : number)
| VNone.

Definition isnan (f : float) : bool := is_nan f.

(** The cast of an integer to float64: the nearest float, ties to even. *)
Definition float_of_Z (z : Z) : float :=
  FloatOps.SF2Prim
    (SpecFloat.binary_normalize FloatOps.prec FloatOps.emax z 0 false).

Definition float_of_nat (n : nat) : float := float_of_Z (Z.of_nat n).

(** The sign bit of a float. *)
Definition sign_bit (f : float) : bool :=
  match FloatOps.Prim2SF f with
  | SpecFloat.S754_zero s => s
  | SpecFloat.S754_infinity s => s
  | SpecFloat.S754_finite s _ _ => s
  | SpecFloat.S754_nan => false
  end.

(** The magnitude of a finite float, as the rational it stands for. *)
Definition magnitude (f : float) : option Q :=
  match FloatOps.Prim2SF f with
  | SpecFloat.S754_zero _ => Some 0%Q
  | SpecFloat.S754_finite _ m e => Some (Qred (inject_Z (Zpos m) * 2 ^ e)%Q)
  | _ => None
  end.

Definition to_float (n : number) : float :=
  match n with NInt z => float_of_Z z | NFloat f => f end.

Definition is_int (n : number) : bool :=
  match n with NInt _ => true | NFloat _ => false end.

Definition int_of (n : number) : Z :=
  match n with NInt z => z | NFloat _ => 0 end.

(** [pd.isna] on a scalar. *)
Definition isna (v : value) : bool :=
  match v with
  | VNone => true
  | VNum (NFloat f) => isnan f
  | _ => false
  end.

Definition is_str (v : value) : bool :=
  match v with VStr _ => true | _ => false end.

(** [v == s] for a [str] s: only an equal [str] compares equal. *)
Definition eq_str (v : value) (s : string) : bool :=
  match v with VStr t => String.eqb t s | _ => false end.

(** A column label: the header cell of the sheet, text or a number. *)
Inductive label : Type :=
| LStr (s : string)
| LInt (z : Z).

(** ** Exceptions *)

Inductive exn : Type :=
| AttributeError_lower         (* 'int' object has no attribute 'lower' *)
| AttributeError_str_accessor  (* Can only use .str accessor with string values *)
| ValueError_parse             (* Unable to parse string *)
| ValueError_out_of_range      (* Integer out of range. *)
| TypeError_not_serializable   (* Object of type int64 is not JSON serializable *)
| KeyError (l : label).

Inductive result (A : Type) : Type :=
| Ok (a : A)
| Raise (e : exn).
Arguments Ok {A} a.
Arguments Raise {A} e.

Definition bind {A B} (m : result A) (k : A -> result B) : result B :=
  match m with Ok a => k a | Raise e => Raise e end.

Notation "x <- m ;; k" := (bind m (fun x => k))
  (at level 61, m at next level, right associativity).

(** [try: m  except: h] *)
Definition try_except {A} (m : result A) (h : A) : A :=
  match m with Ok a => a | Raise _ => h end.

(** ** pandas: series and frames *)

Inductive dtype : Type := object | int64 | float64.

(** A column: its dtype and cells of that dtype. *)
Inductive series : Type :=
| SObject (cells : list value)
| SInt64 (cells : list Z)
| SFloat64 (cells : list float).

Definition dtype_of (s : series) : dtype :=
  match s with
  | SObject _ => object
  | SInt64 _ => int64
  | SFloat64 _ => float64
  end.

Definition is_object (d : dtype) : bool :=
  match d with object => true | _ => false end.

(** [pd.api.types.is_numeric_dtype] *)
Definition is_numeric_dtype (s : series) : bool :=
  match dtype_of s with object => false | _ => true end.

(** [s.tolist()] *)
Definition tolist (s : series) : list value :=
  match s with
  | SObject cells => cells
  | SInt64 cells => map (fun z => VNum (NInt z)) cells
  | SFloat64 cells => map (fun f => VNum (NFloat f)) cells
  end.

Definition len (s : series) : nat := length (tolist s).

(** [s.notna()] *)
Definition notna (s : series) : list bool :=
  map (fun v => negb (isna v)) (tolist s).

(** [s != t] for a [str] t *)
Definition ne_str (s : series) (t : string) : list bool :=
  map (fun v => negb (eq_str v t)) (tolist s).

(** [s == t] for a [str] t *)
Definition eq_str_mask (s : series) (t : string) : list bool :=
  map (fun v => eq_str v t) (tolist s).

(** [m1 & m2] *)
Fixpoint mask_and (m1 m2 : list bool) : list bool :=
  match m1, m2 with
  | a :: r1, b :: r2 => (a && b) :: mask_and r1 r2
  | _, _ => []
  end.

(** Selection of the rows where the mask holds. *)
Fixpoint select {A} (mask : list bool) (xs : list A) : list A :=
  match mask, xs with
  | m :: ms, x :: r => if m then x :: select ms r else select ms r
  | _, _ => []
  end.

Definition take_rows (mask : list bool) (s : series) : series :=
  match s with
  | SObject cells => SObject (select mask cells)
  | SInt64 cells => SInt64 (select mask cells)
  | SFloat64 cells => SFloat64 (select mask cells)
  end.

(** Element-wise methods of the [.str] accessor: they need an object
    column, and a cell that is not a [str] yields NaN. *)
Definition str_method (f : string -> string) (s : series) : result series :=
  match s with
  | SObject cells =>
      Ok (SObject (map (fun v => match v with
                                 | VStr x => VStr (f x)
                                 | _ => VNum (NFloat NaN)
                                 end) cells))
  | _ => Raise AttributeError_str_accessor
  end.

Definition str_replace (old : ascii) (new : string) : series -> result series :=
  str_method (PyStr.replace old new).
Definition str_strip : series -> result series := str_method PyStr.strip.
Definition str_lower : series -> result series := str_method PyStr.lower.

(** [df.loc[mask, col] = t] for a [str] t, on the column: an object column
    takes the value in place; a numeric column is first upcast to object,
    whatever rows the mask selects. *)
Fixpoint where_set {A} (mask : list bool) (v : A) (xs : list A) : list A :=
  match mask, xs with
  | m :: ms, x :: r => (if m then v else x) :: where_set ms v r
  | _, _ => xs
  end.

Definition loc_assign_str (mask : list bool) (t : string) (s : series) : series :=
  SObject (where_set mask (VStr t) (tolist s)).

Definition label_eqb (a b : label) : bool :=
  match a, b with
  | LStr s, LStr t => String.eqb s t
  | LInt x, LInt y => Z.eqb x y
  | _, _ => false
  end.

(** [col.lower()] *)
Definition label_lower (l : label) : result string :=
  match l with
  | LStr s => Ok (PyStr.lower s)
  | LInt _ => Raise AttributeError_lower
  end.

Definition DataFrame : Type := list (label * series).

(** [df.columns] *)
Definition columns (df : DataFrame) : list label := map fst df.

(** [l in df.columns] *)
Definition has_column (df : DataFrame) (l : label) : bool :=
  existsb (label_eqb l) (columns df).

(** [df[l]] *)
Fixpoint getitem (df : DataFrame) (l : label) : result series :=
  match df with
  | [] => Raise (KeyError l)
  | (k, s) :: r => if label_eqb k l then Ok s else getitem r l
  end.

(** [df[l] = s]: an existing column is replaced where it stands, a new
    one is appended. *)
Fixpoint setitem (df : DataFrame) (l : label) (s : series) : DataFrame :=
  match df with
  | [] => [(l, s)]
  | (k, x) :: r => if label_eqb k l then (k, s) :: r else (k, x) :: setitem r l s
  end.

(** [df.empty]: no column or no row. *)
Definition empty (df : DataFrame) : bool :=
  match df with
  | [] => true
  | (_, s) :: _ => Nat.eqb (len s) 0
  end.

(** [len(df)] *)
Definition nrows (df : DataFrame) : nat :=
  match df with
  | [] => 0%nat
  | (_, s) :: _ => len s
  end.

(** [df[mask]] *)
Definition filter_rows (mask : list bool) (df : DataFrame) : DataFrame :=
  map (fun '(l, s) => (l, take_rows mask s)) df.

(** What the workbook reader delivers: distinct labels, one length. *)
Definition well_formed (df : DataFrame) : Prop :=
  NoDup (columns df) /\ forall l s, In (l, s) df -> len s = nrows df.

(** [str(z)] for an [int] *)
Definition str_of_Z (z : Z) : string := NilZero.string_of_int (Z.to_int z).

(** ** float64 arithmetic, as numpy carries it out *)

(** [numpy.rint]: the nearest integer, ties to even.  A float of magnitude
    2^52 or more is an integer. *)
Definition two52 : float := 4503599627370496%float.

Definition rint (x : float) : float :=
  if (abs x <? two52)%float then
    if (x <? 0)%float then (- ((- x + two52) - two52))%float
    else if (x =? 0)%float then x
    else ((x + two52) - two52)%float
  else x.

(** [round(x, 2)]: an integer is returned as it is; a float64 is scaled by
    100, rounded to the nearest integer and divided by 100. *)
Definition round2 (n : number) : number :=
  match n with
  | NInt z => NInt z
  | NFloat f => NFloat (rint (f * 100) / 100)%float
  end.

(** [x == y] between Python numbers: an integer and a float are compared
    by value. *)
Definition num_eqb (x y : number) : bool :=
  match x, y with
  | NInt a, NInt b => (a =? b)%Z
  | NFloat a, NFloat b => (a =? b)%float
  | NInt a, NFloat b | NFloat b, NInt a =>
      match magnitude b with
      | Some q => Qeq_bool (if sign_bit b then - q else q)%Q (inject_Z a)
      | None => false
      end
  end.

(** The sum of a float64 array by [numpy.add.reduce].  Fewer than eight
    values are added from left to right; up to 128 values are added in
    eight interleaved partial sums, combined at the end; a longer array is
    split in two parts, the first of a length that is a multiple of eight,
    and the sums of the parts are added. *)
Definition sum_from (acc : float) (xs : list float) : float :=
  fold_left add xs acc.

Fixpoint add_lanes (r xs : list float) : list float :=
  match r, xs with
  | a :: r', x :: xs' => (a + x)%float :: add_lanes r' xs'
  | _, _ => r
  end.

Fixpoint unrolled (blocks : nat) (r xs : list float) : list float * list float :=
  match blocks with
  | O => (r, xs)
  | S k => unrolled k (add_lanes r (firstn 8 xs)) (skipn 8 xs)
  end.

Definition block_sum (xs : list float) : float :=
  let '(r, rest) := unrolled (length xs / 8 - 1) (firstn 8 xs) (skipn 8 xs) in
  match r with
  | [r0; r1; r2; r3; r4; r5; r6; r7] =>
      sum_from (((r0 + r1) + (r2 + r3)) + ((r4 + r5) + (r6 + r7)))%float rest
  | _ => sum_from 0%float xs
  end.

Fixpoint pairwise_sum (fuel : nat) (xs : list float) : float :=
  let n := length xs in
  if (n <? 8)%nat then sum_from 0%float xs
  else if (n <=? 128)%nat then block_sum xs
  else
    match fuel with
    | O => block_sum xs
    | S k =>
        let n2 := (n / 2 - (n / 2) mod 8)%nat in
        (pairwise_sum k (firstn n2 xs) + pairwise_sum k (skipn n2 xs))%float
    end.

Definition pairwise (xs : list float) : float := pairwise_sum (length xs) xs.

(** [a.sum()] of a float64 array: the reduction starts from zero and takes
    the whole array at once. *)
Definition np_sum (xs : list float) : float := (0 + pairwise xs)%float.

(** [a.sum(dtype=float64)] of an integer array: the values are cast in
    buffers of 8192, and the reduction takes one buffer at a time. *)
Definition buffer_size : nat := Nat.pow 2 13.

Fixpoint buffered_sum (fuel : nat) (acc : float) (xs : list float) : float :=
  match fuel, xs with
  | S k, _ :: _ =>
      buffered_sum k (acc + pairwise (firstn buffer_size xs))%float
                   (skipn buffer_size xs)
  | _, _ => acc
  end.

Definition np_sum_cast (zs : list Z) : float :=
  buffered_sum (length zs) 0%float (map float_of_Z zs).

(** [numpy.mean] of a float64 array that is not empty. *)
Definition np_mean (xs : list float) : float :=
  (np_sum xs / float_of_nat (length xs))%float.

Fixpoint insert_sorted (x : float) (xs : list float) : list float :=
  match xs with
  | [] => [x]
  | y :: r => if (x <=? y)%float then x :: xs else y :: insert_sorted x r
  end.

Definition sort (xs : list float) : list float :=
  fold_right insert_sorted [] xs.

(** Rounding of a rational to the nearest integer, ties to even. *)
Definition round_half_even (q : Q) : Z :=
  let f := Qfloor q in
  match Qcompare (q - inject_Z f)%Q (1 # 2)%Q with
  | Lt => f
  | Gt => f + 1
  | Eq => if Z.even f then f else f + 1
  end.

(** ** Reductions of a numeric column, missing values skipped *)

Definition dropnan (xs : list float) : list float :=
  filter (fun f => negb (isnan f)) xs.

(** The missing values replaced by zero, as pandas does before it sums. *)
Definition fill_zero (xs : list float) : list float :=
  map (fun f => if isnan f then 0%float else f) xs.

(** The cells of a numeric column as float64. *)
Definition float_values (s : series) : list float :=
  match s with
  | SObject _ => []
  | SInt64 cells => map float_of_Z cells
  | SFloat64 cells => cells
  end.

(** [s.count()] *)
Definition series_count (s : series) : nat :=
  length (filter (fun v => negb (isna v)) (tolist s)).

(** [s.mean()]: the sum in float64 divided by the number of values that are
    not missing. *)
Definition series_mean (s : series) : number :=
  match s with
  | SObject _ => NFloat NaN
  | SInt64 cells =>
      match cells with
      | [] => NFloat NaN
      | _ => NFloat (np_sum_cast cells / float_of_nat (length cells))%float
      end
  | SFloat64 cells =>
      let count := length (dropnan cells) in
      if (count =? 0)%nat then NFloat NaN
      else NFloat (np_sum (fill_zero cells) / float_of_nat count)%float
  end.

(** [s.median()]: the values cast to float64, the missing ones removed;
    the middle value, or the mean of the two middle values. *)
Definition series_median (s : series) : number :=
  let xs := sort (dropnan (float_values s)) in
  let n := length xs in
  match xs with
  | [] => NFloat NaN
  | _ =>
      if Nat.odd n then NFloat (np_mean [nth (n / 2) xs NaN])
      else NFloat (np_mean [nth (n / 2 - 1) xs NaN; nth (n / 2) xs NaN])
  end.

Definition fmin (a b : float) : float := if (a <? b)%float then a else b.
Definition fmax (a b : float) : float := if (b <? a)%float then a else b.

Definition reduce {A} (f : A -> A -> A) (xs : list A) : option A :=
  match xs with
  | [] => None
  | x :: r => Some (fold_left f r x)
  end.

Definition extremum (fz : Z -> Z -> Z) (ff : float -> float -> float)
    (s : series) : number :=
  match s with
  | SObject _ => NFloat NaN
  | SInt64 cells =>
      match reduce fz cells with Some z => NInt z | None => NFloat NaN end
  | SFloat64 cells =>
      match reduce ff (dropnan cells) with Some f => NFloat f | None => NFloat NaN end
  end.

(** [s.min()] and [s.max()]: an int64 column answers with an integer. *)
Definition series_min : series -> number := extremum Z.min fmin.
Definition series_max : series -> number := extremum Z.max fmax.

(** [s.var()] with one degree of freedom removed: the mean of the squared
    distances to the mean, in two passes. *)
Definition series_var (s : series) : float :=
  let xs := float_values s in
  let count := length (dropnan xs) in
  if (count <=? 1)%nat then NaN
  else
    let avg := (np_sum (fill_zero xs) / float_of_nat count)%float in
    let sqr := map (fun x => if isnan x then 0%float
                             else ((avg - x) * (avg - x))%float) xs in
    (np_sum sqr / float_of_nat (count - 1))%float.

(** [s.std()] *)
Definition series_std (s : series) : number := NFloat (sqrt (series_var s)).

(** ** Chart specifications *)

Inductive margin : Type := Margin (l r b t : Z).

Inductive trace : Type :=
| Pie (values labels : list value) (textinfo hoverinfo : string) (hole : Q)
| Box (y : list value) (name boxpoints : string) (jitter pointpos : Q)
| Bar (x y : list value) (marker_color : string).

Record layout : Type := Layout {
  title : string;
  xaxis_title : option string;
  yaxis_title : option string;
  layout_margin : margin;
  showlegend : option bool
}.

Record chart : Type := Chart { data : list trace; chart_layout : layout }.

(** A Python [dict] with [str] keys, in insertion order. *)
Definition dict (K V : Type) : Type := list (K * V).

Fixpoint dict_set {K V} (eqb : K -> K -> bool) (d : dict K V) (k : K) (v : V)
    : dict K V :=
  match d with
  | [] => [(k, v)]
  | (k', v') :: r =>
      if eqb k' k then (k', v) :: r else (k', v') :: dict_set eqb r k v
  end.

Fixpoint dict_get {K V} (eqb : K -> K -> bool) (d : dict K V) (k : K) : option V :=
  match d with
  | [] => None
  | (k', v) :: r => if eqb k' k then Some v else dict_get eqb r k
  end.

Definition keys {K V} (d : dict K V) : list K := map fst d.

(** The entry of the statistics record for one column. *)
Record column_stats : Type := ColumnStats {
  st_mean : number;
  st_median : number;
  st_min : number;
  st_max : number;
  st_std : number;
  st_count : Z
}.

(** The payload of the JSON response. *)
Inductive error_message : Type :=
| Invalid_table_name
| Table_is_empty
| Exception (e : exn).

Inductive response : Type :=
| Failure (error : error_message)
| Success (table : DataFrame)
          (visualizations : dict string chart)
          (statistics : dict label column_stats)
          (table_description : string).

(** ** Library conversions used in the examples

    Conversions that can be run: decimal literals for parsing, and fixed
    notation of the exact value for printing. *)

Definition digit_of (c : ascii) : option Z :=
  let n := N_of_ascii c in
  if ((48 <=? n) && (n <=? 57))%N then Some (Z.of_N n - 48) else None.

Fixpoint digits_value (acc : Z) (s : string) : option Z :=
  match s with
  | EmptyString => Some acc
  | String c r =>
      match digit_of c with
      | Some d => digits_value (10 * acc + d) r
      | None => None
      end
  end.

(** Accepts an optional minus sign followed by one or more digits. *)
Definition integer_literal (s : string) : option number :=
  match s with
  | EmptyString => None
  | String "-" EmptyString => None
  | String "-" r => option_map (fun z => NInt (- z)) (digits_value 0 r)
  | _ => option_map NInt (digits_value 0 s)
  end.

Fixpoint before_point (s : string) : string :=
  match s with
  | EmptyString => EmptyString
  | String c r => if Ascii.eqb c "." then EmptyString else String c (before_point r)
  end.

Fixpoint after_point (s : string) : option string :=
  match s with
  | EmptyString => None
  | String c r => if Ascii.eqb c "." then Some r else after_point r
  end.

(** Accepts an integer literal, or digits with one decimal point: the
    digits read as an integer, divided by the power of ten. *)
Definition decimal_literal (s : string) : option number :=
  match after_point s with
  | None => integer_literal s
  | Some frac =>
      match integer_literal (before_point s ++ frac) with
      | Some (NInt m) =>
          Some (NFloat (float_of_Z m
                        / float_of_Z (10 ^ Z.of_nat (String.length frac)))%float)
      | _ => None
      end
  end.

Fixpoint fraction_digits (fuel : nat) (frac : Q) : string :=
  match fuel with
  | O => EmptyString
  | S k =>
      let d := Qfloor (frac * 10)%Q in
      let rest := Qred (frac * 10 - inject_Z d)%Q in
      String (ascii_of_N (Z.to_N d + 48))
             (if Qeq_bool rest 0 then EmptyString else fraction_digits k rest)
  end.

(** Fixed notation with at least one and at most seventeen decimals. *)
Definition fixed_notation (f : float) : string :=
  match magnitude f with
  | Some a =>
      let i := Qfloor a in
      (if sign_bit f then "-" else "")
      ++ str_of_Z i ++ "." ++ fraction_digits 17 (Qred (a - inject_Z i)%Q)
  | None => ""
  end.

(** ** The format of the numbers in the HTML table, line 225 *)

(** The thousands separators that [','] asks for in a format
    specification: one before every group of three digits, from the right. *)
Fixpoint group_thousands (digits : string) : string :=
  match digits with
  | EmptyString => EmptyString
  | String c r =>
      String c (if (0 <? String.length r)%nat
                   && (String.length r mod 3 =? 0)%nat
                then String "," (group_thousands r)
                else group_thousands r)
  end.

(** A decimal digit. *)
Definition is_digit (c : ascii) : bool :=
  let n := N_of_ascii c in ((48 <=? n) && (n <=? 57))%N.

(** [x.is_integer()], on the magnitude. *)
Definition is_integer (q : Q) : bool := Qeq_bool q (inject_Z (Qfloor q)).

Definition sign_of (x : float) : string := if sign_bit x then "-" else "".

Definition digit_char (d : Z) : ascii := ascii_of_N (Z.to_N d + 48).

(** ['{:,.0f}'.format(x)] for a finite x of magnitude q: the magnitude
    rounded to the nearest integer, grouped. *)
Definition format_0f (x : float) (q : Q) : string :=
  sign_of x ++ group_thousands (str_of_Z (round_half_even q)).

(** ['{:,.2f}'.format(x)] for a finite x of magnitude q: the magnitude
    rounded to the nearest hundredth, its integer part grouped. *)
Definition format_2f (x : float) (q : Q) : string :=
  let cents := round_half_even (q * 100)%Q in
  sign_of x ++ group_thousands (str_of_Z (cents / 100)) ++ "."
  ++ String (digit_char (cents mod 100 / 10))
            (String (digit_char (cents mod 10)) EmptyString).

(** The [float_format] handed to [to_html], on a float. *)
Definition float_format (x : float) : string :=
  match magnitude x with
  | Some q => if is_integer q then format_0f x q else format_2f x q
  | None => if isnan x then "nan" else sign_of x ++ "inf"
  end.


(** ** The workbook and the configuration file *)

(** [del d[k]]: [None] stands for the [KeyError] of an absent key. *)
Fixpoint dict_del {K V} (eqb : K -> K -> bool) (d : dict K V) (k : K)
    : option (dict K V) :=
  match d with
  | [] => None
  | (k', v) :: r =>
      if eqb k' k then Some r
      else option_map (cons (k', v)) (dict_del eqb r k)
  end.

(** Lines 21 and 22: the mapping read from the YAML file, without the
    entry of the respondent identifier. *)
Definition load_descriptions (yaml : dict string string)
    : option (dict string string) :=
  dict_del String.eqb yaml "PUMFID".

Module Workbook.

(** The file NGS_Tables.xlsx: it cannot be opened, or it holds sheets. *)
Inductive workbook : Type :=
| Unreadable (message : string)
| Sheets (sheets : dict string DataFrame).

(** [pd.read_excel("NGS_Tables.xlsx", sheet_name=name)]; [None] stands for
    the exception of an unreadable file or an absent sheet. *)
Definition read_excel (wb : workbook) (sheet_name : string) : option DataFrame :=
  match wb with
  | Unreadable _ => None
  | Sheets sheets => dict_get String.eqb sheets sheet_name
  end.

Definition _get_NGS_table (wb : workbook) (table_name : string) : DataFrame :=
  match read_excel wb table_name with
  | Some df => df
  | None => []
  end.

End Workbook.

(** The answer of [check_tables]. *)
Inductive tables_report : Type :=
| Report (available missing : list string) (total_available total_missing : nat)
| Report_error (error : string).

(** The arguments handed to the template of the start page. *)
Record index_page : Type := IndexPage {
  tables : list string;
  table_descriptions : dict string string;
  total_tables : nat;
  available_count : nat
}.


(** ** What [pd.to_numeric] keeps track of *)

Definition INT64_MIN : Z := - 2 ^ 63.
Definition INT64_MAX : Z := 2 ^ 63 - 1.
Definition UINT64_MAX : Z := 2 ^ 64 - 1.

(** An integer that fits neither int64 nor uint64. *)
Definition out_of_range (n : number) : bool :=
  match n with
  | NInt z => (z <? INT64_MIN) || (UINT64_MAX <? z)
  | NFloat _ => false
  end.

(** An integer that needs uint64. *)
Definition is_uint (n : number) : bool :=
  match n with NInt z => INT64_MAX <? z | NFloat _ => false end.

(** A negative integer. *)
Definition is_sint (n : number) : bool :=
  match n with NInt z => z <? 0 | NFloat _ => false end.

(** A missing value. *)
Definition is_null (n : number) : bool :=
  match n with NInt _ => false | NFloat f => isnan f end.

(** No dtype holds an integer beyond int64 together with a negative integer
    or a missing value. *)
Definition uint64_conflict (ns : list number) : bool :=
  existsb is_uint ns && (existsb is_null ns || existsb is_sint ns).

(** ** What [jsonify] can encode *)

(** The numbers of a statistics entry are numpy scalars: a float64 is
    encoded as a Python float, an integer scalar is refused.  The count is a
    Python [int]. *)
Definition serializable_number (n : number) : bool := negb (is_int n).

Definition serializable_stats (e : column_stats) : bool :=
  serializable_number (st_mean e) && serializable_number (st_median e)
  && serializable_number (st_min e) && serializable_number (st_max e)
  && serializable_number (st_std e).

(** The cells of the charts are Python objects ([tolist]), which are all
    encoded; so are the strings and the keys.  The response is encoded
    exactly when every statistics entry is. *)
Definition serializable (statistics : dict label column_stats) : bool :=
  forallb (fun kv => serializable_stats (snd kv)) statistics.

(** ** The application *)

Section App.

Set Default Proof Using "Type".

(** The conversion of one string by [pd.to_numeric]: an integer, a float
    (NaN included), or [None] when the string cannot be parsed. *)
Variable to_double : string -> option number.

(** [str(x)] for a finite float. *)
Variable repr_finite : float -> string.

(** The descriptions read from the YAML file at start-up. *)
Variable TABLE_DESCRIPTIONS : dict string string.

(** The sheets of the workbook, as [_get_NGS_table] reads them. *)
Variable _get_NGS_table : string -> DataFrame.

(** [str(v)] *)
Definition py_str (v : value) : string :=
  match v with
  | VStr s => s
  | VNum (NInt z) => str_of_Z z
  | VNum (NFloat f) =>
      if isnan f then "nan"
      else if is_infinity f then (if sign_bit f then "-inf" else "inf")
      else repr_finite f
  | VNone => "None"
  end.

(** [s.astype(str)] *)
Definition astype_str (s : series) : series :=
  SObject (map (fun v => VStr (py_str v)) (tolist s)).

(** The conversion of one cell by [pd.to_numeric]. *)
Definition convert_value (v : value) : option number :=
  match v with
  | VStr s => to_double s
  | VNum n => Some n
  | VNone => Some (NFloat NaN)
  end.

(** The result column: int64 (or uint64) when every cell is an integer,
    else float64. *)
Definition pack_numeric (ns : list number) : series :=
  if forallb is_int ns then SInt64 (map int_of ns)
  else SFloat64 (map to_float ns).

(** Without [errors='coerce'] a value that cannot be parsed and an integer
    outside the range of int64 and uint64 raise. *)
Fixpoint convert_all (vs : list value) : result (list number) :=
  match vs with
  | [] => Ok []
  | v :: r =>
      match convert_value v with
      | Some n =>
          if out_of_range n then Raise ValueError_out_of_range
          else ns <- convert_all r ;; Ok (n :: ns)
      | None => Raise ValueError_parse
      end
  end.

(** [pd.to_numeric(s)]: on a conflict between uint64 and int64 or missing
    values the column is handed back as it is. *)
Definition to_numeric (s : series) : result series :=
  match s with
  | SObject cells =>
      ns <- convert_all cells ;;
      Ok (if uint64_conflict ns then s else pack_numeric ns)
  | _ => Ok s
  end.

(** [pd.to_numeric(s, errors='coerce')] *)
Definition to_numeric_coerce (s : series) : series :=
  match s with
  | SObject cells =>
      pack_numeric (map (fun v => match convert_value v with
                                  | Some n => n
                                  | None => NFloat NaN
                                  end) cells)
  | _ => s
  end.

(** *** Cleaning, lines 203 to 218 of [get_table_data] *)

(** The body of the loop over [df.columns]. *)
Definition clean_column (df : DataFrame) (col : label) : result DataFrame :=
  s <- getitem df col ;;
  if is_object (dtype_of s) then
    let df := setitem df col (astype_str s) in
    lo <- label_lower col ;;
    if negb (String.eqb lo "code") then
      s <- getitem df col ;;
      s <- str_replace "," "" s ;;
      s <- str_replace "%" "" s ;;
      let df := setitem df col s in
      s <- getitem df col ;;
      Ok (try_except (n <- to_numeric s ;; Ok (setitem df col n)) df)
    else Ok df
  else Ok df.

Fixpoint clean_columns (cols : list label) (df : DataFrame) : result DataFrame :=
  match cols with
  | [] => Ok df
  | col :: rest => df <- clean_column df col ;; clean_columns rest df
  end.

(** The handling of the Total row. *)
Definition blank_total_code (df : DataFrame) : result DataFrame :=
  if has_column df (LStr "Answer Categories") && has_column df (LStr "Code") then
    ac <- getitem df (LStr "Answer Categories") ;;
    stripped <- str_strip ac ;;
    lowered <- str_lower stripped ;;
    let total_mask := eq_str_mask lowered "total" in
    code <- getitem df (LStr "Code") ;;
    Ok (setitem df (LStr "Code") (loc_assign_str total_mask "" code))
  else Ok df.

Definition clean_data (df : DataFrame) : result DataFrame :=
  df <- clean_columns (columns df) df ;;
  blank_total_code df.

(** *** [create_visualizations] *)

Definition required_cols : list label :=
  [LStr "Answer Categories"; LStr "Weighted Frequency"].

(** [df.dropna(subset=[col])] *)
Definition dropna (df : DataFrame) (col : label) : result DataFrame :=
  s <- getitem df col ;;
  Ok (filter_rows (notna s) df).

(** Lines 82 to 91: the rows kept for plotting, frequencies parsed again. *)
Definition plot_frame (df : DataFrame) : result DataFrame :=
  ac <- getitem df (LStr "Answer Categories") ;;
  let plot_df := filter_rows (mask_and (notna ac) (ne_str ac "Total")) df in
  wf <- getitem plot_df (LStr "Weighted Frequency") ;;
  txt <- str_replace "," "" (astype_str wf) ;;
  let plot_df := setitem plot_df (LStr "Weighted Frequency") (to_numeric_coerce txt) in
  dropna plot_df (LStr "Weighted Frequency").

Definition pie_chart (table_name : string) (categories frequencies : list value)
    (n : nat) : chart :=
  Chart [Pie frequencies categories "percent" "label+percent+value"
             (if (5 <? n)%nat then 3 # 10 else 0)%Q]
        (Layout (table_name ++ ": Weighted Distribution") None None
                (Margin 20 20 20 40) (Some true)).

Definition box_plot (table_name : string) (frequencies : list value) : chart :=
  Chart [Box frequencies "Weighted Frequency" "all" (3 # 10)%Q (- 18 # 10)%Q]
        (Layout (table_name ++ ": Weighted Frequency Distribution") None
                (Some "Weighted Frequency") (Margin 60 20 40 40) None).

Definition bar_chart (table_name : string) (categories frequencies : list value)
    : chart :=
  Chart [Bar categories frequencies "rgba(55, 128, 191, 0.7)"]
        (Layout (table_name ++ ": Weighted Frequency by Category")
                (Some "Answer Categories") (Some "Weighted Frequency")
                (Margin 60 20 100 40) None).

(** Lines 96 to 149: the three chart entries, from the plotting frame. *)
Definition charts (table_name : string) (plot_df : DataFrame)
    : result (dict string chart) :=
  cat <- getitem plot_df (LStr "Answer Categories") ;;
  freq <- getitem plot_df (LStr "Weighted Frequency") ;;
  let categories := tolist cat in
  let frequencies := tolist freq in
  let visualizations :=
    dict_set String.eqb [] "pie_chart"
      (pie_chart table_name categories frequencies (nrows plot_df)) in
  let visualizations :=
    if is_numeric_dtype freq
    then dict_set String.eqb visualizations "box_plot"
           (box_plot table_name frequencies)
    else visualizations in
  Ok (dict_set String.eqb visualizations "bar_chart"
        (bar_chart table_name categories frequencies)).

(** Every operation that can raise comes before the first entry is stored,
    so the bundle returned after an exception is the empty one. *)
Definition create_visualizations (df : DataFrame) (table_name : string)
    : dict string chart :=
  if empty df then []
  else
    try_except
      (if negb (forallb (has_column df) required_cols) then Ok []
       else
         plot_df <- plot_frame df ;;
         if empty plot_df then Ok []
         else charts table_name plot_df)
      [].

(** *** [get_basic_statistics] *)

Definition column_entry (s : series) : column_stats :=
  ColumnStats (round2 (series_mean s)) (round2 (series_median s))
              (round2 (series_min s)) (round2 (series_max s))
              (round2 (series_std s)) (Z.of_nat (series_count s)).

(** The comprehension that selects the columns. *)
Fixpoint numeric_cols (df : DataFrame) (cols : list label) : result (list label) :=
  match cols with
  | [] => Ok []
  | col :: rest =>
      s <- getitem df col ;;
      keep <- (if is_numeric_dtype s
               then lo <- label_lower col ;; Ok (negb (String.eqb lo "code"))
               else Ok false) ;;
      tl <- numeric_cols df rest ;;
      Ok (if keep then col :: tl else tl)
  end.

Fixpoint stats_loop (df : DataFrame) (cols : list label)
    (stats : dict label column_stats) : result (dict label column_stats) :=
  match cols with
  | [] => Ok stats
  | col :: rest =>
      s <- getitem df col ;;
      stats_loop df rest (dict_set label_eqb stats col (column_entry s))
  end.

(** The body of the [try] block. *)
Definition statistics_of (df : DataFrame) : result (dict label column_stats) :=
  cols <- numeric_cols df (columns df) ;;
  stats_loop df cols [].

Definition get_basic_statistics (df : DataFrame) : dict label column_stats :=
  if empty df then []
  else try_except (statistics_of df) [].

(** *** [get_table_data] *)

(** The response is built by [jsonify] inside the [try] block: an
    exception of the cleaning and an exception of the encoding both end in
    the error object. *)
Definition get_table_data (table_name : option string) : response :=
  match table_name with
  | None => Failure Invalid_table_name
  | Some name =>
      if String.eqb name "" || negb (existsb (String.eqb name) (keys TABLE_DESCRIPTIONS))
      then Failure Invalid_table_name
      else
        let df := _get_NGS_table name in
        if empty df then Failure Table_is_empty
        else
          match clean_data df with
          | Raise e => Failure (Exception e)
          | Ok df =>
              let visualizations := create_visualizations df name in
              let statistics := get_basic_statistics df in
              if serializable statistics then
                Success df visualizations statistics
                        (match dict_get String.eqb TABLE_DESCRIPTIONS name with
                         | Some d => d
                         | None => ""
                         end)
              else Failure (Exception TypeError_not_serializable)
          end
  end.

(** *** [check_tables], [get_available_tables] and [index] *)

(** [t in existing_sheets] *)
Definition in_sheets (existing_sheets : list string) (t : string) : bool :=
  existsb (String.eqb t) existing_sheets.

Definition check_tables (wb : Workbook.workbook) : tables_report :=
  match wb with
  | Workbook.Unreadable message => Report_error message
  | Workbook.Sheets sheets =>
      let existing_sheets := keys sheets in
      let available := filter (in_sheets existing_sheets) (keys TABLE_DESCRIPTIONS) in
      let missing :=
        filter (fun t => negb (in_sheets existing_sheets t)) (keys TABLE_DESCRIPTIONS) in
      Report available missing (length available) (length missing)
  end.

Definition get_available_tables (wb : Workbook.workbook) : list string :=
  match wb with
  | Workbook.Unreadable _ => []
  | Workbook.Sheets sheets =>
      let existing_sheets := keys sheets in
      filter (in_sheets existing_sheets) (keys TABLE_DESCRIPTIONS)
  end.

Definition index (wb : Workbook.workbook) : index_page :=
  let available_tables := get_available_tables wb in
  IndexPage available_tables TABLE_DESCRIPTIONS
            (length TABLE_DESCRIPTIONS) (length available_tables).


(** ** Properties of the columns, used to state the results *)

(** A text column: dtype object, every cell a [str]. *)
Definition is_text (s : series) : bool :=
  match s with
  | SObject cells => forallb is_str cells
  | _ => false
  end.


(** An object column with every cell replaced by its string form; a
    numeric column as it is. *)
Definition stringified (s : series) : series :=
  match s with
  | SObject _ => astype_str s
  | _ => s
  end.

Definition is_code (name : string) : bool :=
  String.eqb (PyStr.lower name) "code".

(** The two replacements of line 209 on one string. *)
Definition strip_separators (s : string) : string :=
  PyStr.replace "%" "" (PyStr.replace "," "" s).

Definition parses (s : string) : Prop := to_double s <> None.

(** The numbers read in a list of strings, when each of them parses. *)
Fixpoint parsed (xs : list string) : option (list number) :=
  match xs with
  | [] => Some []
  | x :: r =>
      match to_double x, parsed r with
      | Some n, Some ns => Some (n :: ns)
      | _, _ => None
      end
  end.

(** The strings that [pd.to_numeric] turns into a numeric column: each
    parses, no integer is outside the range of int64 and uint64, and no
    integer beyond int64 comes with a negative integer or a missing value. *)
Definition accepted (xs : list string) : bool :=
  match parsed xs with
  | Some ns => forallb (fun n => negb (out_of_range n)) ns
               && negb (uint64_conflict ns)
  | None => false
  end.

(** The cells of an object column after line 209. *)
Definition stripped_text (cells : list value) : list string :=
  map (fun v => strip_separators (py_str v)) cells.

(** The effect of the loop body on the column it visits. *)
Definition clean_series (col : label) (s : series) : result series :=
  match s with
  | SObject cells =>
      lo <- label_lower col ;;
      if negb (String.eqb lo "code") then
        let txt := SObject (map (fun v => VStr (strip_separators (py_str v))) cells) in
        Ok (try_except (to_numeric txt) txt)
      else Ok (astype_str s)
  | _ => Ok s
  end.

Fixpoint clean_frame (df : DataFrame) : result DataFrame :=
  match df with
  | [] => Ok []
  | (l, s) :: r =>
      s' <- clean_series l s ;;
      r' <- clean_frame r ;;
      Ok ((l, s') :: r')
  end.

(** The test of line 217 on one cell of the cleaned category column. *)
Definition is_total (v : value) : bool :=
  match v with
  | VStr x => String.eqb (PyStr.lower (PyStr.strip x)) "total"
  | _ => false
  end.

(** What the handling of the Total row does to a frame when it returns. *)
Inductive blanked (df : DataFrame) : DataFrame -> Prop :=
| blanked_skip :
    has_column df (LStr "Answer Categories") && has_column df (LStr "Code") = false ->
    blanked df df
| blanked_set cells code :
    getitem df (LStr "Answer Categories") = Ok (SObject cells) ->
    getitem df (LStr "Code") = Ok code ->
    blanked df (setitem df (LStr "Code")
                  (loc_assign_str (map is_total cells) "" code)).

(** Every column has [n] rows. *)
Definition all_len (df : DataFrame) (n : nat) : Prop :=
  forall l s, In (l, s) df -> len s = n.

(** The row test of lines 83 and 84. *)
Definition keeps_category (v : value) : bool :=
  negb (isna v) && negb (eq_str v "Total").

(** A frequency cell as line 87 parses it again. *)
Definition reparse (v : value) : number :=
  match to_double (PyStr.replace "," "" (py_str v)) with
  | Some n => n
  | None => NFloat NaN
  end.

(** The rows that pass the test on the category. *)
Definition kept_rows (ac wf : series) : list (value * value) :=
  filter (fun r => keeps_category (fst r)) (combine (tolist ac) (tolist wf)).

Definition parsed_ok (v : value) : bool := negb (isnan (to_float (reparse v))).

(** The rows that reach the charts: all the kept rows when each frequency
    is an integer, else those whose frequency is not missing as a float. *)
Definition charted_rows (ac wf : series) : list (value * value) :=
  if forallb is_int (map (fun k => reparse (snd k)) (kept_rows ac wf))
  then kept_rows ac wf
  else filter (fun r => parsed_ok (snd r)) (kept_rows ac wf).

(** A number as a cell of the column built by [pack_numeric]. *)
Definition frequency_cell (all_int : bool) (n : number) : value :=
  if all_int then VNum (NInt (int_of n)) else VNum (NFloat (to_float n)).

(** The frequencies of the charted rows, as cells of the parsed column. *)
Definition charted_frequencies (ac wf : series) : list value :=
  map (fun r =>
         frequency_cell
           (forallb is_int (map (fun k => reparse (snd k)) (kept_rows ac wf)))
           (reparse (snd r)))
      (charted_rows ac wf).

Definition is_str_label (l : label) : bool :=
  match l with LStr _ => true | LInt _ => false end.

(** A column of integers. *)
Definition int_typed (s : series) : bool :=
  match s with SInt64 _ => true | _ => false end.

(** The columns that enter the statistics record. *)
Definition selected (c : label * series) : bool :=
  is_numeric_dtype (snd c)
  && match fst c with LStr name => negb (is_code name) | LInt _ => false end.

(** * Facts *)

(** Propositional reasoning; the parameters of function type are put aside
    so that they are not taken for implications. *)
Ltac logic :=
  try clear _get_NGS_table; try clear repr_finite; try clear to_double; tauto.

(** ** Strings *)

Lemma replace_absent c s :
  PyStr.contains c s = false -> PyStr.replace c "" s = s.
Proof.
  induction s as [|d r IH]; simpl; auto.
  destruct (Ascii.eqb d c); simpl; [discriminate|].
  intros H. now rewrite IH.
Qed.




Lemma contains_lstrip c s :
  PyStr.contains c s = true ->
  PyStr.isspace c = true \/ PyStr.contains c (PyStr.lstrip s) = true.
Proof.
  induction s as [|d r IH]; simpl; [discriminate|].
  destruct (PyStr.isspace d) eqn:Ed.
  - destruct (Ascii.eqb d c) eqn:E; simpl; [|exact IH].
    apply Ascii.eqb_eq in E. subst. auto.
  - simpl. auto.
Qed.

Lemma contains_rstrip c s :
  PyStr.contains c s = true ->
  PyStr.isspace c = true \/ PyStr.contains c (PyStr.rstrip s) = true.
Proof.
  induction s as [|d r IH]; simpl; [discriminate|].
  destruct (Ascii.eqb d c) eqn:E; simpl.
  - intros _. apply Ascii.eqb_eq in E. subst d.
    destruct (PyStr.rstrip r); [|right; simpl; now rewrite Ascii.eqb_refl].
    destruct (PyStr.isspace c); [now left|right].
    simpl. now rewrite Ascii.eqb_refl.
  - intros H. destruct (IH H) as [Hs|Hc]; [now left|right].
    destruct (PyStr.rstrip r); [discriminate|].
    simpl. simpl in Hc. rewrite Hc. apply orb_true_r.
Qed.

Lemma contains_strip c s :
  PyStr.contains c s = true ->
  PyStr.isspace c = true \/ PyStr.contains c (PyStr.strip s) = true.
Proof.
  intros H. unfold PyStr.strip.
  destruct (contains_lstrip _ _ H) as [Hs|Hc]; [now left|].
  now apply contains_rstrip.
Qed.

Lemma contains_lower c s :
  PyStr.contains c s = true ->
  PyStr.contains (PyStr.lower_char c) (PyStr.lower s) = true.
Proof.
  induction s as [|d r IH]; simpl; [discriminate|].
  destruct (Ascii.eqb d c) eqn:E; simpl.
  - apply Ascii.eqb_eq in E. subst. now rewrite Ascii.eqb_refl.
  - intros H. rewrite IH by assumption. apply orb_true_r.
Qed.

(** A string that trims and lowercases to "total" holds no separator. *)
Lemma total_has_no_separator s :
  PyStr.lower (PyStr.strip s) = "total" -> strip_separators s = s.
Proof.
  intros H.
  assert (Hno : forall c, PyStr.isspace c = false ->
                  PyStr.contains (PyStr.lower_char c) "total" = false ->
                  PyStr.contains c s = false).
  { intros c Hsp Hc. destruct (PyStr.contains c s) eqn:E; [|reflexivity].
    destruct (contains_strip _ _ E) as [Hs|Hs]; [congruence|].
    apply contains_lower in Hs. rewrite H in Hs. congruence. }
  unfold strip_separators.
  rewrite (replace_absent "," s) by (apply Hno; reflexivity).
  apply replace_absent, Hno; reflexivity.
Qed.

(** ** Labels and frames *)

Lemma label_eqb_eq a b : label_eqb a b = true <-> a = b.
Proof.
  destruct a, b; simpl; split; intros H; try discriminate; try congruence.
  - apply String.eqb_eq in H. congruence.
  - inversion H. apply String.eqb_refl.
  - apply Z.eqb_eq in H. congruence.
  - inversion H. apply Z.eqb_refl.
Qed.

Lemma label_eqb_refl a : label_eqb a a = true.
Proof. now apply label_eqb_eq. Qed.

Lemma label_eqb_neq a b : label_eqb a b = false <-> a <> b.
Proof.
  rewrite <- label_eqb_eq. destruct (label_eqb a b); split; congruence.
Qed.

Lemma getitem_In df l s : getitem df l = Ok s -> In (l, s) df.
Proof.
  induction df as [|[k x] r IH]; simpl; [discriminate|].
  destruct (label_eqb k l) eqn:E.
  - apply label_eqb_eq in E. intros H. inversion H. subst. now left.
  - intros H. right. auto.
Qed.

Lemma In_getitem df l s :
  NoDup (columns df) -> In (l, s) df -> getitem df l = Ok s.
Proof.
  induction df as [|[k x] r IH]; simpl; [logic|].
  intros Hnd [H|H].
  - inversion H. subst. now rewrite label_eqb_refl.
  - inversion Hnd as [|? ? Hk Hr]. subst.
    destruct (label_eqb k l) eqn:E.
    + apply label_eqb_eq in E. subst. exfalso. apply Hk.
      unfold columns. apply in_map_iff. now exists (l, s).
    + auto.
Qed.

Lemma getitem_has_column df l s : getitem df l = Ok s -> has_column df l = true.
Proof.
  intros H. apply getitem_In in H. unfold has_column, columns.
  apply existsb_exists. exists l. split; [|apply label_eqb_refl].
  apply in_map_iff. now exists (l, s).
Qed.

Lemma has_column_getitem df l :
  has_column df l = true -> exists s, getitem df l = Ok s.
Proof.
  unfold has_column, columns.
  induction df as [|[k x] r IH]; simpl; [discriminate|].
  destruct (label_eqb l k) eqn:E.
  - apply label_eqb_eq in E. subst. rewrite label_eqb_refl. eauto.
  - simpl. intros H. destruct (label_eqb k l) eqn:E'; eauto.
Qed.

Lemma columns_setitem df l s :
  has_column df l = true -> columns (setitem df l s) = columns df.
Proof.
  unfold has_column, columns.
  induction df as [|[k x] r IH]; simpl; [discriminate|].
  destruct (label_eqb l k) eqn:E.
  - apply label_eqb_eq in E. subst. now rewrite label_eqb_refl.
  - simpl. intros H. destruct (label_eqb k l) eqn:E'; simpl; auto.
    now rewrite IH.
Qed.

Lemma getitem_setitem_same df l s : getitem (setitem df l s) l = Ok s.
Proof.
  induction df as [|[k x] r IH]; simpl.
  - now rewrite label_eqb_refl.
  - destruct (label_eqb k l) eqn:E; simpl; now rewrite E.
Qed.

Lemma getitem_setitem_other df l k s :
  k <> l -> getitem (setitem df l s) k = getitem df k.
Proof.
  intros Hkl. induction df as [|[j x] r IH]; simpl.
  - destruct (label_eqb l k) eqn:E; auto.
    apply label_eqb_eq in E. congruence.
  - destruct (label_eqb j l) eqn:E; simpl.
    + apply label_eqb_eq in E. subst.
      destruct (label_eqb l k) eqn:E'; auto.
      apply label_eqb_eq in E'. congruence.
    + destruct (label_eqb j k); auto.
Qed.

Lemma setitem_setitem df l s t :
  setitem (setitem df l s) l t = setitem df l t.
Proof.
  induction df as [|[k x] r IH]; simpl.
  - now rewrite label_eqb_refl.
  - destruct (label_eqb k l) eqn:E; simpl; rewrite E; auto.
    now rewrite IH.
Qed.

Lemma setitem_app_cons pre l s t suf :
  ~ In l (columns pre) ->
  setitem (pre ++ (l, s) :: suf)%list l t = (pre ++ (l, t) :: suf)%list.
Proof.
  induction pre as [|[k x] r IH]; simpl; intros H.
  - now rewrite label_eqb_refl.
  - destruct (label_eqb k l) eqn:E.
    + apply label_eqb_eq in E. logic.
    + rewrite IH; logic.
Qed.

Lemma getitem_app_cons pre l s suf :
  ~ In l (columns pre) -> getitem (pre ++ (l, s) :: suf)%list l = Ok s.
Proof.
  induction pre as [|[k x] r IH]; simpl; intros H.
  - now rewrite label_eqb_refl.
  - destruct (label_eqb k l) eqn:E.
    + apply label_eqb_eq in E. logic.
    + apply IH. logic.
Qed.


Lemma setitem_getitem_id df l s : getitem df l = Ok s -> setitem df l s = df.
Proof.
  induction df as [|[k x] r IH]; simpl; [discriminate|].
  destruct (label_eqb k l) eqn:E.
  - intros H. now inversion H.
  - intros H. now rewrite IH.
Qed.

(** ** The cleaning loop, column by column *)

Lemma str_replace_text old new cells :
  str_replace old new (SObject (map VStr cells))
  = Ok (SObject (map VStr (map (PyStr.replace old new) cells))).
Proof.
  unfold str_replace, str_method. now rewrite !map_map.
Qed.

Lemma astype_str_object cells :
  astype_str (SObject cells) = SObject (map VStr (map py_str cells)).
Proof. unfold astype_str. simpl. now rewrite map_map. Qed.

Lemma clean_column_series df col s :
  getitem df col = Ok s ->
  clean_column df col = (s' <- clean_series col s ;; Ok (setitem df col s')).
Proof.
  intros Hget. unfold clean_column. rewrite Hget. simpl.
  destruct s as [cells|cells|cells]; simpl;
    try (now rewrite (setitem_getitem_id _ _ _ Hget)).
  destruct col as [name|z]; simpl; [|reflexivity].
  destruct (String.eqb (PyStr.lower name) "code"); simpl; [reflexivity|].
  rewrite getitem_setitem_same. rewrite astype_str_object.
  cbn [bind]. rewrite str_replace_text. cbn [bind].
  rewrite str_replace_text. cbn [bind].
  rewrite getitem_setitem_same, !setitem_setitem. cbn [bind].
  rewrite !map_map.
  change (fun x => VStr (PyStr.replace "%" "" (PyStr.replace "," "" (py_str x))))
    with (fun v => VStr (strip_separators (py_str v))).
  set (txt := map _ cells). cbn [to_numeric].
  destruct (convert_all txt); cbn [bind try_except]; [|reflexivity].
  now rewrite setitem_setitem.
Qed.

Lemma clean_columns_from pre suf :
  NoDup (columns (pre ++ suf)%list) ->
  clean_columns (columns suf) (pre ++ suf)%list
  = (suf' <- clean_frame suf ;; Ok (pre ++ suf')%list).
Proof.
  revert pre. induction suf as [|[l s] r IH]; intros pre Hnd; simpl.
  - reflexivity.
  - assert (Hl : ~ In l (columns pre)).
    { unfold columns in *. rewrite map_app in Hnd. simpl in Hnd.
      apply NoDup_remove_2 in Hnd. intros Hin. apply Hnd.
      apply in_or_app. now left. }
    rewrite (clean_column_series _ _ s) by now apply getitem_app_cons.
    destruct (clean_series l s) as [s'|e]; simpl; [|reflexivity].
    rewrite setitem_app_cons by assumption.
    specialize (IH (pre ++ [(l, s')])%list).
    rewrite <- app_assoc in IH. simpl in IH. rewrite IH.
    + destruct (clean_frame r) as [r'|e]; simpl; [|reflexivity].
      now rewrite <- app_assoc.
    + unfold columns in *. rewrite !map_app in *. simpl in *. exact Hnd.
Qed.

(** With distinct labels the loop cleans each column on its own. *)
Lemma clean_columns_frame df :
  NoDup (columns df) -> clean_columns (columns df) df = clean_frame df.
Proof.
  intros Hnd. pose proof (clean_columns_from [] df Hnd) as H.
  simpl in H. rewrite H. now destruct (clean_frame df).
Qed.

Lemma clean_data_frame df :
  NoDup (columns df) ->
  clean_data df = (df1 <- clean_frame df ;; blank_total_code df1).
Proof.
  intros Hnd. unfold clean_data. now rewrite clean_columns_frame.
Qed.


(** ** Conversion to numbers *)

Lemma pack_numeric_numeric ns : is_numeric_dtype (pack_numeric ns) = true.
Proof. unfold pack_numeric. now destruct (forallb is_int ns). Qed.

Lemma len_pack_numeric ns : len (pack_numeric ns) = length ns.
Proof.
  unfold pack_numeric, len.
  destruct (forallb is_int ns); simpl; now rewrite !length_map.
Qed.

Lemma parses_dec s : {parses s} + {~ parses s}.
Proof.
  unfold parses. destruct (to_double s); [left; discriminate|right; congruence].
Qed.

Lemma parsed_length xs ns : parsed xs = Some ns -> length ns = length xs.
Proof.
  revert ns. induction xs as [|x r IH]; simpl; intros ns H.
  - now inversion H.
  - destruct (to_double x); [|discriminate].
    destruct (parsed r) as [ms|]; [|discriminate].
    inversion H. simpl. now rewrite (IH ms).
Qed.

Lemma parsed_map xs ns : parsed xs = Some ns <-> map to_double xs = map Some ns.
Proof.
  revert ns. induction xs as [|x r IH]; intros ns; simpl.
  - destruct ns; simpl; split; intros H; try reflexivity; discriminate.
  - destruct (to_double x) as [n|].
    + destruct ns as [|m ms]; simpl.
      * split; [|discriminate]. now destruct (parsed r).
      * split.
        -- destruct (parsed r) as [ks|] eqn:E; [|discriminate].
           intros H. inversion H. subst. f_equal. now apply IH.
        -- intros H. inversion H. subst.
           now rewrite (proj2 (IH ms)) by assumption.
    + split; [discriminate|]. destruct ns; discriminate.
Qed.

Lemma parsed_parses xs ns : parsed xs = Some ns -> Forall parses xs.
Proof.
  revert ns. induction xs as [|x r IH]; simpl; intros ns H; [constructor|].
  destruct (to_double x) as [n|] eqn:E; [|discriminate].
  destruct (parsed r) as [ms|]; [|discriminate].
  constructor; [unfold parses; congruence|now apply (IH ms)].
Qed.

Lemma parses_parsed xs : Forall parses xs -> exists ns, parsed xs = Some ns.
Proof.
  induction 1 as [|x r Hx Hr [ns IH]]; simpl; [now exists []|].
  unfold parses in Hx. destruct (to_double x) as [n|]; [|logic].
  rewrite IH. now exists (n :: ns).
Qed.

(** Without [errors='coerce'] the conversion of text returns exactly when
    every string parses and no integer is out of range. *)
Lemma convert_all_text xs ns :
  convert_all (map VStr xs) = Ok ns
  <-> parsed xs = Some ns
      /\ forallb (fun n => negb (out_of_range n)) ns = true.
Proof.
  revert ns. induction xs as [|x r IH]; intros ns; simpl.
  - split.
    + intros H. inversion H. auto.
    + intros [H _]. now inversion H.
  - destruct (to_double x) as [n|]; [|split; [discriminate|intros [H _]; discriminate]].
    destruct (out_of_range n) eqn:En.
    + split; [discriminate|]. intros [H Hr].
      destruct (parsed r); [|discriminate]. inversion H. subst ns.
      simpl in Hr. rewrite En in Hr. discriminate.
    + destruct (convert_all (map VStr r)) as [ms|e] eqn:Ec; cbn [bind].
      * destruct (proj1 (IH ms) eq_refl) as [Hp Hr]. rewrite Hp. split.
        -- intros H. inversion H. subst ns. simpl. now rewrite En, Hr.
        -- intros [H _]. now inversion H.
      * split; [discriminate|]. intros [H Hr].
        destruct (parsed r) as [ms|] eqn:Ep; [|discriminate].
        inversion H. subst ns. simpl in Hr. rewrite En in Hr. simpl in Hr.
        discriminate (proj2 (IH ms) (conj eq_refl Hr)).
Qed.

Lemma accepted_parsed xs :
  accepted xs = true ->
  exists ns, parsed xs = Some ns
             /\ forallb (fun n => negb (out_of_range n)) ns = true
             /\ uint64_conflict ns = false.
Proof.
  unfold accepted. destruct (parsed xs) as [ns|]; [|discriminate].
  intros H. apply andb_true_iff in H as [H1 H2].
  apply negb_true_iff in H2. eauto.
Qed.

Lemma accepted_parses xs : accepted xs = true -> Forall parses xs.
Proof.
  intros H. destruct (accepted_parsed _ H) as [ns [Hp _]].
  now apply (parsed_parses _ ns).
Qed.

Lemma unparsed_refused xs : ~ Forall parses xs -> accepted xs = false.
Proof.
  intros H. destruct (accepted xs) eqn:E; [|reflexivity].
  exfalso. now apply H, accepted_parses.
Qed.

Lemma in_range_spec ns :
  forallb (fun n => negb (out_of_range n)) ns = true
  <-> (forall z, In (NInt z) ns -> - 2 ^ 63 <= z <= 2 ^ 64 - 1).
Proof.
  rewrite forallb_forall. split.
  - intros H z Hz. specialize (H _ Hz). simpl in H.
    unfold INT64_MIN, UINT64_MAX in H.
    apply negb_true_iff, orb_false_iff in H as [H1 H2].
    apply Z.ltb_ge in H1, H2. lia.
  - intros H [z|f] Hn; [|reflexivity]. specialize (H z Hn). simpl.
    unfold INT64_MIN, UINT64_MAX.
    apply negb_true_iff, orb_false_iff. split; apply Z.ltb_ge; lia.
Qed.

Lemma uint64_conflict_spec ns :
  uint64_conflict ns = true
  <-> (exists z, In (NInt z) ns /\ 2 ^ 63 <= z)
      /\ ((exists z, In (NInt z) ns /\ z < 0)
          \/ exists f, In (NFloat f) ns /\ isnan f = true).
Proof.
  unfold uint64_conflict.
  rewrite andb_true_iff, orb_true_iff, !existsb_exists. split.
  - intros [[n [Hn Hu]] Hc]. split.
    + destruct n as [z|f]; [|discriminate]. exists z. split; [assumption|].
      simpl in Hu. unfold INT64_MAX in Hu. apply Z.ltb_lt in Hu. lia.
    + destruct Hc as [[m [Hm Hc]]|[m [Hm Hc]]].
      * destruct m as [z|f]; [discriminate|]. right. now exists f.
      * destruct m as [z|f]; [|discriminate]. left. exists z.
        split; [assumption|]. simpl in Hc. now apply Z.ltb_lt in Hc.
  - intros [[z [Hz Hu]] Hc]. split.
    + exists (NInt z). split; [assumption|]. simpl. unfold INT64_MAX.
      apply Z.ltb_lt. lia.
    + destruct Hc as [[y [Hy Hc]]|[f [Hf Hc]]].
      * right. exists (NInt y). split; [assumption|]. simpl. now apply Z.ltb_lt.
      * left. now exists (NFloat f).
Qed.

(** What [pd.to_numeric] accepts, spelled out. *)
Lemma accepted_spec xs :
  accepted xs = true
  <-> exists ns,
        map to_double xs = map Some ns
        /\ (forall z, In (NInt z) ns -> - 2 ^ 63 <= z <= 2 ^ 64 - 1)
        /\ ~ ((exists z, In (NInt z) ns /\ 2 ^ 63 <= z)
              /\ ((exists z, In (NInt z) ns /\ z < 0)
                  \/ exists f, In (NFloat f) ns /\ isnan f = true)).
Proof.
  split.
  - intros H. destruct (accepted_parsed _ H) as [ns [Hp [Hr Hc]]].
    exists ns. split; [now apply parsed_map|]. split; [now apply in_range_spec|].
    intros Hx. apply uint64_conflict_spec in Hx. congruence.
  - intros [ns [Hm [Hr Hc]]]. unfold accepted.
    rewrite (proj2 (parsed_map xs ns) Hm), (proj2 (in_range_spec ns) Hr).
    destruct (uint64_conflict ns) eqn:E; [|reflexivity].
    exfalso. now apply Hc, uint64_conflict_spec.
Qed.

(** [pd.to_numeric] on text, inside the [try] of line 210. *)
Lemma to_numeric_text xs :
  try_except (to_numeric (SObject (map VStr xs))) (SObject (map VStr xs))
  = match parsed xs with
    | Some ns => if accepted xs then pack_numeric ns else SObject (map VStr xs)
    | None => SObject (map VStr xs)
    end.
Proof.
  unfold to_numeric, accepted.
  destruct (convert_all (map VStr xs)) as [ns|e] eqn:Ec; cbn [bind try_except].
  - destruct (proj1 (convert_all_text _ _) Ec) as [Hp Hr]. rewrite Hp, Hr.
    now destruct (uint64_conflict ns).
  - destruct (parsed xs) as [ns|] eqn:Ep; [|reflexivity].
    destruct (forallb (fun n => negb (out_of_range n)) ns) eqn:Hr; [|reflexivity].
    rewrite (proj2 (convert_all_text xs ns) (conj Ep Hr)) in Ec. discriminate.
Qed.

(** ** One column through the cleaning loop *)

Lemma clean_series_numeric l s :
  is_numeric_dtype s = true -> clean_series l s = Ok s.
Proof. destruct s; simpl; [discriminate| |]; reflexivity. Qed.

Lemma clean_series_code name cells :
  is_code name = true ->
  clean_series (LStr name) (SObject cells)
  = Ok (SObject (map VStr (map py_str cells))).
Proof.
  unfold is_code. intros H. simpl. rewrite H. simpl.
  now rewrite astype_str_object.
Qed.

Lemma clean_series_value name cells :
  is_code name = false ->
  clean_series (LStr name) (SObject cells)
  = Ok (try_except (to_numeric (SObject (map VStr (stripped_text cells))))
                   (SObject (map VStr (stripped_text cells)))).
Proof.
  unfold is_code, stripped_text. intros H. simpl. rewrite H. simpl.
  now rewrite !map_map.
Qed.

Lemma clean_series_value_numeric name cells :
  is_code name = false -> accepted (stripped_text cells) = true ->
  exists ns, parsed (stripped_text cells) = Some ns
             /\ clean_series (LStr name) (SObject cells) = Ok (pack_numeric ns).
Proof.
  intros Hc Hp. rewrite clean_series_value by assumption.
  destruct (accepted_parsed _ Hp) as [ns [H1 _]].
  exists ns. split; [assumption|]. now rewrite to_numeric_text, H1, Hp.
Qed.

Lemma clean_series_value_text name cells :
  is_code name = false -> accepted (stripped_text cells) = false ->
  clean_series (LStr name) (SObject cells)
  = Ok (SObject (map VStr (stripped_text cells))).
Proof.
  intros Hc Hp. rewrite clean_series_value by assumption.
  rewrite to_numeric_text, Hp. now destruct (parsed (stripped_text cells)).
Qed.

Lemma forallb_is_str_text xs : forallb is_str (map VStr xs) = true.
Proof. induction xs; simpl; auto. Qed.




Lemma len_clean_series l s s' : clean_series l s = Ok s' -> len s' = len s.
Proof.
  destruct s as [cells|cells|cells];
    try (simpl; intros H; inversion H; reflexivity).
  destruct l as [name|z]; [|discriminate].
  destruct (is_code name) eqn:Hc.
  - rewrite clean_series_code by assumption. intros H. inversion H.
    unfold len. simpl. now rewrite !length_map.
  - destruct (accepted (stripped_text cells)) eqn:Hp.
    + destruct (clean_series_value_numeric _ _ Hc Hp) as [ns [Hm ->]].
      intros H. inversion H. rewrite len_pack_numeric.
      rewrite (parsed_length _ _ Hm). unfold stripped_text, len. simpl.
      now rewrite length_map.
    + rewrite clean_series_value_text by assumption. intros H. inversion H.
      unfold len, stripped_text. simpl. now rewrite !length_map.
Qed.



(** ** The frame through the cleaning loop *)

Lemma clean_frame_getitem df df1 l s :
  clean_frame df = Ok df1 -> getitem df l = Ok s ->
  exists s', getitem df1 l = Ok s' /\ clean_series l s = Ok s'.
Proof.
  revert df1. induction df as [|[k x] r IH]; simpl; intros df1 H Hg.
  - discriminate.
  - destruct (clean_series k x) as [x'|] eqn:Ex; simpl in H; [|discriminate].
    destruct (clean_frame r) as [r'|]; simpl in H; [|discriminate].
    inversion H. subst. simpl.
    destruct (label_eqb k l) eqn:E.
    + apply label_eqb_eq in E. subst. inversion Hg. subst. eauto.
    + eauto.
Qed.

Lemma clean_frame_getitem_inv df df1 l s' :
  clean_frame df = Ok df1 -> getitem df1 l = Ok s' ->
  exists s, getitem df l = Ok s /\ clean_series l s = Ok s'.
Proof.
  revert df1. induction df as [|[k x] r IH]; simpl; intros df1 H Hg.
  - inversion H. subst. discriminate.
  - destruct (clean_series k x) as [x'|] eqn:Ex; simpl in H; [|discriminate].
    destruct (clean_frame r) as [r'|]; simpl in H; [|discriminate].
    inversion H. subst. simpl in Hg.
    destruct (label_eqb k l) eqn:E.
    + apply label_eqb_eq in E. subst. inversion Hg. subst. eauto.
    + eauto.
Qed.

Lemma clean_frame_columns df df1 :
  clean_frame df = Ok df1 -> columns df1 = columns df.
Proof.
  revert df1. induction df as [|[k x] r IH]; simpl; intros df1 H.
  - now inversion H.
  - destruct (clean_series k x) as [x'|]; simpl in H; [|discriminate].
    destruct (clean_frame r) as [r'|]; simpl in H; [|discriminate].
    inversion H. simpl. now rewrite (IH r').
Qed.

Lemma clean_frame_len df df1 l s :
  well_formed df -> clean_frame df = Ok df1 -> getitem df1 l = Ok s ->
  len s = nrows df.
Proof.
  intros [_ Hlen] H Hg.
  destruct (clean_frame_getitem_inv _ _ _ _ H Hg) as [s0 [Hg0 Hs]].
  rewrite (len_clean_series _ _ _ Hs). apply (Hlen l), getitem_In, Hg0.
Qed.


(** ** The Total row *)

Lemma str_strip_lower_mask cells :
  (stripped <- str_strip (SObject cells) ;;
   lowered <- str_lower stripped ;;
   Ok (eq_str_mask lowered "total"))
  = Ok (map is_total cells).
Proof.
  unfold str_strip, str_lower, str_method, eq_str_mask. simpl.
  rewrite !map_map. f_equal. apply map_ext. intros [x| |]; reflexivity.
Qed.

Lemma blank_total_code_inv df df' : blank_total_code df = Ok df' -> blanked df df'.
Proof.
  unfold blank_total_code.
  destruct (has_column df (LStr "Answer Categories")
            && has_column df (LStr "Code")) eqn:E.
  - apply andb_true_iff in E as [Ha Hc].
    destruct (has_column_getitem _ _ Ha) as [ac Hac].
    destruct (has_column_getitem _ _ Hc) as [code Hcode].
    rewrite Hac. cbn [bind].
    destruct ac as [cells|cells|cells]; try discriminate.
    unfold str_strip, str_lower, str_method, eq_str_mask. cbn [bind].
    rewrite Hcode. cbn [bind]. intros H. inversion H.
    rewrite !map_map.
    rewrite (map_ext _ is_total) by (intros [x| |]; reflexivity).
    now apply blanked_set.
  - intros H. inversion H. subst. now apply blanked_skip.
Qed.

(** A numeric category column makes the string accessor raise. *)
Lemma blank_total_code_numeric df ac :
  getitem df (LStr "Answer Categories") = Ok ac ->
  has_column df (LStr "Code") = true ->
  is_numeric_dtype ac = true ->
  blank_total_code df = Raise AttributeError_str_accessor.
Proof.
  intros Hac Hc Hn. unfold blank_total_code.
  rewrite (getitem_has_column _ _ _ Hac), Hc, Hac. simpl.
  destruct ac; [discriminate| |]; reflexivity.
Qed.

Lemma where_set_nth {A} mask (v : A) xs i :
  nth_error mask i = Some true -> (i < length xs)%nat ->
  nth_error (where_set mask v xs) i = Some v.
Proof.
  revert xs i. induction mask as [|m ms IH]; intros xs i Hm Hi.
  - destruct i; discriminate.
  - destruct xs as [|x r]; [simpl in Hi; lia|].
    destruct i; simpl in *.
    + inversion Hm. now subst.
    + apply IH; [assumption|lia].
Qed.

Lemma loc_assign_str_nth mask t s i :
  nth_error mask i = Some true -> (i < len s)%nat ->
  nth_error (tolist (loc_assign_str mask t s)) i = Some (VStr t).
Proof.
  intros Hm Hi. unfold len in Hi. unfold loc_assign_str. cbn [tolist].
  now apply where_set_nth.
Qed.

Lemma where_set_text mask t xs :
  forallb is_str xs = true -> forallb is_str (where_set mask (VStr t) xs) = true.
Proof.
  revert xs. induction mask as [|m ms IH]; intros xs H; [now destruct xs|].
  destruct xs as [|x r]; simpl in *; auto.
  apply andb_true_iff in H as [Hx Hr]. rewrite (IH r Hr).
  now destruct m; simpl; rewrite ?Hx.
Qed.

(** ** Cleaning as a whole *)

Lemma clean_data_inv df df' :
  NoDup (columns df) -> clean_data df = Ok df' ->
  exists df1, clean_frame df = Ok df1 /\ blanked df1 df'.
Proof.
  intros Hnd. rewrite clean_data_frame by assumption.
  destruct (clean_frame df) as [df1|] eqn:E; simpl; [|discriminate].
  intros H. exists df1. split; [reflexivity|]. now apply blank_total_code_inv.
Qed.

Lemma code_label name : is_code name = false -> LStr name <> LStr "Code".
Proof. intros H E. inversion E. subst. discriminate. Qed.

(** C1, amended.  A column named "code" in any case that the reader
    delivered with dtype object is a text column after cleaning: each of its
    cells is the string form of the original cell, or the empty string
    written by the handling of the Total row.  Digit strings are therefore
    kept as strings. *)
Theorem code_column_stays_text df df' name cells :
  NoDup (columns df) ->
  clean_data df = Ok df' ->
  In (LStr name, SObject cells) df ->
  is_code name = true ->
  exists mask,
    getitem df' (LStr name)
    = Ok (SObject (where_set mask (VStr "") (map VStr (map py_str cells))))
    /\ is_text (SObject (where_set mask (VStr "") (map VStr (map py_str cells))))
       = true.
Proof.
  intros Hnd Hclean Hin Hcode.
  destruct (clean_data_inv _ _ Hnd Hclean) as [df1 [Hf Hb]].
  pose proof (In_getitem _ _ _ Hnd Hin) as Hg.
  destruct (clean_frame_getitem _ _ _ _ Hf Hg) as [s1 [Hg1 Hs1]].
  rewrite clean_series_code in Hs1 by assumption. inversion Hs1. subst s1.
  assert (Htext : forall mask,
    is_text (SObject (where_set mask (VStr "") (map VStr (map py_str cells))))
    = true).
  { intros mask. simpl. apply where_set_text, forallb_is_str_text. }
  destruct Hb as [_|acs code Hac Hcd].
  - exists []. split; [|apply Htext]. simpl.
    now destruct (map VStr (map py_str cells)).
  - destruct (label_eqb (LStr name) (LStr "Code")) eqn:E.
    + apply label_eqb_eq in E. rewrite E in *.
      rewrite Hcd in Hg1. inversion Hg1. subst code.
      exists (map is_total acs). split; [|apply Htext].
      now rewrite getitem_setitem_same.
    + apply label_eqb_neq in E. exists []. split; [|apply Htext].
      rewrite getitem_setitem_other by assumption. rewrite Hg1. simpl.
      now destruct (map VStr (map py_str cells)).
Qed.

(** C2, amended.  An object column whose name is not "code" has ',' and
    '%' removed from every value, and the loop body does not raise on it.
    The cleaned column is numeric exactly when [pd.to_numeric] accepts the
    stripped values: each of them parses, no integer among them lies outside
    the range of int64 and uint64, and no integer beyond int64 comes with a
    negative integer or a missing value.  It is then the column of the
    parsed numbers: int64 when they are all integers, float64 otherwise.  In
    every other case, in particular when a value does not parse, the cleaned
    column is the stripped text. *)
Theorem value_column_numeric_iff_accepted df df' name cells :
  NoDup (columns df) ->
  clean_data df = Ok df' ->
  In (LStr name, SObject cells) df ->
  is_code name = false ->
  let stripped :=
    map (fun v => PyStr.replace "%" "" (PyStr.replace "," "" (py_str v))) cells in
  exists s',
    getitem df' (LStr name) = Ok s'
    /\ (forall d, getitem d (LStr name) = Ok (SObject cells) ->
          clean_column d (LStr name) = Ok (setitem d (LStr name) s'))
    /\ (is_numeric_dtype s' = true
        <-> exists ns,
              map to_double stripped = map Some ns
              /\ (forall z, In (NInt z) ns -> - 2 ^ 63 <= z <= 2 ^ 64 - 1)
              /\ ~ ((exists z, In (NInt z) ns /\ 2 ^ 63 <= z)
                    /\ ((exists z, In (NInt z) ns /\ z < 0)
                        \/ exists f, In (NFloat f) ns /\ isnan f = true)))
    /\ (forall ns,
          is_numeric_dtype s' = true ->
          map to_double stripped = map Some ns ->
          (forallb is_int ns = true -> s' = SInt64 (map int_of ns))
          /\ (forallb is_int ns = false ->
              (forall z, In (NInt z) ns -> Z.abs z <= 2 ^ 53) ->
              s' = SFloat64 (map (fun n => match n with
                                           | NInt z => float_of_Z z
                                           | NFloat f => f
                                           end) ns)))
    /\ (is_numeric_dtype s' = false -> s' = SObject (map VStr stripped))
    /\ (~ Forall parses stripped -> s' = SObject (map VStr stripped)).
Proof.
  intros Hnd Hclean Hin Hcode stripped.
  change stripped with (stripped_text cells). clear stripped.
  destruct (clean_data_inv _ _ Hnd Hclean) as [df1 [Hf Hb]].
  pose proof (In_getitem _ _ _ Hnd Hin) as Hg.
  destruct (clean_frame_getitem _ _ _ _ Hf Hg) as [s1 [Hg1 Hs1]].
  exists s1. split; [|split].
  - destruct Hb as [_|acs code Hac Hcd]; [assumption|].
    rewrite getitem_setitem_other; [assumption|now apply code_label].
  - intros d Hd. rewrite (clean_column_series _ _ _ Hd). now rewrite Hs1.
  - rewrite <- accepted_spec.
    destruct (accepted (stripped_text cells)) eqn:Hp.
    + destruct (clean_series_value_numeric _ _ Hcode Hp) as [ms [Hm Hs]].
      rewrite Hs in Hs1. inversion Hs1. subst s1.
      rewrite pack_numeric_numeric.
      split; [split; reflexivity|]. split; [|split; [discriminate|]].
      * intros ns _ Hns. apply parsed_map in Hns.
        assert (ms = ns) by congruence. subst ms.
        unfold pack_numeric. split; intros Hi; rewrite Hi; [reflexivity|].
        intros _. reflexivity.
      * intros Hn. now rewrite (unparsed_refused _ Hn) in Hp.
    + rewrite clean_series_value_text in Hs1 by assumption.
      inversion Hs1. subst s1.
      split; [split; discriminate|]. split; [discriminate|].
      split; reflexivity.
Qed.

(** C3.  When the frame has the columns "Answer Categories" and "Code",
    every row whose category, trimmed and lowercased, is "total" holds the
    empty string in "Code" after cleaning, whether the category is read in
    the frame as delivered or in the cleaned frame. *)
Theorem total_row_has_blank_code df df' raw ac code i s :
  well_formed df ->
  clean_data df = Ok df' ->
  getitem df (LStr "Answer Categories") = Ok raw ->
  getitem df' (LStr "Answer Categories") = Ok ac ->
  getitem df' (LStr "Code") = Ok code ->
  nth_error (tolist raw) i = Some (VStr s)
  \/ nth_error (tolist ac) i = Some (VStr s) ->
  PyStr.lower (PyStr.strip s) = "total" ->
  nth_error (tolist code) i = Some (VStr "").
Proof.
  intros Hwf Hclean Hraw Hac Hcode Hi Htot.
  destruct (clean_data_inv _ _ (proj1 Hwf) Hclean) as [df1 [Hf Hb]].
  destruct Hb as [Hno|acs code1 Hac1 Hcd1].
  - rewrite (getitem_has_column _ _ _ Hac), (getitem_has_column _ _ _ Hcode) in Hno.
    discriminate.
  - rewrite getitem_setitem_other in Hac by discriminate.
    rewrite getitem_setitem_same in Hcode.
    rewrite Hac1 in Hac. inversion Hac. subst ac. inversion Hcode. subst code.
    assert (Hi' : nth_error acs i = Some (VStr s)).
    { destruct Hi as [Hi|Hi]; [|exact Hi].
      destruct (clean_frame_getitem _ _ _ _ Hf Hraw) as [s1 [Hg1 Hs1]].
      rewrite Hac1 in Hg1. inversion Hg1. subst s1.
      destruct raw as [cells|cells|cells].
      - destruct (accepted (stripped_text cells)) eqn:Hp.
        + destruct (clean_series_value_numeric "Answer Categories" cells
                      eq_refl Hp) as [ns [_ Hs]].
          rewrite Hs in Hs1. inversion Hs1 as [Hpk]. unfold pack_numeric in Hpk.
          destruct (forallb is_int ns); discriminate.
        + rewrite clean_series_value_text in Hs1 by (assumption || reflexivity).
          inversion Hs1. unfold stripped_text. rewrite map_map.
          simpl in Hi. rewrite (map_nth_error _ _ _ Hi). simpl.
          now rewrite (total_has_no_separator _ Htot).
      - simpl in Hi. apply nth_error_In, in_map_iff in Hi as [z [E _]].
        discriminate.
      - simpl in Hi. apply nth_error_In, in_map_iff in Hi as [z [E _]].
        discriminate. }
    apply loc_assign_str_nth.
    + rewrite (map_nth_error _ _ _ Hi'). simpl. now rewrite Htot.
    + rewrite (clean_frame_len _ _ _ _ Hwf Hf Hcd1).
      rewrite <- (clean_frame_len _ _ _ _ Hwf Hf Hac1).
      unfold len. simpl. apply nth_error_Some. congruence.
Qed.


Lemma blank_total_code_set df cells code :
  getitem df (LStr "Answer Categories") = Ok (SObject cells) ->
  getitem df (LStr "Code") = Ok code ->
  blank_total_code df
  = Ok (setitem df (LStr "Code") (loc_assign_str (map is_total cells) "" code)).
Proof.
  intros Hac Hcode. unfold blank_total_code.
  rewrite (getitem_has_column _ _ _ Hac), (getitem_has_column _ _ _ Hcode).
  cbn [andb]. rewrite Hac. cbn [bind].
  unfold str_strip, str_lower, str_method, eq_str_mask. cbn [bind].
  rewrite Hcode. cbn [bind tolist]. rewrite !map_map.
  now rewrite (map_ext _ is_total) by (intros [x| |]; reflexivity).
Qed.


Lemma clean_series_code_stringified s :
  clean_series (LStr "Code") s = Ok (stringified s).
Proof. now destruct s. Qed.









(** ** Frames on which cleaning raises *)

Lemma clean_series_str_label name s : exists s', clean_series (LStr name) s = Ok s'.
Proof.
  destruct s as [cells|cells|cells]; simpl; eauto.
  destruct (negb (String.eqb (PyStr.lower name) "code")); eauto.
Qed.

Lemma clean_frame_str_labels df :
  forallb is_str_label (columns df) = true -> exists df1, clean_frame df = Ok df1.
Proof.
  induction df as [|[k x] r IH]; simpl; intros H; [eauto|].
  apply andb_true_iff in H as [Hk Hr].
  destruct k as [name|z]; [|discriminate].
  destruct (clean_series_str_label name x) as [x' Hx].
  destruct (IH Hr) as [r' Hr'].
  cbn [clean_series] in Hx. rewrite Hx. simpl. rewrite Hr'. simpl. eauto.
Qed.

(** C9.  A frame whose "Answer Categories" column is an object column of
    values that [pd.to_numeric] accepts, and which has a "Code" column, makes
    the handling of the Total row raise: the string accessor is applied to a
    column that the loop has just made numeric.  [get_table_data] then
    answers with the error object. *)
Theorem numeric_categories_break_cleaning name df cells :
  name <> "" ->
  In name (keys TABLE_DESCRIPTIONS) ->
  _get_NGS_table name = df ->
  empty df = false ->
  NoDup (columns df) ->
  forallb is_str_label (columns df) = true ->
  In (LStr "Answer Categories", SObject cells) df ->
  accepted (stripped_text cells) = true ->
  has_column df (LStr "Code") = true ->
  clean_data df = Raise AttributeError_str_accessor
  /\ get_table_data (Some name) = Failure (Exception AttributeError_str_accessor).
Proof.
  intros Hname Hkey Hload Hne Hnd Hlab Hin Hp Hcode.
  assert (Hclean : clean_data df = Raise AttributeError_str_accessor).
  { rewrite clean_data_frame by assumption.
    destruct (clean_frame_str_labels _ Hlab) as [df1 Hf]. rewrite Hf. simpl.
    pose proof (In_getitem _ _ _ Hnd Hin) as Hg.
    destruct (clean_frame_getitem _ _ _ _ Hf Hg) as [ac [Hac Hs]].
    destruct (clean_series_value_numeric "Answer Categories" cells eq_refl Hp)
      as [ns [_ Hs']].
    rewrite Hs' in Hs. inversion Hs. subst ac.
    apply blank_total_code_numeric with (pack_numeric ns).
    - assumption.
    - unfold has_column in *. now rewrite (clean_frame_columns _ _ Hf).
    - apply pack_numeric_numeric. }
  split; [assumption|].
  unfold get_table_data.
  destruct (String.eqb name "") eqn:E; [apply String.eqb_eq in E; logic|].
  assert (Hk : existsb (String.eqb name) (keys TABLE_DESCRIPTIONS) = true).
  { apply existsb_exists. exists name. split; [assumption|apply String.eqb_refl]. }
  rewrite Hk. simpl. rewrite Hload, Hne. now rewrite Hclean.
Qed.


(** ** The statistics record *)

Lemma dict_set_fresh {V} (d : dict label V) k v :
  ~ In k (keys d) -> dict_set label_eqb d k v = (d ++ [(k, v)])%list.
Proof.
  induction d as [|[k' v'] r IH]; simpl; intros H; [reflexivity|].
  destruct (label_eqb k' k) eqn:E.
  - apply label_eqb_eq in E. logic.
  - rewrite IH; logic.
Qed.

Lemma NoDup_columns_filter (p : label * series -> bool) df :
  NoDup (columns df) -> NoDup (columns (filter p df)).
Proof.
  unfold columns. induction df as [|c r IH]; simpl; intros H; [constructor|].
  inversion H as [|? ? Hc Hr]. subst.
  destruct (p c); simpl; auto. constructor; auto.
  intros Hin. apply Hc. apply in_map_iff in Hin as [c' [E Hin]].
  apply filter_In in Hin as [Hin _]. apply in_map_iff. eauto.
Qed.

Lemma numeric_cols_selected df sub :
  NoDup (columns df) ->
  (forall c, In c sub -> In c df) ->
  (forall c, In c sub -> is_numeric_dtype (snd c) = true ->
             is_str_label (fst c) = true) ->
  numeric_cols df (columns sub) = Ok (columns (filter selected sub)).
Proof.
  intros Hnd. induction sub as [|[l s] r IH]; simpl; intros Hsub Hlab.
  - reflexivity.
  - rewrite (In_getitem df l s) by (auto; apply Hsub; now left).
    cbn [bind]. rewrite IH by auto.
    unfold selected at 2. simpl.
    destruct (is_numeric_dtype s) eqn:En; simpl; [|reflexivity].
    specialize (Hlab (l, s) (or_introl eq_refl) En). simpl in Hlab.
    destruct l as [name|z]; [|discriminate]. simpl.
    unfold is_code. now destruct (String.eqb (PyStr.lower name) "code").
Qed.

Lemma stats_loop_entries df sub acc :
  NoDup (columns df) ->
  (forall c, In c sub -> In c df) ->
  NoDup (keys acc ++ columns sub) ->
  stats_loop df (columns sub) acc
  = Ok (acc ++ map (fun c => (fst c, column_entry (snd c))) sub)%list.
Proof.
  intros Hnd. revert acc. induction sub as [|[l s] r IH]; simpl; intros acc Hsub Hfresh.
  - now rewrite app_nil_r.
  - rewrite (In_getitem df l s) by (auto; apply Hsub; now left).
    cbn [bind]. rewrite dict_set_fresh.
    + rewrite IH; auto.
      * now rewrite <- app_assoc.
      * unfold keys in *. rewrite map_app. simpl. rewrite <- app_assoc. exact Hfresh.
    + apply NoDup_remove_2 in Hfresh. intros Hin. apply Hfresh.
      apply in_or_app. now left.
Qed.

Lemma statistics_of_entries df :
  NoDup (columns df) ->
  (forall c, In c df -> is_numeric_dtype (snd c) = true ->
             is_str_label (fst c) = true) ->
  statistics_of df
  = Ok (map (fun c => (fst c, column_entry (snd c))) (filter selected df)).
Proof.
  intros Hnd Hlab. unfold statistics_of.
  rewrite (numeric_cols_selected df df) by auto. cbn [bind].
  rewrite stats_loop_entries; auto.
  - intros c Hc. now apply filter_In in Hc.
  - simpl. now apply NoDup_columns_filter.
Qed.

Lemma numeric_cols_int_label df cols z s :
  (forall l, In l cols -> exists x, getitem df l = Ok x) ->
  In (LInt z) cols ->
  getitem df (LInt z) = Ok s ->
  is_numeric_dtype s = true ->
  numeric_cols df cols = Raise AttributeError_lower.
Proof.
  intros Hall Hin Hg Hn. induction cols as [|l r IH]; simpl; [contradiction|].
  destruct (Hall l (or_introl eq_refl)) as [x Hx]. rewrite Hx. cbn [bind].
  destruct (is_numeric_dtype x) eqn:En.
  - destruct l as [name|z']; simpl; [|reflexivity].
    destruct Hin as [E|Hin]; [discriminate|].
    rewrite IH; auto. intros l Hl. apply Hall. now right.
  - simpl. destruct Hin as [E|Hin].
    + subst l. congruence.
    + rewrite IH; auto. intros l' Hl. apply Hall. now right.
Qed.



(** C6.  An exception inside the [try] block discards the whole record:
    the function returns the empty record, also when other columns could
    have been summarised.  A numeric column whose label is not a string is
    such a failure, its label having no [lower]. *)
Theorem statistics_all_or_nothing df :
  (forall e, statistics_of df = Raise e -> get_basic_statistics df = [])
  /\ (forall z s,
        NoDup (columns df) ->
        In (LInt z, s) df ->
        is_numeric_dtype s = true ->
        statistics_of df = Raise AttributeError_lower
        /\ get_basic_statistics df = []).
Proof.
  assert (H1 : forall e, statistics_of df = Raise e -> get_basic_statistics df = []).
  { intros e H. unfold get_basic_statistics. rewrite H.
    now destruct (empty df). }
  split; [exact H1|].
  intros z s Hnd Hin Hn.
  assert (H : statistics_of df = Raise AttributeError_lower).
  { unfold statistics_of.
    rewrite (numeric_cols_int_label df (columns df) z s); auto.
    - intros l Hl. unfold columns in Hl. apply in_map_iff in Hl as [[k x] [E Hx]].
      simpl in E. subst k. exists x. now apply In_getitem.
    - unfold columns. apply in_map_iff. now exists (LInt z, s).
    - now apply In_getitem. }
  split; [assumption|]. now apply H1 with AttributeError_lower.
Qed.


(** ** Masks and row selection *)

Lemma mask_and_keeps ac :
  mask_and (notna ac) (ne_str ac "Total") = map keeps_category (tolist ac).
Proof.
  unfold notna, ne_str, keeps_category.
  induction (tolist ac) as [|v r IH]; simpl; [reflexivity|]. now rewrite IH.
Qed.

Lemma select_map {A B} (f : A -> B) mask xs :
  select mask (map f xs) = map f (select mask xs).
Proof.
  revert xs. induction mask as [|m ms IH]; intros [|x r]; simpl; auto.
  rewrite IH. now destruct m.
Qed.

Lemma tolist_take_rows mask s : tolist (take_rows mask s) = select mask (tolist s).
Proof. destruct s; simpl; now rewrite ?select_map. Qed.

Lemma select_filter {A} (p : A -> bool) xs : select (map p xs) xs = filter p xs.
Proof.
  induction xs as [|x r IH]; simpl; [reflexivity|]. rewrite IH. now destruct (p x).
Qed.

Lemma select_fst {A B} (p : A -> bool) (xs : list A) (ys : list B) :
  length xs = length ys ->
  select (map p xs) xs = map fst (filter (fun r => p (fst r)) (combine xs ys)).
Proof.
  revert ys. induction xs as [|x r IH]; intros [|y t] H; simpl in *;
    try reflexivity; try discriminate.
  rewrite (IH t) by lia. now destruct (p x).
Qed.

Lemma select_snd {A B} (p : A -> bool) (xs : list A) (ys : list B) :
  select (map p xs) ys = map snd (filter (fun r => p (fst r)) (combine xs ys)).
Proof.
  revert ys. induction xs as [|x r IH]; intros [|y t]; simpl; try reflexivity.
  rewrite (IH t). now destruct (p x).
Qed.

Lemma length_select {A} mask (xs : list A) :
  length mask = length xs ->
  length (select mask xs) = length (filter (fun b : bool => b) mask).
Proof.
  revert xs. induction mask as [|m ms IH]; intros [|x r] H; simpl in *;
    try reflexivity; try discriminate.
  destruct m; simpl; rewrite (IH r) by lia; reflexivity.
Qed.

Lemma filter_map_mask {A} (p : A -> bool) xs :
  length (filter (fun b : bool => b) (map p xs)) = length (filter p xs).
Proof.
  induction xs as [|x r IH]; simpl; [reflexivity|].
  destruct (p x); simpl; now rewrite IH.
Qed.

Lemma is_numeric_take_rows mask s :
  is_numeric_dtype (take_rows mask s) = is_numeric_dtype s.
Proof. now destruct s. Qed.

Lemma getitem_filter_rows mask df l :
  getitem (filter_rows mask df) l = (s <- getitem df l ;; Ok (take_rows mask s)).
Proof.
  induction df as [|[k x] r IH]; simpl; [reflexivity|].
  destruct (label_eqb k l); auto.
Qed.

Lemma notna_pack_numeric ns :
  notna (pack_numeric ns)
  = map (fun n => forallb is_int ns || negb (isnan (to_float n))) ns.
Proof.
  unfold notna, pack_numeric. destruct (forallb is_int ns); simpl.
  - rewrite !map_map. now apply map_ext.
  - rewrite !map_map. now apply map_ext.
Qed.

(** ** Common column length *)

Lemma all_len_filter_rows mask df :
  all_len df (length mask) ->
  all_len (filter_rows mask df) (length (filter (fun b : bool => b) mask)).
Proof.
  intros H l s Hin. unfold filter_rows in Hin.
  apply in_map_iff in Hin as [[k x] [E Hin]]. inversion E. subst.
  unfold len. rewrite tolist_take_rows. apply length_select.
  symmetry. apply (H l x Hin).
Qed.

Lemma all_len_setitem df l s n :
  all_len df n -> len s = n -> all_len (setitem df l s) n.
Proof.
  intros H Hs. induction df as [|[k x] r IH]; simpl.
  - intros l' s' [E|[]]. inversion E. congruence.
  - destruct (label_eqb k l).
    + intros l' s' [E|Hin]; [inversion E; congruence|]. apply (H l' s'). now right.
    + intros l' s' [E|Hin]; [apply (H l' s'); now left|].
      apply (IH (fun l'' s'' Hin' => H l'' s'' (or_intror Hin')) l' s' Hin).
Qed.

Lemma all_len_nrows df n : all_len df n -> df <> [] -> nrows df = n.
Proof.
  destruct df as [|[k x] r]; [congruence|]. intros H _. apply (H k x). now left.
Qed.

Lemma filter_rows_nonempty mask df : df <> [] -> filter_rows mask df <> [].
Proof. now destruct df. Qed.

Lemma setitem_nonempty df l s : setitem df l s <> [].
Proof. destruct df as [|[k x] r]; simpl; [|destruct (label_eqb k l)]; discriminate. Qed.

Lemma empty_nrows df : df <> [] -> empty df = Nat.eqb (nrows df) 0.
Proof. destruct df as [|[k x] r]; [congruence|reflexivity]. Qed.


(** ** The plotting frame *)

Lemma plot_frame_eq df ac wf :
  getitem df (LStr "Answer Categories") = Ok ac ->
  getitem df (LStr "Weighted Frequency") = Ok wf ->
  plot_frame df
  = Ok (filter_rows
          (notna (pack_numeric
                    (map reparse
                         (select (map keeps_category (tolist ac)) (tolist wf)))))
          (setitem (filter_rows (map keeps_category (tolist ac)) df)
                   (LStr "Weighted Frequency")
                   (pack_numeric
                      (map reparse
                           (select (map keeps_category (tolist ac)) (tolist wf)))))).
Proof.
  intros Hac Hwf. unfold plot_frame. rewrite Hac. cbn [bind].
  rewrite mask_and_keeps, getitem_filter_rows, Hwf. cbn [bind].
  unfold astype_str, str_replace, str_method. cbn [bind].
  rewrite tolist_take_rows. unfold to_numeric_coerce. rewrite !map_map.
  cbn [convert_value].
  rewrite (map_ext _ reparse) by reflexivity.
  unfold dropna. rewrite getitem_setitem_same. reflexivity.
Qed.

Lemma plot_frame_inv df p :
  plot_frame df = Ok p ->
  exists ac wf, getitem df (LStr "Answer Categories") = Ok ac
                /\ getitem df (LStr "Weighted Frequency") = Ok wf.
Proof.
  unfold plot_frame.
  destruct (getitem df (LStr "Answer Categories")) as [ac|] eqn:Hac;
    cbn [bind]; [|discriminate].
  rewrite getitem_filter_rows.
  destruct (getitem df (LStr "Weighted Frequency")) as [wf|] eqn:Hwf;
    cbn [bind]; [|discriminate].
  intros _. eauto.
Qed.

(** The frequency column of the plotting frame is numeric. *)
Lemma plot_frame_numeric df p freq :
  plot_frame df = Ok p ->
  getitem p (LStr "Weighted Frequency") = Ok freq ->
  is_numeric_dtype freq = true.
Proof.
  intros Hp Hfreq.
  destruct (plot_frame_inv _ _ Hp) as [ac [wf [Hac Hwf]]].
  rewrite (plot_frame_eq _ _ _ Hac Hwf) in Hp. inversion Hp. subst p.
  rewrite getitem_filter_rows, getitem_setitem_same in Hfreq.
  cbn [bind] in Hfreq. inversion Hfreq.
  rewrite is_numeric_take_rows. apply pack_numeric_numeric.
Qed.

Lemma tolist_pack_numeric ns :
  tolist (pack_numeric ns) = map (frequency_cell (forallb is_int ns)) ns.
Proof.
  unfold pack_numeric, frequency_cell.
  destruct (forallb is_int ns); simpl; now rewrite map_map.
Qed.

Lemma filter_true {A} (xs : list A) : filter (fun _ => true) xs = xs.
Proof. induction xs as [|x r IH]; simpl; congruence. Qed.

(** The charted rows as one selection among the kept rows. *)
Lemma charted_rows_filter ac wf :
  charted_rows ac wf
  = filter (fun r =>
              forallb is_int (map (fun k => reparse (snd k)) (kept_rows ac wf))
              || parsed_ok (snd r))
           (kept_rows ac wf).
Proof.
  unfold charted_rows.
  destruct (forallb is_int (map (fun k => reparse (snd k)) (kept_rows ac wf))).
  - symmetry. apply filter_true.
  - reflexivity.
Qed.

Lemma plot_frame_rows df ac wf :
  well_formed df ->
  getitem df (LStr "Answer Categories") = Ok ac ->
  getitem df (LStr "Weighted Frequency") = Ok wf ->
  exists p cat freq,
    plot_frame df = Ok p
    /\ p <> []
    /\ nrows p = length (charted_rows ac wf)
    /\ getitem p (LStr "Answer Categories") = Ok cat
    /\ tolist cat = map fst (charted_rows ac wf)
    /\ getitem p (LStr "Weighted Frequency") = Ok freq
    /\ is_numeric_dtype freq = true
    /\ tolist freq
       = map (fun r =>
                frequency_cell
                  (forallb is_int (map (fun k => reparse (snd k)) (kept_rows ac wf)))
                  (reparse (snd r)))
             (charted_rows ac wf).
Proof.
  intros [Hnd Hlen] Hac Hwf.
  pose proof (Hlen _ _ (getitem_In _ _ _ Hac)) as Lac.
  pose proof (Hlen _ _ (getitem_In _ _ _ Hwf)) as Lwf.
  unfold len in Lac, Lwf.
  assert (Hdf : df <> []) by (intros E; subst; discriminate).
  rewrite charted_rows_filter.
  set (m1 := map keeps_category (tolist ac)).
  assert (Hsnd : select m1 (tolist wf) = map snd (kept_rows ac wf))
    by apply select_snd.
  assert (Hfst : select m1 (tolist ac) = map fst (kept_rows ac wf))
    by (apply select_fst; congruence).
  set (numbers := map reparse (select m1 (tolist wf))).
  assert (Hnum : numbers = map (fun k => reparse (snd k)) (kept_rows ac wf))
    by (unfold numbers; now rewrite Hsnd, map_map).
  set (m2 := notna (pack_numeric numbers)).
  set (ok := fun r : value * value =>
               forallb is_int (map (fun k => reparse (snd k)) (kept_rows ac wf))
               || parsed_ok (snd r)).
  assert (Hm2 : m2 = map ok (kept_rows ac wf)).
  { unfold m2. rewrite notna_pack_numeric, Hnum, map_map. reflexivity. }
  set (d2 := setitem (filter_rows m1 df) (LStr "Weighted Frequency")
                     (pack_numeric numbers)).
  assert (Hd2 : all_len d2 (length m2)).
  { unfold d2. rewrite Hm2, length_map, <- (length_map (fun k => reparse (snd k))).
    rewrite <- Hnum.
    assert (Hk : length numbers = length (filter (fun b : bool => b) m1)).
    { unfold numbers. rewrite length_map. apply length_select.
      unfold m1. rewrite length_map. congruence. }
    rewrite Hk. apply all_len_setitem.
    - apply all_len_filter_rows. unfold m1. rewrite length_map.
      intros l s Hin. rewrite (Hlen l s Hin). unfold len in *. congruence.
    - now rewrite len_pack_numeric. }
  exists (filter_rows m2 d2), (take_rows m2 (take_rows m1 ac)),
         (take_rows m2 (pack_numeric numbers)).
  split; [now apply plot_frame_eq|].
  split; [apply filter_rows_nonempty, setitem_nonempty|].
  split.
  { rewrite (all_len_nrows _ _ (all_len_filter_rows _ _ Hd2)).
    - rewrite Hm2. apply filter_map_mask.
    - apply filter_rows_nonempty, setitem_nonempty. }
  split.
  { rewrite getitem_filter_rows. unfold d2.
    rewrite getitem_setitem_other by discriminate.
    rewrite getitem_filter_rows, Hac. reflexivity. }
  split.
  { rewrite !tolist_take_rows, Hfst, Hm2, select_map.
    now rewrite select_filter. }
  split.
  { rewrite getitem_filter_rows. unfold d2.
    now rewrite getitem_setitem_same. }
  split.
  { rewrite is_numeric_take_rows. apply pack_numeric_numeric. }
  rewrite tolist_take_rows, tolist_pack_numeric, Hm2, Hnum.
  rewrite map_map, select_map. now rewrite select_filter.
Qed.


(** ** The chart bundle *)

Lemma charts_keys table_name p viz freq :
  charts table_name p = Ok viz ->
  getitem p (LStr "Weighted Frequency") = Ok freq ->
  keys viz = if is_numeric_dtype freq
             then ["pie_chart"; "box_plot"; "bar_chart"]
             else ["pie_chart"; "bar_chart"].
Proof.
  unfold charts. intros H Hfreq.
  destruct (getitem p (LStr "Answer Categories")) as [cat|]; cbn [bind] in H;
    [|discriminate].
  rewrite Hfreq in H. cbn [bind] in H. inversion H.
  now destruct (is_numeric_dtype freq).
Qed.

Lemma charts_inv table_name p viz :
  charts table_name p = Ok viz ->
  exists freq, getitem p (LStr "Weighted Frequency") = Ok freq.
Proof.
  unfold charts.
  destruct (getitem p (LStr "Answer Categories")) as [cat|]; cbn [bind];
    [|discriminate].
  destruct (getitem p (LStr "Weighted Frequency")) as [freq|]; cbn [bind];
    [eauto|discriminate].
Qed.

(** The bundle is empty, or it is the result of [charts] on the plotting
    frame. *)
Lemma create_visualizations_cases df table_name :
  create_visualizations df table_name = []
  \/ exists p, plot_frame df = Ok p
               /\ charts table_name p = Ok (create_visualizations df table_name).
Proof.
  unfold create_visualizations.
  destruct (empty df); [now left|].
  destruct (forallb (has_column df) required_cols); simpl; [|now left].
  destruct (plot_frame df) as [p|] eqn:Hp; simpl; [|now left].
  destruct (empty p); simpl; [now left|].
  destruct (charts table_name p) as [viz|] eqn:Hc; simpl; [|now left].
  right. now exists p.
Qed.

(** C8.  The entry [box_plot] is stored exactly when the frequency column
    of the plotting frame has a numeric dtype: with a column left as text
    there is no such entry.  A [box_plot] entry in the bundle of
    [create_visualizations] thus comes with a numeric frequency column. *)
Theorem box_plot_needs_numeric_frequencies table_name :
  (forall p viz freq,
     charts table_name p = Ok viz ->
     getitem p (LStr "Weighted Frequency") = Ok freq ->
     (In "box_plot" (keys viz) <-> is_numeric_dtype freq = true))
  /\ (forall df,
        In "box_plot" (keys (create_visualizations df table_name)) ->
        exists p freq,
          plot_frame df = Ok p
          /\ getitem p (LStr "Weighted Frequency") = Ok freq
          /\ is_numeric_dtype freq = true).
Proof.
  assert (H1 : forall p viz freq,
     charts table_name p = Ok viz ->
     getitem p (LStr "Weighted Frequency") = Ok freq ->
     (In "box_plot" (keys viz) <-> is_numeric_dtype freq = true)).
  { intros p viz freq Hc Hfreq. rewrite (charts_keys _ _ _ _ Hc Hfreq).
    destruct (is_numeric_dtype freq); simpl; split; auto.
    - intros [H|[H|[]]]; discriminate.
    - discriminate. }
  split; [exact H1|].
  intros df Hin.
  destruct (create_visualizations_cases df table_name) as [E|[p [Hp Hc]]].
  - rewrite E in Hin. contradiction.
  - destruct (charts_inv _ _ _ Hc) as [freq Hfreq].
    exists p, freq. split; [assumption|]. split; [assumption|].
    now apply (H1 p _ freq Hc Hfreq).
Qed.

(** C10.  The frequency column of the plotting frame always has a numeric
    dtype, so the bundle returned by [create_visualizations] is either empty
    or holds the three entries pie_chart, box_plot and bar_chart. *)
Theorem bundle_is_empty_or_complete df table_name :
  (forall p freq,
     plot_frame df = Ok p ->
     getitem p (LStr "Weighted Frequency") = Ok freq ->
     is_numeric_dtype freq = true)
  /\ (create_visualizations df table_name = []
      \/ keys (create_visualizations df table_name)
         = ["pie_chart"; "box_plot"; "bar_chart"]).
Proof.
  split; [intros p freq; apply plot_frame_numeric|].
  destruct (create_visualizations_cases df table_name) as [E|[p [Hp Hc]]];
    [now left|right].
  destruct (charts_inv _ _ _ Hc) as [freq Hfreq].
  rewrite (charts_keys _ _ _ _ Hc Hfreq).
  now rewrite (plot_frame_numeric _ _ _ Hp Hfreq).
Qed.

(** C4.  The rows that [create_visualizations] keeps for plotting are those
    whose category is neither missing nor equal to "Total", the comparison
    being exact; among them, the rows whose frequency parses reach the
    charts (the integers read are taken to be such that float64 holds them
    exactly).  The pie chart holds the frequencies of these rows as values
    and their categories as labels, the bar chart the categories as x and
    the frequencies as y, the box plot the frequencies.  For the categories
    A, B, Total with the frequencies "10", "20", "5" the pie and the bar
    chart hold the two entries A: 10 and B: 20. *)
Theorem charts_show_kept_categories df table_name ac wf :
  well_formed df ->
  empty df = false ->
  getitem df (LStr "Answer Categories") = Ok ac ->
  getitem df (LStr "Weighted Frequency") = Ok wf ->
  let kept :=
    filter (fun r => negb (isna (fst r)) && negb (eq_str (fst r) "Total"))
           (combine (tolist ac) (tolist wf)) in
  let numbers := map (fun r => reparse (snd r)) kept in
  (forall z, In (NInt z) numbers -> Z.abs z <= 2 ^ 53) ->
  let all_int := forallb is_int numbers in
  let rows :=
    filter (fun r => all_int || negb (isnan (to_float (reparse (snd r))))) kept in
  let categories := map fst rows in
  let frequencies :=
    map (fun r => if all_int then VNum (NInt (int_of (reparse (snd r))))
                  else VNum (NFloat (to_float (reparse (snd r))))) rows in
  create_visualizations df table_name
  = match rows with
    | [] => []
    | _ :: _ =>
        [("pie_chart",
          Chart [Pie frequencies categories "percent" "label+percent+value"
                     (if (5 <? length rows)%nat then 3 # 10 else 0)%Q]
                (Layout (table_name ++ ": Weighted Distribution") None None
                        (Margin 20 20 20 40) (Some true)));
         ("box_plot",
          Chart [Box frequencies "Weighted Frequency" "all" (3 # 10)%Q
                     (- 18 # 10)%Q]
                (Layout (table_name ++ ": Weighted Frequency Distribution") None
                        (Some "Weighted Frequency") (Margin 60 20 40 40) None));
         ("bar_chart",
          Chart [Bar categories frequencies "rgba(55, 128, 191, 0.7)"]
                (Layout (table_name ++ ": Weighted Frequency by Category")
                        (Some "Answer Categories") (Some "Weighted Frequency")
                        (Margin 60 20 100 40) None))]
    end
  /\ (to_double "10" = Some (NInt 10) ->
      to_double "20" = Some (NInt 20) ->
      create_visualizations
        [(LStr "Answer Categories", SObject [VStr "A"; VStr "B"; VStr "Total"]);
         (LStr "Weighted Frequency", SObject [VStr "10"; VStr "20"; VStr "5"])]
        table_name
      = [("pie_chart",
          Chart [Pie [VNum (NInt 10); VNum (NInt 20)] [VStr "A"; VStr "B"]
                     "percent" "label+percent+value" 0%Q]
                (Layout (table_name ++ ": Weighted Distribution") None None
                        (Margin 20 20 20 40) (Some true)));
         ("box_plot",
          Chart [Box [VNum (NInt 10); VNum (NInt 20)] "Weighted Frequency" "all"
                     (3 # 10)%Q (- 18 # 10)%Q]
                (Layout (table_name ++ ": Weighted Frequency Distribution") None
                        (Some "Weighted Frequency") (Margin 60 20 40 40) None));
         ("bar_chart",
          Chart [Bar [VStr "A"; VStr "B"] [VNum (NInt 10); VNum (NInt 20)]
                     "rgba(55, 128, 191, 0.7)"]
                (Layout (table_name ++ ": Weighted Frequency by Category")
                        (Some "Answer Categories") (Some "Weighted Frequency")
                        (Margin 60 20 100 40) None))]).
Proof.
  intros Hwf Hne Hac Hwfq kept numbers _ all_int rows categories frequencies.
  split.
  - destruct (plot_frame_rows _ _ _ Hwf Hac Hwfq)
      as [p [cat [freq [Hp [Hp0 [Hn [Hcat [Hcl [Hfreq [Hnum Hfl]]]]]]]]]].
    rewrite charted_rows_filter in Hn, Hcl, Hfl.
    change (filter _ (kept_rows ac wf)) with rows in Hn, Hcl, Hfl.
    unfold create_visualizations. rewrite Hne.
    unfold required_cols. cbn [forallb].
    rewrite (getitem_has_column _ _ _ Hac), (getitem_has_column _ _ _ Hwfq).
    cbn [andb negb]. rewrite Hp. cbn [bind].
    rewrite (empty_nrows _ Hp0), Hn.
    unfold charts. rewrite Hcat, Hfreq. cbn [bind]. rewrite Hnum, Hcl, Hfl, Hn.
    destruct rows; reflexivity.
  - intros H10 H20.
    unfold create_visualizations, plot_frame, charts, dropna, to_numeric_coerce,
      astype_str, str_replace, str_method. simpl.
    rewrite H10, H20. reflexivity.
Qed.

(** ** The listing of the tables *)

Lemma in_sheets_In existing t : in_sheets existing t = true <-> In t existing.
Proof.
  unfold in_sheets. rewrite existsb_exists. split.
  - intros [x [Hx E]]. apply String.eqb_eq in E. now subst.
  - intros H. exists t. split; [assumption|apply String.eqb_refl].
Qed.

Lemma filter_split_permutation {A} (p : A -> bool) xs :
  Permutation (filter p xs ++ filter (fun x => negb (p x)) xs)%list xs.
Proof.
  induction xs as [|x r IH]; simpl; [constructor|].
  destruct (p x); simpl.
  - now constructor.
  - apply Permutation_sym, Permutation_cons_app. now apply Permutation_sym.
Qed.

(** X1.  When the workbook opens, [check_tables] splits the configured
    names in two: the two lists together are a rearrangement of the
    configured names; a name is available exactly when it is a sheet of the
    workbook, missing exactly when it is not; the two totals add up to the
    number of configured tables. *)
Theorem check_tables_partition sheets :
  exists available missing,
    check_tables (Workbook.Sheets sheets)
    = Report available missing (length available) (length missing)
    /\ Permutation (available ++ missing)%list (keys TABLE_DESCRIPTIONS)
    /\ (forall t, In t available
                  <-> In t (keys TABLE_DESCRIPTIONS) /\ In t (keys sheets))
    /\ (forall t, In t missing
                  <-> In t (keys TABLE_DESCRIPTIONS) /\ ~ In t (keys sheets))
    /\ (length available + length missing = length TABLE_DESCRIPTIONS)%nat.
Proof.
  exists (filter (in_sheets (keys sheets)) (keys TABLE_DESCRIPTIONS)),
         (filter (fun t => negb (in_sheets (keys sheets) t))
                 (keys TABLE_DESCRIPTIONS)).
  split; [reflexivity|]. split; [apply filter_split_permutation|].
  split; [|split].
  - intros t. rewrite filter_In, in_sheets_In. reflexivity.
  - intros t. rewrite filter_In, negb_true_iff, <- not_true_iff_false, in_sheets_In.
    reflexivity.
  - rewrite <- length_app.
    rewrite (Permutation_length (filter_split_permutation _ _)).
    unfold keys. apply length_map.
Qed.

(** X2.  The start page and [check_tables] agree: the tables offered on the
    start page are the available tables of [check_tables], and the count
    shown with them never exceeds the number of configured tables.  When the
    workbook cannot be opened, [check_tables] answers with the error message
    while the start page offers no table. *)
Theorem start_page_agrees_with_check_tables wb :
  tables (index wb) = get_available_tables wb
  /\ (available_count (index wb) <= total_tables (index wb))%nat
  /\ match check_tables wb with
     | Report available missing total_available total_missing =>
         tables (index wb) = available
         /\ available_count (index wb) = total_available
         /\ (total_available + total_missing = total_tables (index wb))%nat
     | Report_error message =>
         wb = Workbook.Unreadable message
         /\ tables (index wb) = []
         /\ available_count (index wb) = 0%nat
     end.
Proof.
  split; [reflexivity|].
  assert (Hlen : forall p, (length (filter p (keys TABLE_DESCRIPTIONS))
                            <= length TABLE_DESCRIPTIONS)%nat).
  { intros p. unfold keys. rewrite <- (length_map fst TABLE_DESCRIPTIONS).
    apply filter_length_le. }
  destruct wb as [message|sheets]; simpl.
  - split; [lia|]. repeat split.
  - split; [apply Hlen|]. repeat split.
    rewrite <- length_app.
    rewrite (Permutation_length (filter_split_permutation _ _)).
    unfold keys. apply length_map.
Qed.


(** ** More on cleaning *)

Lemma len_where_set {A} mask (v : A) xs : length (where_set mask v xs) = length xs.
Proof.
  revert xs. induction mask as [|m ms IH]; intros xs; [now destruct xs|].
  destruct xs as [|x r]; simpl; auto.
Qed.

Lemma len_loc_assign_str mask t s : len (loc_assign_str mask t s) = len s.
Proof. unfold len, loc_assign_str. cbn [tolist]. apply len_where_set. Qed.

Lemma where_set_nth_other {A} mask (v : A) xs i :
  nth_error mask i <> Some true ->
  nth_error (where_set mask v xs) i = nth_error xs i.
Proof.
  revert xs i. induction mask as [|m ms IH]; intros xs i H; [now destruct xs|].
  destruct xs as [|x r]; [reflexivity|].
  destruct i; simpl in *.
  - destruct m; congruence.
  - now apply IH.
Qed.

Lemma loc_assign_str_nth_other mask t s i :
  nth_error mask i <> Some true ->
  nth_error (tolist (loc_assign_str mask t s)) i = nth_error (tolist s) i.
Proof.
  intros H. unfold loc_assign_str. cbn [tolist]. now apply where_set_nth_other.
Qed.

Lemma clean_frame_In_inv df df1 l s' :
  clean_frame df = Ok df1 -> In (l, s') df1 ->
  exists s, In (l, s) df /\ clean_series l s = Ok s'.
Proof.
  revert df1. induction df as [|[k x] r IH]; simpl; intros df1 H Hin.
  - inversion H. subst. contradiction.
  - destruct (clean_series k x) as [x'|] eqn:Ex; simpl in H; [|discriminate].
    destruct (clean_frame r) as [r'|]; simpl in H; [|discriminate].
    inversion H. subst. destruct Hin as [E|Hin].
    + inversion E. subst. eauto.
    + destruct (IH r' eq_refl Hin) as [s [Hs Hc]]. eauto.
Qed.

Lemma clean_frame_raise df e :
  clean_frame df = Raise e ->
  e = AttributeError_lower /\ exists z cells, In (LInt z, SObject cells) df.
Proof.
  induction df as [|[k x] r IH]; simpl; [discriminate|].
  destruct (clean_series k x) as [x'|e'] eqn:Ex; simpl.
  - destruct (clean_frame r) as [r'|e'']; simpl; [discriminate|].
    intros H. inversion H. subst. destruct (IH eq_refl) as [He [z [cells Hin]]].
    split; [assumption|]. exists z, cells. now right.
  - intros H. inversion H. subst e'.
    destruct k as [name|z].
    + destruct (clean_series_str_label name x) as [x' Hx]. congruence.
    + destruct x as [cells|cells|cells]; try discriminate.
      simpl in Ex. inversion Ex. split; [reflexivity|].
      exists z, cells. now left.
Qed.

Lemma In_setitem df l s k x :
  In (k, x) (setitem df l s) -> (k = l /\ x = s) \/ In (k, x) df.
Proof.
  induction df as [|[j y] r IH]; simpl.
  - intros [E|[]]. inversion E. auto.
  - destruct (label_eqb j l) eqn:E.
    + apply label_eqb_eq in E. subst j.
      intros [E'|Hin]; [inversion E'; auto|auto].
    + intros [E'|Hin]; [auto|]. destruct (IH Hin); auto.
Qed.

Lemma clean_data_columns df df' :
  NoDup (columns df) -> clean_data df = Ok df' -> columns df' = columns df.
Proof.
  intros Hnd Hclean.
  destruct (clean_data_inv _ _ Hnd Hclean) as [df1 [Hf Hb]].
  pose proof (clean_frame_columns _ _ Hf) as Hcols.
  destruct Hb as [_|acs code Hac Hcd]; [assumption|].
  rewrite columns_setitem; [assumption|].
  now apply getitem_has_column with code.
Qed.

Lemma clean_data_all_len df df' :
  well_formed df -> clean_data df = Ok df' -> all_len df' (nrows df).
Proof.
  intros [Hnd Hlen] Hclean.
  destruct (clean_data_inv _ _ Hnd Hclean) as [df1 [Hf Hb]].
  assert (Hlen1 : all_len df1 (nrows df)).
  { intros l s' Hin. destruct (clean_frame_In_inv _ _ _ _ Hf Hin) as [s [Hs Hc]].
    rewrite (len_clean_series _ _ _ Hc). now apply (Hlen l). }
  destruct Hb as [_|acs code Hac Hcd]; [assumption|].
  apply all_len_setitem; [assumption|].
  rewrite len_loc_assign_str. apply (Hlen1 (LStr "Code")), getitem_In, Hcd.
Qed.

Lemma clean_data_nrows df df' :
  well_formed df -> clean_data df = Ok df' -> nrows df' = nrows df.
Proof.
  intros Hwf Hclean.
  pose proof (clean_data_columns _ _ (proj1 Hwf) Hclean) as Hcols.
  destruct df' as [|c r].
  - destruct df; [reflexivity|discriminate].
  - apply all_len_nrows; [now apply clean_data_all_len|discriminate].
Qed.

(** X5.  Cleaning keeps the shape of the frame: the labels and their
    order, the number of rows, the distinctness of the labels and the common
    length of the columns. *)
Theorem cleaning_keeps_the_shape df df' :
  well_formed df ->
  clean_data df = Ok df' ->
  columns df' = columns df
  /\ nrows df' = nrows df
  /\ well_formed df'.
Proof.
  intros Hwf Hclean.
  pose proof (clean_data_columns _ _ (proj1 Hwf) Hclean) as Hcols.
  pose proof (clean_data_nrows _ _ Hwf Hclean) as Hrows.
  split; [assumption|]. split; [assumption|]. split.
  - rewrite Hcols. exact (proj1 Hwf).
  - intros l s Hin. rewrite Hrows.
    now apply (clean_data_all_len _ _ Hwf Hclean l).
Qed.

(** X6.  Cleaning never alters a numeric column other than "Code": it is
    found in the cleaned frame as it was delivered. *)
Theorem numeric_columns_are_kept df df' l s :
  NoDup (columns df) ->
  clean_data df = Ok df' ->
  In (l, s) df ->
  is_numeric_dtype s = true ->
  l <> LStr "Code" ->
  getitem df' l = Ok s.
Proof.
  intros Hnd Hclean Hin Hnum Hl.
  destruct (clean_data_inv _ _ Hnd Hclean) as [df1 [Hf Hb]].
  pose proof (In_getitem _ _ _ Hnd Hin) as Hg.
  destruct (clean_frame_getitem _ _ _ _ Hf Hg) as [s1 [Hg1 Hs1]].
  rewrite clean_series_numeric in Hs1 by assumption. inversion Hs1. subst s1.
  destruct Hb as [_|acs code Hac Hcd]; [assumption|].
  now rewrite getitem_setitem_other.
Qed.

(** X7.  Cleaning can fail in two ways only.  Either an object column has a
    label that is not a string, and the error is the missing [lower] of that
    label; or the frame has a "Code" column and its "Answer Categories"
    column is numeric once the loop is over (delivered numeric, or text whose
    stripped values all parse), and the error is that of the string
    accessor.  A value that does not parse never makes cleaning fail. *)
Theorem cleaning_fails_in_two_ways df e :
  NoDup (columns df) ->
  clean_data df = Raise e ->
  (e = AttributeError_lower /\ exists z cells, In (LInt z, SObject cells) df)
  \/ (e = AttributeError_str_accessor
      /\ has_column df (LStr "Code") = true
      /\ exists ac,
           In (LStr "Answer Categories", ac) df
           /\ (is_numeric_dtype ac = true
               \/ exists cells, ac = SObject cells
                                /\ Forall parses (stripped_text cells))).
Proof.
  intros Hnd. rewrite clean_data_frame by assumption.
  destruct (clean_frame df) as [df1|e1] eqn:Hf; simpl.
  - intros Hb. right. unfold blank_total_code in Hb.
    destruct (has_column df1 (LStr "Answer Categories")) eqn:Ha;
      [|discriminate].
    destruct (has_column df1 (LStr "Code")) eqn:Hc; [|discriminate].
    simpl in Hb.
    destruct (has_column_getitem _ _ Ha) as [ac1 Hac1].
    destruct (has_column_getitem _ _ Hc) as [code1 Hcd1].
    rewrite Hac1 in Hb. cbn [bind] in Hb.
    assert (Hnum : is_numeric_dtype ac1 = true /\ e = AttributeError_str_accessor).
    { destruct ac1 as [cells|cells|cells]; simpl in Hb.
      - rewrite Hcd1 in Hb. discriminate.
      - inversion Hb. auto.
      - inversion Hb. auto. }
    destruct Hnum as [Hnum He]. split; [assumption|].
    split.
    { unfold has_column in *. now rewrite <- (clean_frame_columns _ _ Hf). }
    destruct (clean_frame_getitem_inv _ _ _ _ Hf Hac1) as [ac [Hac Hs]].
    exists ac. split; [now apply getitem_In|].
    destruct ac as [cells|cells|cells]; [right|now left|now left].
    exists cells. split; [reflexivity|].
    destruct (Forall_dec parses parses_dec (stripped_text cells)) as [Hp|Hp];
      [assumption|].
    rewrite clean_series_value_text in Hs
      by (reflexivity || now apply unparsed_refused).
    inversion Hs. subst ac1. discriminate.
  - intros H. inversion H. subst e1. left. now apply clean_frame_raise.
Qed.

Lemma blank_total_code_text df :
  (has_column df (LStr "Code") = true ->
   forall ac, getitem df (LStr "Answer Categories") = Ok ac ->
     exists cells, ac = SObject cells) ->
  exists df', blank_total_code df = Ok df'.
Proof.
  intros Hac.
  destruct (has_column df (LStr "Answer Categories")
            && has_column df (LStr "Code")) eqn:E;
    [|unfold blank_total_code; rewrite E; eauto].
  apply andb_true_iff in E as [Ha Hc].
  destruct (has_column_getitem _ _ Ha) as [ac Hg].
  destruct (has_column_getitem _ _ Hc) as [code Hcd].
  destruct (Hac Hc ac Hg) as [cells ->].
  rewrite (blank_total_code_set _ _ _ Hg Hcd). eauto.
Qed.

Lemma clean_frame_text_categories df df1 :
  clean_frame df = Ok df1 ->
  (has_column df (LStr "Code") = true ->
   forall ac, In (LStr "Answer Categories", ac) df ->
     exists cells, ac = SObject cells /\ ~ Forall parses (stripped_text cells)) ->
  has_column df1 (LStr "Code") = true ->
  forall ac1, getitem df1 (LStr "Answer Categories") = Ok ac1 ->
    exists cells, ac1 = SObject cells.
Proof.
  intros Hf Hac Hc ac1 Hg1.
  destruct (clean_frame_getitem_inv _ _ _ _ Hf Hg1) as [ac [Hg Hs]].
  assert (Hc0 : has_column df (LStr "Code") = true).
  { unfold has_column in *. now rewrite <- (clean_frame_columns _ _ Hf). }
  destruct (Hac Hc0 ac (getitem_In _ _ _ Hg)) as [cells [-> Hp]].
  rewrite clean_series_value_text in Hs
    by (reflexivity || now apply unparsed_refused).
  inversion Hs. eauto.
Qed.

(** X8.  A frame whose labels are all strings is cleaned without error as
    soon as its "Answer Categories" column, when it comes with a "Code"
    column, is an object column holding a value that does not parse. *)
Theorem text_categories_make_cleaning_succeed df :
  NoDup (columns df) ->
  forallb is_str_label (columns df) = true ->
  (has_column df (LStr "Code") = true ->
   forall ac, In (LStr "Answer Categories", ac) df ->
     exists cells, ac = SObject cells /\ ~ Forall parses (stripped_text cells)) ->
  exists df', clean_data df = Ok df'.
Proof.
  intros Hnd Hlab Hac. rewrite clean_data_frame by assumption.
  destruct (clean_frame_str_labels _ Hlab) as [df1 Hf]. rewrite Hf. simpl.
  apply blank_total_code_text.
  now apply (clean_frame_text_categories df).
Qed.

(** X9.  Cleaning never blanks the code of a row that is not a Total row:
    there the cleaned "Code" column holds the delivered code, as its string
    form when the column was delivered with dtype object. *)
Theorem other_rows_keep_their_code df df' code0 code' i c :
  NoDup (columns df) ->
  clean_data df = Ok df' ->
  getitem df (LStr "Code") = Ok code0 ->
  getitem df' (LStr "Code") = Ok code' ->
  (forall ac v, getitem df' (LStr "Answer Categories") = Ok ac ->
                nth_error (tolist ac) i = Some v -> is_total v = false) ->
  nth_error (tolist code0) i = Some c ->
  nth_error (tolist code') i
  = Some (if is_numeric_dtype code0 then c else VStr (py_str c)).
Proof.
  intros Hnd Hclean Hg0 Hg' Hrow Hc.
  destruct (clean_data_inv _ _ Hnd Hclean) as [df1 [Hf Hb]].
  destruct (clean_frame_getitem _ _ _ _ Hf Hg0) as [s1 [Hg1 Hs1]].
  rewrite clean_series_code_stringified in Hs1.
  assert (Es : s1 = stringified code0) by congruence. subst s1. clear Hs1.
  assert (H1 : nth_error (tolist (stringified code0)) i
               = Some (if is_numeric_dtype code0 then c else VStr (py_str c))).
  { destruct code0 as [cells|cells|cells]; simpl; try exact Hc.
    simpl in Hc. now rewrite (map_nth_error _ _ _ Hc). }
  destruct Hb as [_|acs code Hac Hcd].
  - assert (E : code' = stringified code0) by congruence. now subst.
  - rewrite getitem_setitem_same in Hg'.
    assert (E : code = stringified code0) by congruence. subst code.
    assert (E : code' = loc_assign_str (map is_total acs) "" (stringified code0))
      by congruence. subst code'.
    rewrite loc_assign_str_nth_other; [exact H1|].
    intros Hm. rewrite nth_error_map in Hm.
    destruct (nth_error acs i) as [v|] eqn:Ev; simpl in Hm; [|discriminate].
    assert (Ht : is_total v = true) by congruence.
    rewrite (Hrow (SObject acs) v) in Ht; [discriminate| |exact Ev].
    now rewrite getitem_setitem_other by discriminate.
Qed.


(** ** More on the statistics record *)

Lemma numeric_cols_sound df cols ls l :
  numeric_cols df cols = Ok ls -> In l ls ->
  exists name s, l = LStr name /\ is_code name = false
                 /\ getitem df l = Ok s /\ is_numeric_dtype s = true.
Proof.
  revert ls. induction cols as [|col rest IH]; simpl; intros ls H Hin.
  - inversion H. subst. contradiction.
  - destruct (getitem df col) as [s|] eqn:Hg; cbn [bind] in H; [|discriminate].
    destruct (is_numeric_dtype s) eqn:Hn.
    + destruct col as [name|z]; simpl in H; [|discriminate].
      destruct (numeric_cols df rest) as [tl|]; cbn [bind] in H; [|discriminate].
      destruct (String.eqb (PyStr.lower name) "code") eqn:Hc; simpl in H;
        inversion H; subst ls.
      * now apply (IH tl).
      * destruct Hin as [E|Hin]; [|now apply (IH tl)].
        subst l. exists name, s. repeat split; assumption.
    + simpl in H.
      destruct (numeric_cols df rest) as [tl|]; cbn [bind] in H; [|discriminate].
      inversion H. subst ls. now apply (IH tl).
Qed.

Lemma In_dict_set {V} (d : dict label V) k v k' v' :
  In (k', v') (dict_set label_eqb d k v) -> (k' = k /\ v' = v) \/ In (k', v') d.
Proof.
  induction d as [|[j y] r IH]; simpl.
  - intros [E|[]]. inversion E. auto.
  - destruct (label_eqb j k) eqn:E.
    + apply label_eqb_eq in E. subst j.
      intros [E'|Hin]; [inversion E'; auto|auto].
    + intros [E'|Hin]; [auto|]. destruct (IH Hin); auto.
Qed.

Lemma stats_loop_sound df cols acc stats l e :
  stats_loop df cols acc = Ok stats -> In (l, e) stats ->
  In (l, e) acc
  \/ (In l cols /\ exists s, getitem df l = Ok s /\ e = column_entry s).
Proof.
  revert acc. induction cols as [|col rest IH]; simpl; intros acc H Hin.
  - inversion H. subst. now left.
  - destruct (getitem df col) as [s|] eqn:Hg; cbn [bind] in H; [|discriminate].
    destruct (IH _ H Hin) as [Hacc|[Hl Hs]].
    + destruct (In_dict_set _ _ _ _ _ Hacc) as [[-> ->]|Hacc']; [right|now left].
      split; [now left|]. now exists s.
    + right. split; [now right|assumption].
Qed.

Lemma series_count_le s : (series_count s <= len s)%nat.
Proof. apply filter_length_le. Qed.

Lemma statistics_entry_column df l e :
  In (l, e) (get_basic_statistics df) ->
  exists name s,
    l = LStr name
    /\ is_code name = false
    /\ getitem df l = Ok s
    /\ is_numeric_dtype s = true
    /\ e = column_entry s.
Proof.
  intros Hin. unfold get_basic_statistics in Hin.
  destruct (empty df); [contradiction|].
  unfold statistics_of in Hin.
  destruct (numeric_cols df (columns df)) as [ls|] eqn:Hcols;
    cbn [bind] in Hin; [|contradiction].
  destruct (stats_loop df ls []) as [stats|] eqn:Hloop;
    cbn [try_except] in Hin; [|contradiction].
  destruct (stats_loop_sound _ _ _ _ _ _ Hloop Hin) as [[]|[Hl [s [Hg He]]]].
  destruct (numeric_cols_sound _ _ _ _ Hcols Hl) as [name [s' [El [Hc [Hg' Hn]]]]].
  assert (s' = s) by congruence. subst s'.
  now exists name, s.
Qed.

(** X10.  Every entry of the statistics record belongs to a column of the
    frame that is numeric and whose label is a string other than "code" in
    any case; the entry carries the statistics of that column, and its count
    lies between zero and the number of rows.  Text columns and code columns
    are never summarised. *)
Theorem statistics_entries_are_sound df l e :
  well_formed df ->
  In (l, e) (get_basic_statistics df) ->
  exists name s,
    l = LStr name
    /\ String.eqb (PyStr.lower name) "code" = false
    /\ In (l, s) df
    /\ is_numeric_dtype s = true
    /\ e = column_entry s
    /\ 0 <= st_count e <= Z.of_nat (nrows df).
Proof.
  intros [Hnd Hlen] Hin.
  destruct (statistics_entry_column _ _ _ Hin) as [name [s [El [Hc [Hg [Hn He]]]]]].
  exists name, s. repeat split; try assumption.
  - now apply getitem_In.
  - subst e. simpl. lia.
  - subst e. simpl. apply Nat2Z.inj_le.
    rewrite <- (Hlen l s (getitem_In _ _ _ Hg)). apply series_count_le.
Qed.

(** X11.  Cleaning makes a column of separated numbers summarisable, and
    only such a column: an object column whose name is not "code" has an
    entry in the statistics record of the cleaned frame exactly when
    [pd.to_numeric] accepts its values once ',' and '%' are removed; the
    entry then holds the statistics of the cleaned column, which is
    numeric. *)
Theorem cleaned_numbers_are_summarised df df' name cells :
  well_formed df ->
  empty df = false ->
  forallb is_str_label (columns df) = true ->
  clean_data df = Ok df' ->
  In (LStr name, SObject cells) df ->
  is_code name = false ->
  exists s',
    getitem df' (LStr name) = Ok s'
    /\ is_numeric_dtype s' = accepted (stripped_text cells)
    /\ (accepted (stripped_text cells) = true ->
        In (LStr name, column_entry s') (get_basic_statistics df'))
    /\ (forall e, In (LStr name, e) (get_basic_statistics df') ->
          accepted (stripped_text cells) = true /\ e = column_entry s').
Proof.
  intros Hwf Hne Hlab Hclean Hin Hcode.
  pose proof (clean_data_columns _ _ (proj1 Hwf) Hclean) as Hcols.
  pose proof (clean_data_nrows _ _ Hwf Hclean) as Hrows.
  assert (Hnd' : NoDup (columns df')) by (rewrite Hcols; exact (proj1 Hwf)).
  destruct (clean_data_inv _ _ (proj1 Hwf) Hclean) as [df1 [Hf Hb]].
  pose proof (In_getitem _ _ _ (proj1 Hwf) Hin) as Hg.
  destruct (clean_frame_getitem _ _ _ _ Hf Hg) as [s1 [Hg1 Hs1]].
  assert (Hg' : getitem df' (LStr name) = Ok s1).
  { destruct Hb as [_|acs code Hac Hcd]; [assumption|].
    rewrite getitem_setitem_other; [assumption|now apply code_label]. }
  assert (Hdt : is_numeric_dtype s1 = accepted (stripped_text cells)).
  { destruct (accepted (stripped_text cells)) eqn:Hp.
    - destruct (clean_series_value_numeric _ _ Hcode Hp) as [ns [_ Hs]].
      assert (s1 = pack_numeric ns) by congruence. subst s1.
      apply pack_numeric_numeric.
    - rewrite clean_series_value_text in Hs1 by assumption.
      now inversion Hs1. }
  exists s1. split; [assumption|]. split; [assumption|]. split.
  - intros Hp. rewrite Hp in Hdt. unfold get_basic_statistics.
    assert (He : empty df' = false).
    { destruct df' as [|c r]; [destruct df; discriminate|].
      rewrite empty_nrows by discriminate. rewrite Hrows.
      rewrite <- empty_nrows; [assumption|]. intros E. subst. discriminate. }
    rewrite He, statistics_of_entries; cbn [try_except].
    + apply in_map_iff. exists (LStr name, s1). split; [reflexivity|].
      apply filter_In. split; [now apply getitem_In|].
      unfold selected. simpl. now rewrite Hdt, Hcode.
    + assumption.
    + intros [l s] Hc _. simpl.
      assert (Hl : In l (columns df)).
      { rewrite <- Hcols. unfold columns. apply in_map_iff. now exists (l, s). }
      rewrite forallb_forall in Hlab. now apply Hlab.
  - intros e He.
    destruct (statistics_entry_column _ _ _ He) as [n [s [_ [_ [Hs [Hn Ee]]]]]].
    assert (s = s1) by congruence. subst s. split; congruence.
Qed.


(** ** The statistics that [jsonify] refuses *)

Lemma round2_is_int n : is_int (round2 n) = is_int n.
Proof. now destruct n. Qed.

Lemma series_mean_float s : is_int (series_mean s) = false.
Proof.
  destruct s as [cells|cells|cells]; cbn [series_mean]; [reflexivity| |].
  - now destruct cells.
  - now destruct (length (dropnan cells) =? 0)%nat.
Qed.

Lemma series_median_float s : is_int (series_median s) = false.
Proof.
  unfold series_median. destruct (sort (dropnan (float_values s))); [reflexivity|].
  now destruct (Nat.odd _).
Qed.

Lemma series_min_int s :
  Nat.eqb (len s) 0 = false -> is_numeric_dtype s = true ->
  is_int (series_min s) = int_typed s.
Proof.
  destruct s as [cells|cells|cells]; [discriminate| |]; intros Hl _.
  - destruct cells; [discriminate|reflexivity].
  - unfold series_min, extremum. now destruct (reduce fmin (dropnan cells)).
Qed.

Lemma series_max_int s :
  Nat.eqb (len s) 0 = false -> is_numeric_dtype s = true ->
  is_int (series_max s) = int_typed s.
Proof.
  destruct s as [cells|cells|cells]; [discriminate| |]; intros Hl _.
  - destruct cells; [discriminate|reflexivity].
  - unfold series_max, extremum. now destruct (reduce fmax (dropnan cells)).
Qed.

(** The entry of a column that has rows is encoded exactly when the column
    is not a column of integers: the minimum and the maximum of such a
    column are integer scalars of numpy. *)
Lemma column_entry_serializable s :
  Nat.eqb (len s) 0 = false -> is_numeric_dtype s = true ->
  serializable_stats (column_entry s) = negb (int_typed s).
Proof.
  intros Hl Hn. unfold serializable_stats, serializable_number, column_entry.
  cbn [st_mean st_median st_min st_max st_std].
  rewrite !round2_is_int, series_mean_float, series_median_float.
  rewrite (series_min_int _ Hl Hn), (series_max_int _ Hl Hn).
  unfold series_std. cbn [is_int negb andb].
  now destruct (int_typed s).
Qed.

Lemma forallb_filter_existsb {A} (sel f g : A -> bool) xs :
  (forall x, In x xs -> sel x = true -> f x = negb (g x)) ->
  forallb f (filter sel xs) = negb (existsb (fun x => sel x && g x) xs).
Proof.
  induction xs as [|x r IH]; simpl; intros H; [reflexivity|].
  destruct (sel x) eqn:E; simpl.
  - rewrite (H x) by auto. rewrite IH by auto. now destruct (g x).
  - apply IH. auto.
Qed.

Lemma forallb_map_compose {A B} (f : A -> B) (p : B -> bool) xs :
  forallb p (map f xs) = forallb (fun x => p (f x)) xs.
Proof. induction xs as [|x r IH]; simpl; congruence. Qed.

Lemma serializable_statistics df :
  well_formed df ->
  empty df = false ->
  (forall c, In c df -> is_numeric_dtype (snd c) = true ->
             is_str_label (fst c) = true) ->
  serializable (get_basic_statistics df)
  = negb (existsb (fun c => selected c && int_typed (snd c)) df).
Proof.
  intros [Hnd Hlen] Hne Hlab. unfold get_basic_statistics. rewrite Hne.
  rewrite statistics_of_entries by assumption. cbn [try_except].
  unfold serializable. rewrite forallb_map_compose. cbn [snd].
  apply forallb_filter_existsb. intros [l s] Hin Hsel.
  apply column_entry_serializable.
  - cbn [snd]. rewrite (Hlen l s Hin). rewrite <- empty_nrows; [assumption|].
    intros E. subst. contradiction.
  - unfold selected in Hsel. now apply andb_true_iff in Hsel as [Hs _].
Qed.

(** ** More on the chart bundle *)

Lemma create_visualizations_closed df table_name ac wf :
  well_formed df ->
  empty df = false ->
  getitem df (LStr "Answer Categories") = Ok ac ->
  getitem df (LStr "Weighted Frequency") = Ok wf ->
  create_visualizations df table_name
  = match charted_rows ac wf with
    | [] => []
    | _ => [("pie_chart",
             pie_chart table_name (map fst (charted_rows ac wf))
                       (charted_frequencies ac wf)
                       (length (charted_rows ac wf)));
            ("box_plot", box_plot table_name (charted_frequencies ac wf));
            ("bar_chart",
             bar_chart table_name (map fst (charted_rows ac wf))
                       (charted_frequencies ac wf))]
    end.
Proof.
  intros Hwf Hne Hac Hwfq.
  destruct (plot_frame_rows _ _ _ Hwf Hac Hwfq)
    as [p [cat [freq [Hp [Hp0 [Hn [Hcat [Hcl [Hfreq [Hnum Hfl]]]]]]]]]].
  unfold create_visualizations. rewrite Hne.
  unfold required_cols. cbn [forallb].
  rewrite (getitem_has_column _ _ _ Hac), (getitem_has_column _ _ _ Hwfq).
  cbn [andb negb]. rewrite Hp. cbn [bind].
  rewrite (empty_nrows _ Hp0), Hn.
  unfold charts. rewrite Hcat, Hfreq. cbn [bind]. rewrite Hnum, Hcl, Hfl, Hn.
  unfold charted_frequencies.
  destruct (charted_rows ac wf); reflexivity.
Qed.

Lemma create_visualizations_missing df table_name :
  has_column df (LStr "Answer Categories") = false
  \/ has_column df (LStr "Weighted Frequency") = false ->
  create_visualizations df table_name = [].
Proof.
  intros H. unfold create_visualizations. destruct (empty df); [reflexivity|].
  unfold required_cols. cbn [forallb].
  destruct H as [H|H]; rewrite H; [reflexivity|].
  now destruct (has_column df (LStr "Answer Categories")).
Qed.

Lemma charted_rows_kept ac wf r :
  In r (charted_rows ac wf) ->
  keeps_category (fst r) = true
  /\ (forallb is_int (map (fun k => reparse (snd k)) (kept_rows ac wf)) = true
      \/ parsed_ok (snd r) = true).
Proof.
  rewrite charted_rows_filter. unfold kept_rows at 2. intros H.
  apply filter_In in H as [H Hp]. apply filter_In in H as [_ Hk].
  split; [assumption|]. now apply orb_true_iff.
Qed.

(** X13.  The bundle of a well-formed frame is empty exactly when the frame
    is empty, or one of the two columns is missing, or no row has both a
    category that is kept and a frequency that parses. *)
Theorem bundle_is_empty_exactly_when df table_name :
  well_formed df ->
  (create_visualizations df table_name = []
   <-> empty df = true
       \/ has_column df (LStr "Answer Categories") = false
       \/ has_column df (LStr "Weighted Frequency") = false
       \/ exists ac wf,
            getitem df (LStr "Answer Categories") = Ok ac
            /\ getitem df (LStr "Weighted Frequency") = Ok wf
            /\ charted_rows ac wf = []).
Proof.
  intros Hwf.
  destruct (empty df) eqn:Hne.
  { split; [auto|]. intros _. unfold create_visualizations. now rewrite Hne. }
  destruct (has_column df (LStr "Answer Categories")) eqn:Ha;
    [|split; [auto|intros _; apply create_visualizations_missing; auto]].
  destruct (has_column df (LStr "Weighted Frequency")) eqn:Hw;
    [|split; [auto|intros _; apply create_visualizations_missing; auto]].
  destruct (has_column_getitem _ _ Ha) as [ac Hac].
  destruct (has_column_getitem _ _ Hw) as [wf Hwfq].
  rewrite (create_visualizations_closed _ _ _ _ Hwf Hne Hac Hwfq).
  split.
  - intros H. right. right. right. exists ac, wf.
    repeat split; try assumption.
    destruct (charted_rows ac wf); [reflexivity|discriminate].
  - intros [H|[H|[H|[ac' [wf' [Hac' [Hwf' Hrows]]]]]]]; try discriminate.
    assert (ac' = ac) by congruence. assert (wf' = wf) by congruence. subst.
    now rewrite Hrows.
Qed.

(** X14.  What the charts hold.  Every chart of the bundle is built from one
    list of categories and one list of frequencies of the same, non-zero
    length; no category is missing or equal to "Total"; every frequency is a
    number and none is missing. *)
Theorem charts_hold_clean_series df table_name k c :
  well_formed df ->
  In (k, c) (create_visualizations df table_name) ->
  exists categories frequencies,
    Forall (fun v => isna v = false /\ eq_str v "Total" = false) categories
    /\ Forall (fun v => isna v = false /\ exists n, v = VNum n) frequencies
    /\ length categories = length frequencies
    /\ frequencies <> []
    /\ (c = Chart [Pie frequencies categories "percent" "label+percent+value"
                       (if (5 <? length categories)%nat then 3 # 10 else 0)%Q]
                  (Layout (table_name ++ ": Weighted Distribution") None None
                          (Margin 20 20 20 40) (Some true))
        \/ c = Chart [Box frequencies "Weighted Frequency" "all" (3 # 10)%Q
                          (- 18 # 10)%Q]
                     (Layout (table_name ++ ": Weighted Frequency Distribution")
                             None (Some "Weighted Frequency")
                             (Margin 60 20 40 40) None)
        \/ c = Chart [Bar categories frequencies "rgba(55, 128, 191, 0.7)"]
                     (Layout (table_name ++ ": Weighted Frequency by Category")
                             (Some "Answer Categories") (Some "Weighted Frequency")
                             (Margin 60 20 100 40) None)).
Proof.
  intros Hwf Hin.
  destruct (empty df) eqn:Hne.
  { unfold create_visualizations in Hin. rewrite Hne in Hin. contradiction. }
  destruct (has_column df (LStr "Answer Categories")) eqn:Ha;
    [|rewrite create_visualizations_missing in Hin by auto; contradiction].
  destruct (has_column df (LStr "Weighted Frequency")) eqn:Hw;
    [|rewrite create_visualizations_missing in Hin by auto; contradiction].
  destruct (has_column_getitem _ _ Ha) as [ac Hac].
  destruct (has_column_getitem _ _ Hw) as [wf Hwfq].
  rewrite (create_visualizations_closed _ _ _ _ Hwf Hne Hac Hwfq) in Hin.
  exists (map fst (charted_rows ac wf)), (charted_frequencies ac wf).
  split; [|split; [|split; [|split]]].
  - rewrite Forall_map. apply Forall_forall. intros r Hr.
    destruct (charted_rows_kept _ _ _ Hr) as [Hk _].
    unfold keeps_category in Hk. apply andb_true_iff in Hk as [H1 H2].
    now rewrite negb_true_iff in H1, H2.
  - unfold charted_frequencies. rewrite Forall_map. apply Forall_forall.
    intros r Hr. destruct (charted_rows_kept _ _ _ Hr) as [_ Hp].
    unfold frequency_cell.
    destruct (forallb is_int _); [split; [reflexivity|eauto]|].
    destruct Hp as [Hp|Hp]; [discriminate|].
    unfold parsed_ok in Hp. rewrite negb_true_iff in Hp.
    split; [exact Hp|eauto].
  - unfold charted_frequencies. now rewrite !length_map.
  - unfold charted_frequencies. destruct (charted_rows ac wf); [contradiction|].
    discriminate.
  - rewrite length_map.
    destruct (charted_rows ac wf) eqn:E; [contradiction|]. rewrite <- E in *.
    destruct Hin as [H|[H|[H|[]]]]; inversion H;
      [left|right; left|right; right]; reflexivity.
Qed.


Lemma empty_len df l s :
  well_formed df -> In (l, s) df -> empty df = Nat.eqb (len s) 0.
Proof.
  intros [_ Hlen] Hin. rewrite (Hlen _ _ Hin).
  apply empty_nrows. intros E. subst. contradiction.
Qed.

(** X15.  The bundle depends on the two columns "Answer Categories" and
    "Weighted Frequency" only: the other columns of the frame can be dropped
    without changing it. *)
Theorem bundle_depends_on_two_columns df table_name ac wf :
  well_formed df ->
  getitem df (LStr "Answer Categories") = Ok ac ->
  getitem df (LStr "Weighted Frequency") = Ok wf ->
  create_visualizations df table_name
  = create_visualizations
      [(LStr "Answer Categories", ac); (LStr "Weighted Frequency", wf)]
      table_name.
Proof.
  intros Hwf Hac Hwfq.
  pose proof (empty_len _ _ _ Hwf (getitem_In _ _ _ Hac)) as He.
  assert (Hlen : len wf = len ac).
  { destruct Hwf as [_ Hl].
    rewrite (Hl _ _ (getitem_In _ _ _ Hac)).
    apply (Hl _ _ (getitem_In _ _ _ Hwfq)). }
  destruct (empty df) eqn:Hne.
  - unfold create_visualizations. rewrite Hne. simpl. now rewrite <- He.
  - rewrite (create_visualizations_closed _ _ _ _ Hwf Hne Hac Hwfq).
    symmetry. apply create_visualizations_closed.
    + split.
      * constructor; [intros [E|[]]; discriminate|].
        constructor; [intros []|constructor].
      * intros l s [E|[E|[]]]; inversion E; subst; simpl; auto.
    + simpl. now rewrite <- He.
    + reflexivity.
    + reflexivity.
Qed.

Lemma filter_all {A} (p : A -> bool) xs :
  (forall x, In x xs -> p x = true) -> filter p xs = xs.
Proof.
  induction xs as [|x r IH]; simpl; intros H; [reflexivity|].
  rewrite (H x) by now left. now rewrite IH by auto.
Qed.

Lemma In_combine_snd {A B} (xs : list A) (ys : list B) r :
  In r (combine xs ys) -> In (snd r) ys.
Proof. destruct r as [a b]. apply in_combine_r. Qed.

(** X16.  Integer frequencies are charted as they are.  When the column
    "Weighted Frequency" is int64 and the decimal form of each of its values
    parses back to that value, the charts hold, for every row whose category
    is kept, the category and the frequency of that row. *)
Theorem integer_frequencies_are_charted_unchanged df table_name ac zs :
  well_formed df ->
  empty df = false ->
  getitem df (LStr "Answer Categories") = Ok ac ->
  getitem df (LStr "Weighted Frequency") = Ok (SInt64 zs) ->
  Forall (fun z => to_double (PyStr.replace "," "" (str_of_Z z)) = Some (NInt z))
         zs ->
  let mask := map keeps_category (tolist ac) in
  let categories := select mask (tolist ac) in
  let frequencies := select mask (tolist (SInt64 zs)) in
  create_visualizations df table_name
  = match categories with
    | [] => []
    | _ => [("pie_chart",
             Chart [Pie frequencies categories "percent" "label+percent+value"
                        (if (5 <? length categories)%nat then 3 # 10 else 0)%Q]
                   (Layout (table_name ++ ": Weighted Distribution") None None
                           (Margin 20 20 20 40) (Some true)));
            ("box_plot",
             Chart [Box frequencies "Weighted Frequency" "all" (3 # 10)%Q
                        (- 18 # 10)%Q]
                   (Layout (table_name ++ ": Weighted Frequency Distribution")
                           None (Some "Weighted Frequency")
                           (Margin 60 20 40 40) None));
            ("bar_chart",
             Chart [Bar categories frequencies "rgba(55, 128, 191, 0.7)"]
                   (Layout (table_name ++ ": Weighted Frequency by Category")
                           (Some "Answer Categories") (Some "Weighted Frequency")
                           (Margin 60 20 100 40) None))]
    end.
Proof.
  intros Hwf Hne Hac Hwfq Hparse mask categories frequencies.
  rewrite (create_visualizations_closed _ _ _ _ Hwf Hne Hac Hwfq).
  assert (Hlen : length (tolist ac) = length (tolist (SInt64 zs))).
  { destruct Hwf as [_ Hl]. change (len ac = len (SInt64 zs)).
    rewrite (Hl _ _ (getitem_In _ _ _ Hac)).
    symmetry. apply (Hl _ _ (getitem_In _ _ _ Hwfq)). }
  assert (Hrow : forall r, In r (kept_rows ac (SInt64 zs)) ->
                   exists z, snd r = VNum (NInt z) /\ reparse (snd r) = NInt z).
  { intros r Hr. unfold kept_rows in Hr. apply filter_In in Hr as [Hr _].
    apply In_combine_snd in Hr. simpl in Hr.
    apply in_map_iff in Hr as [z [E Hz]]. exists z. split; [now symmetry|].
    rewrite <- E. unfold reparse. simpl.
    rewrite Forall_forall in Hparse. now rewrite (Hparse z Hz). }
  assert (Hint : forallb is_int (map (fun k => reparse (snd k))
                                     (kept_rows ac (SInt64 zs))) = true).
  { apply forallb_forall. intros n Hn. apply in_map_iff in Hn as [r [E Hr]].
    destruct (Hrow r Hr) as [z [_ E']]. rewrite <- E, E'. reflexivity. }
  assert (Hch : charted_rows ac (SInt64 zs) = kept_rows ac (SInt64 zs)).
  { unfold charted_rows. now rewrite Hint. }
  assert (Hc : map fst (kept_rows ac (SInt64 zs)) = categories).
  { symmetry. apply select_fst. exact Hlen. }
  assert (Hf : charted_frequencies ac (SInt64 zs) = frequencies).
  { unfold charted_frequencies, frequencies, mask.
    rewrite Hch, Hint, select_snd. fold (kept_rows ac (SInt64 zs)).
    apply map_ext_in. intros r Hr. destruct (Hrow r Hr) as [z [E1 E2]].
    rewrite E2, E1. reflexivity. }
  assert (Hl : length (kept_rows ac (SInt64 zs)) = length categories)
    by (rewrite <- Hc; now rewrite length_map).
  rewrite Hch, Hf, Hc, Hl. clearbody categories frequencies.
  destruct (kept_rows ac (SInt64 zs)); destruct categories;
    try discriminate; reflexivity.
Qed.

End App.

(** * The results on concrete sheets

    The statements above, applied to small frames with the executable
    conversions: decimal integer literals and fixed notation. *)

Local Abbreviation AC := (LStr "Answer Categories").
Local Abbreviation WF := (LStr "Weighted Frequency").
Local Abbreviation CODE := (LStr "Code").
Local Abbreviation clean := (clean_data integer_literal fixed_notation).

Ltac distinct_labels := repeat constructor; simpl; intuition discriminate.

Ltac same_length :=
  let l := fresh in let s := fresh in let H := fresh in
  intros l s H; simpl in H;
  repeat (destruct H as [H|H]; [inversion H; reflexivity|]); contradiction.

Ltac sheet := split; [distinct_labels|same_length].

(** C1 as stated fails: a "Code" column that the reader delivers as int64
    is skipped by the loop and is still int64, not text, after cleaning. *)
Lemma numeric_code_column_is_not_made_text :
  well_formed [(CODE, SInt64 [1; 2])]
  /\ clean [(CODE, SInt64 [1; 2])] = Ok [(CODE, SInt64 [1; 2])]
  /\ is_code "Code" = true
  /\ is_text (SInt64 [1; 2]) = false
  /\ is_numeric_dtype (SInt64 [1; 2]) = true.
Proof. split; [sheet|repeat split]. Qed.

Lemma code_column_stays_text_witness :
  exists mask,
    getitem [(AC, SObject [VStr "Yes"; VStr "Total"]);
             (CODE, SObject [VStr "01"; VStr ""])] CODE
    = Ok (SObject (where_set mask (VStr "")
                     (map VStr (map (py_str fixed_notation)
                                    [VStr "01"; VStr "99"]))))
    /\ is_text (SObject (where_set mask (VStr "")
                           (map VStr (map (py_str fixed_notation)
                                          [VStr "01"; VStr "99"]))))
       = true.
Proof.
  apply (code_column_stays_text integer_literal fixed_notation
           [(AC, SObject [VStr "Yes"; VStr "Total"]);
            (CODE, SObject [VStr "01"; VStr "99"])]).
  - distinct_labels.
  - reflexivity.
  - right. left. reflexivity.
  - reflexivity.
Defined.

(** C2 as stated fails: each of the two values parses, but no dtype holds
    2^63 together with -1, so [pd.to_numeric] hands the column back and it
    stays text. *)
Lemma unsigned_and_negative_integers_stay_text :
  well_formed [(WF, SObject [VStr "9223372036854775808"; VStr "-1"])]
  /\ is_code "Weighted Frequency" = false
  /\ map integer_literal
         (stripped_text fixed_notation [VStr "9223372036854775808"; VStr "-1"])
     = [Some (NInt 9223372036854775808); Some (NInt (-1))]
  /\ Forall (parses integer_literal)
            (stripped_text fixed_notation
               [VStr "9223372036854775808"; VStr "-1"])
  /\ clean [(WF, SObject [VStr "9223372036854775808"; VStr "-1"])]
     = Ok [(WF, SObject [VStr "9223372036854775808"; VStr "-1"])]
  /\ is_numeric_dtype (SObject [VStr "9223372036854775808"; VStr "-1"]) = false.
Proof.
  split; [sheet|]. split; [reflexivity|]. split; [reflexivity|].
  split; [repeat constructor; discriminate|]. split; reflexivity.
Qed.

Lemma value_column_numeric_iff_accepted_witness :
  exists s',
    getitem [(WF, SInt64 [1000; 20])] WF = Ok s'
    /\ s' = SInt64 [1000; 20]
    /\ is_numeric_dtype s' = true.
Proof.
  destruct (value_column_numeric_iff_accepted integer_literal fixed_notation
              [(WF, SObject [VStr "1,000"; VStr "20%"])]
              [(WF, SInt64 [1000; 20])] "Weighted Frequency"
              [VStr "1,000"; VStr "20%"])
    as [s' [Hg [_ [Hn [Hv _]]]]].
  - distinct_labels.
  - reflexivity.
  - left. reflexivity.
  - reflexivity.
  - exists s'. split; [exact Hg|].
    assert (Hnum : is_numeric_dtype s' = true).
    { apply Hn. exists [NInt 1000; NInt 20]. split; [reflexivity|]. split.
      - intros z [E|[E|[]]]; inversion E; lia.
      - intros [[z [[E|[E|[]]] Hz]] _]; inversion E; lia. }
    split; [|exact Hnum].
    apply (proj1 (Hv [NInt 1000; NInt 20] Hnum eq_refl)). reflexivity.
Defined.

Lemma total_row_has_blank_code_witness :
  nth_error (tolist (SObject [VStr "01"; VStr ""])) 1 = Some (VStr "").
Proof.
  apply (total_row_has_blank_code integer_literal fixed_notation
           [(AC, SObject [VStr "Yes"; VStr " TOTAL "]);
            (CODE, SObject [VStr "01"; VStr "99"])]
           [(AC, SObject [VStr "Yes"; VStr " TOTAL "]);
            (CODE, SObject [VStr "01"; VStr ""])]
           (SObject [VStr "Yes"; VStr " TOTAL "])
           (SObject [VStr "Yes"; VStr " TOTAL "])
           (SObject [VStr "01"; VStr ""]) 1%nat " TOTAL ").
  - sheet.
  - reflexivity.
  - reflexivity.
  - reflexivity.
  - reflexivity.
  - left. reflexivity.
  - reflexivity.
Defined.

Lemma charts_show_kept_categories_witness :
  create_visualizations integer_literal fixed_notation
    [(AC, SObject [VStr "A"; VNone; VStr "total"; VStr "Total"; VStr "B"]);
     (WF, SObject [VStr "1,000"; VStr "7"; VStr "30"; VStr "5"; VStr "n/a"])]
    "Table 1"
  = [("pie_chart",
      Chart [Pie [VNum (NFloat 1000); VNum (NFloat 30)] [VStr "A"; VStr "total"]
                 "percent" "label+percent+value" 0%Q]
            (Layout "Table 1: Weighted Distribution" None None
                    (Margin 20 20 20 40) (Some true)));
     ("box_plot",
      Chart [Box [VNum (NFloat 1000); VNum (NFloat 30)] "Weighted Frequency" "all"
                 (3 # 10)%Q (- 18 # 10)%Q]
            (Layout "Table 1: Weighted Frequency Distribution" None
                    (Some "Weighted Frequency") (Margin 60 20 40 40) None));
     ("bar_chart",
      Chart [Bar [VStr "A"; VStr "total"] [VNum (NFloat 1000); VNum (NFloat 30)]
                 "rgba(55, 128, 191, 0.7)"]
            (Layout "Table 1: Weighted Frequency by Category"
                    (Some "Answer Categories") (Some "Weighted Frequency")
                    (Margin 60 20 100 40) None))].
Proof.
  apply (proj1 (charts_show_kept_categories integer_literal fixed_notation
           [(AC, SObject [VStr "A"; VNone; VStr "total"; VStr "Total"; VStr "B"]);
            (WF, SObject [VStr "1,000"; VStr "7"; VStr "30"; VStr "5"; VStr "n/a"])]
           "Table 1"
           (SObject [VStr "A"; VNone; VStr "total"; VStr "Total"; VStr "B"])
           (SObject [VStr "1,000"; VStr "7"; VStr "30"; VStr "5"; VStr "n/a"])
           ltac:(sheet) eq_refl eq_refl eq_refl
           ltac:(intros z H; vm_compute in H;
                 repeat (destruct H as [H|H]; [inversion H; lia|]);
                 contradiction))).
Defined.

(** The example of C4, with the executable parser. *)
Lemma charts_of_the_example :
  create_visualizations integer_literal fixed_notation
    [(AC, SObject [VStr "A"; VStr "B"; VStr "Total"]);
     (WF, SObject [VStr "10"; VStr "20"; VStr "5"])] "Table 1"
  = [("pie_chart",
      Chart [Pie [VNum (NInt 10); VNum (NInt 20)] [VStr "A"; VStr "B"]
                 "percent" "label+percent+value" 0%Q]
            (Layout "Table 1: Weighted Distribution" None None
                    (Margin 20 20 20 40) (Some true)));
     ("box_plot",
      Chart [Box [VNum (NInt 10); VNum (NInt 20)] "Weighted Frequency" "all"
                 (3 # 10)%Q (- 18 # 10)%Q]
            (Layout "Table 1: Weighted Frequency Distribution" None
                    (Some "Weighted Frequency") (Margin 60 20 40 40) None));
     ("bar_chart",
      Chart [Bar [VStr "A"; VStr "B"] [VNum (NInt 10); VNum (NInt 20)]
                 "rgba(55, 128, 191, 0.7)"]
            (Layout "Table 1: Weighted Frequency by Category"
                    (Some "Answer Categories") (Some "Weighted Frequency")
                    (Margin 60 20 100 40) None))].
Proof. reflexivity. Qed.


Lemma statistics_all_or_nothing_witness :
  statistics_of
    [(LStr "Weighted Frequency", SInt64 [1; 2; 3]); (LInt 2020, SInt64 [4; 5; 6])]
  = Raise AttributeError_lower
  /\ get_basic_statistics
       [(LStr "Weighted Frequency", SInt64 [1; 2; 3]); (LInt 2020, SInt64 [4; 5; 6])]
     = [].
Proof.
  apply (proj2 (statistics_all_or_nothing
           [(LStr "Weighted Frequency", SInt64 [1; 2; 3]);
            (LInt 2020, SInt64 [4; 5; 6])]) 2020 (SInt64 [4; 5; 6])).
  - distinct_labels.
  - right. left. reflexivity.
  - reflexivity.
Defined.


(** The same without a Total row: the assignment selects no row and still
    upcasts the int64 "Code" column, whose numbers the second cleaning turns
    into strings. *)
Lemma recleaning_changes_code_without_total :
  clean [(AC, SObject [VStr "A"; VStr "B"]); (CODE, SInt64 [1; 2])]
  = Ok [(AC, SObject [VStr "A"; VStr "B"]);
        (CODE, SObject [VNum (NInt 1); VNum (NInt 2)])]
  /\ clean [(AC, SObject [VStr "A"; VStr "B"]);
            (CODE, SObject [VNum (NInt 1); VNum (NInt 2)])]
     = Ok [(AC, SObject [VStr "A"; VStr "B"]);
           (CODE, SObject [VStr "1"; VStr "2"])].
Proof. split; reflexivity. Qed.


Lemma box_plot_needs_numeric_frequencies_witness :
  (In "box_plot"
      (keys [("pie_chart", pie_chart "Table 1" [VStr "A"] [VStr "n/a"] 1);
             ("bar_chart", bar_chart "Table 1" [VStr "A"] [VStr "n/a"])])
   <-> is_numeric_dtype (SObject [VStr "n/a"]) = true).
Proof.
  apply (proj1 (box_plot_needs_numeric_frequencies integer_literal fixed_notation
                  "Table 1")
           [(AC, SObject [VStr "A"]); (WF, SObject [VStr "n/a"])]).
  - reflexivity.
  - reflexivity.
Defined.

Lemma numeric_categories_break_cleaning_witness :
  clean [(AC, SObject [VStr "1"; VStr "2"]); (CODE, SObject [VStr "a"; VStr "b"])]
  = Raise AttributeError_str_accessor
  /\ get_table_data integer_literal fixed_notation
       [("Table 1", "How many?")]
       (fun _ => [(AC, SObject [VStr "1"; VStr "2"]);
                  (CODE, SObject [VStr "a"; VStr "b"])])
       (Some "Table 1")
     = Failure (Exception AttributeError_str_accessor).
Proof.
  apply (numeric_categories_break_cleaning integer_literal fixed_notation
           [("Table 1", "How many?")]
           (fun _ => [(AC, SObject [VStr "1"; VStr "2"]);
                      (CODE, SObject [VStr "a"; VStr "b"])])
           "Table 1" _ [VStr "1"; VStr "2"]).
  - discriminate.
  - left. reflexivity.
  - reflexivity.
  - reflexivity.
  - distinct_labels.
  - reflexivity.
  - left. reflexivity.
  - reflexivity.
  - reflexivity.
Defined.

Lemma bundle_is_empty_or_complete_witness :
  is_numeric_dtype (SFloat64 [10%float]) = true.
Proof.
  apply (proj1 (bundle_is_empty_or_complete integer_literal fixed_notation
                  [(AC, SObject [VStr "A"; VStr "B"]);
                   (WF, SObject [VStr "10"; VStr "n/a"])] "Table 1")
           [(AC, SObject [VStr "A"]); (WF, SFloat64 [10%float])]).
  - reflexivity.
  - reflexivity.
Defined.

(** * The workbook behind [get_table_data] *)

Lemma dict_get_absent {V} (d : dict string V) k :
  ~ In k (keys d) -> dict_get String.eqb d k = None.
Proof.
  induction d as [|[k' v] r IH]; simpl; intros H; [reflexivity|].
  destruct (String.eqb k' k) eqn:E.
  - apply String.eqb_eq in E. tauto.
  - apply IH. tauto.
Qed.

Lemma valid_name_passes (descriptions : dict string string) name :
  name <> "" -> In name (keys descriptions) ->
  String.eqb name "" || negb (existsb (String.eqb name) (keys descriptions)) = false.
Proof.
  intros Hne Hin.
  destruct (String.eqb name "") eqn:E; [apply String.eqb_eq in E; tauto|].
  simpl. apply negb_false_iff, existsb_exists.
  exists name. split; [assumption|apply String.eqb_refl].
Qed.

(** X3.  A configured table that [check_tables] reports as missing, or any
    configured table when the workbook cannot be opened, is answered by
    [get_table_data] with "Table is empty": the failure of the reader is
    absorbed by [_get_NGS_table] and never shows as an exception message. *)
Theorem missing_sheet_is_reported_empty
    (to_double : string -> option number) (repr_finite : float -> string)
    (descriptions : dict string string)
    (wb : Workbook.workbook) (name : string) :
  name <> "" ->
  match check_tables descriptions wb with
  | Report _ missing _ _ => In name missing
  | Report_error _ => In name (keys descriptions)
  end ->
  get_table_data to_double repr_finite descriptions
                 (Workbook._get_NGS_table wb) (Some name)
  = Failure Table_is_empty.
Proof.
  intros Hne Hmiss. unfold get_table_data.
  destruct wb as [message|sheets]; simpl in Hmiss.
  - now rewrite valid_name_passes.
  - apply filter_In in Hmiss as [Hin Hno].
    rewrite valid_name_passes by assumption.
    unfold Workbook._get_NGS_table, Workbook.read_excel.
    rewrite dict_get_absent; [reflexivity|].
    intros H. apply in_sheets_In in H. rewrite H in Hno. discriminate.
Qed.

Lemma missing_sheet_is_reported_empty_witness :
  get_table_data integer_literal fixed_notation
    [("Table 1", "How many?"); ("Table 2", "How often?")]
    (Workbook._get_NGS_table
       (Workbook.Sheets [("Table 1", [(LStr "Code", SInt64 [1])])]))
    (Some "Table 2")
  = Failure Table_is_empty.
Proof.
  apply missing_sheet_is_reported_empty.
  - discriminate.
  - simpl. left. reflexivity.
Defined.

Lemma dict_del_spec {V} (d d' : dict string V) k :
  NoDup (keys d) -> dict_del String.eqb d k = Some d' ->
  ~ In k (keys d')
  /\ (forall k', k' <> k -> dict_get String.eqb d' k' = dict_get String.eqb d k')
  /\ (forall k', k' <> k -> (In k' (keys d') <-> In k' (keys d)))
  /\ S (length d') = length d.
Proof.
  revert d'. induction d as [|[j v] r IH]; simpl; intros d' Hnd H; [discriminate|].
  inversion Hnd as [|? ? Hj Hr]. subst.
  destruct (String.eqb j k) eqn:E.
  - apply String.eqb_eq in E. subst j. inversion H. subst d'.
    split; [assumption|]. split; [|split; [|reflexivity]].
    + intros k' Hk. destruct (String.eqb k k') eqn:E'; [|reflexivity].
      apply String.eqb_eq in E'. congruence.
    + intros k' Hk. split; [now right|]. intros [E'|Hin]; [congruence|assumption].
  - destruct (dict_del String.eqb r k) as [r'|] eqn:Er; simpl in H; [|discriminate].
    inversion H. subst d'. destruct (IH r' Hr eq_refl) as [H1 [H2 [H3 H4]]].
    apply String.eqb_neq in E.
    split; [|split; [|split]].
    + simpl. intros [E'|Hin]; [congruence|tauto].
    + intros k' Hk. simpl. destruct (String.eqb j k'); [reflexivity|now apply H2].
    + intros k' Hk. simpl. rewrite (H3 k' Hk). reflexivity.
    + simpl. now rewrite H4.
Qed.

Lemma dict_del_absent {V} (d : dict string V) k :
  dict_del String.eqb d k = None <-> ~ In k (keys d).
Proof.
  induction d as [|[j v] r IH]; simpl; [tauto|].
  destruct (String.eqb j k) eqn:E.
  - apply String.eqb_eq in E. split; [discriminate|tauto].
  - apply String.eqb_neq in E.
    destruct (dict_del String.eqb r k); simpl.
    + split; [discriminate|]. intros H. exfalso. apply H. right.
      destruct (in_dec string_dec k (keys r)) as [Hin|Hn]; [assumption|].
      apply IH in Hn. discriminate.
    + split; [|reflexivity]. intros _ [E'|Hin]; [congruence|].
      now apply (proj1 IH).
Qed.

(** X4.  The entry "PUMFID" of the YAML mapping is not a table: once the
    mapping is loaded, [get_table_data] refuses that name whatever the
    workbook holds, while every other entry of the file is kept with its
    description. *)
Theorem respondent_identifier_is_not_a_table
    (to_double : string -> option number) (repr_finite : float -> string)
    (yaml descriptions : dict string string)
    (loader : string -> DataFrame) :
  NoDup (keys yaml) ->
  load_descriptions yaml = Some descriptions ->
  get_table_data to_double repr_finite descriptions loader
                 (Some "PUMFID")
  = Failure Invalid_table_name
  /\ (forall name, name <> "PUMFID" ->
        (In name (keys descriptions) <-> In name (keys yaml))
        /\ dict_get String.eqb descriptions name = dict_get String.eqb yaml name)
  /\ S (length descriptions) = length yaml.
Proof.
  intros Hnd Hload.
  destruct (dict_del_spec _ _ _ Hnd Hload) as [Hno [Hget [Hin Hlen]]].
  split; [|split; [|assumption]].
  - assert (H : existsb (String.eqb "PUMFID") (keys descriptions) = false).
    { apply not_true_iff_false. intros H.
      apply existsb_exists in H as [x [Hx E]].
      apply String.eqb_eq in E. now subst. }
    unfold get_table_data. rewrite H. reflexivity.
  - intros name Hname. split; [now apply Hin|now apply Hget].
Qed.

Lemma respondent_identifier_is_not_a_table_witness :
  get_table_data integer_literal fixed_notation
    [("Table 1", "How many?")] (fun _ => [(LStr "Code", SInt64 [1])])
    (Some "PUMFID")
  = Failure Invalid_table_name
  /\ (forall name, name <> "PUMFID" ->
        (In name (keys [("Table 1", "How many?")])
         <-> In name (keys [("PUMFID", "Respondent"); ("Table 1", "How many?")]))
        /\ dict_get String.eqb [("Table 1", "How many?")] name
           = dict_get String.eqb
               [("PUMFID", "Respondent"); ("Table 1", "How many?")] name)
  /\ S (length [("Table 1", "How many?")])
     = length [("PUMFID", "Respondent"); ("Table 1", "How many?")].
Proof.
  apply respondent_identifier_is_not_a_table.
  - repeat constructor; simpl; intuition discriminate.
  - reflexivity.
Defined.

Lemma existsb_pointwise {A} (f g : A -> bool) xs :
  (forall x, f x = g x) -> existsb f xs = existsb g xs.
Proof.
  intros H. induction xs as [|x r IH]; simpl; [reflexivity|]. now rewrite H, IH.
Qed.

Lemma dict_get_present {V} (d : dict string V) k :
  In k (keys d) -> exists v, dict_get String.eqb d k = Some v.
Proof.
  induction d as [|[k' v] r IH]; simpl; [contradiction|].
  intros [E|H].
  - subst. rewrite String.eqb_refl. eauto.
  - destruct (String.eqb k' k); eauto.
Qed.

(** X17.  A configured table whose sheet is present, has rows, text headers
    and a text "Answer Categories" column is cleaned, and the answer is
    decided by the cleaned sheet.  When the cleaned sheet has a column of
    integers whose name is not "code", the encoding of the response fails on
    the minimum and the maximum of that column, and the answer is the error
    object.  Otherwise the answer holds the cleaned sheet, the charts and the
    statistics computed from it, and the configured description. *)
Theorem present_sheet_is_served
    (to_double : string -> option number) (repr_finite : float -> string)
    (descriptions : dict string string)
    (sheets : dict string DataFrame) (name : string) (df : DataFrame) :
  name <> "" ->
  In name (keys descriptions) ->
  Workbook.read_excel (Workbook.Sheets sheets) name = Some df ->
  well_formed df ->
  empty df = false ->
  forallb is_str_label (columns df) = true ->
  (has_column df (LStr "Code") = true ->
   forall ac, In (LStr "Answer Categories", ac) df ->
     exists cells, ac = SObject cells
                   /\ ~ Forall (parses to_double) (stripped_text repr_finite cells)) ->
  exists t d,
    clean_data to_double repr_finite df = Ok t
    /\ dict_get String.eqb descriptions name = Some d
    /\ columns t = columns df
    /\ nrows t = nrows df
    /\ get_table_data to_double repr_finite descriptions
                      (Workbook._get_NGS_table (Workbook.Sheets sheets))
                      (Some name)
       = if existsb (fun c => match c with
                              | (LStr n, SInt64 _) =>
                                  negb (String.eqb (PyStr.lower n) "code")
                              | _ => false
                              end) t
         then Failure (Exception TypeError_not_serializable)
         else Success t (create_visualizations to_double repr_finite t name)
                      (get_basic_statistics t) d.
Proof.
  intros Hname Hkey Hread Hwf Hne Hlab Hac.
  assert (Hclean : exists t, clean_data to_double repr_finite df = Ok t).
  { rewrite clean_data_frame by exact (proj1 Hwf).
    destruct (clean_frame_str_labels to_double repr_finite _ Hlab) as [df1 Hf].
    rewrite Hf. simpl. apply blank_total_code_text.
    now apply (clean_frame_text_categories to_double repr_finite df). }
  destruct Hclean as [t Ht].
  pose proof (clean_data_columns to_double repr_finite df t (proj1 Hwf) Ht) as Hc.
  pose proof (clean_data_nrows to_double repr_finite df t Hwf Ht) as Hr.
  pose proof (clean_data_all_len to_double repr_finite df t Hwf Ht) as Hl.
  destruct (dict_get_present _ _ Hkey) as [d Hd].
  exists t, d. repeat (split; [assumption|]).
  assert (Hwt : well_formed t).
  { split; [rewrite Hc; exact (proj1 Hwf)|].
    intros l s Hin. rewrite Hr. now apply (Hl l). }
  assert (Het : empty t = false).
  { destruct t as [|c r]; [destruct df; discriminate|].
    rewrite empty_nrows by discriminate. rewrite Hr.
    rewrite <- empty_nrows; [assumption|]. intros E. subst. discriminate. }
  assert (Hlt : forall c, In c t -> is_numeric_dtype (snd c) = true ->
                          is_str_label (fst c) = true).
  { intros [l s] Hin _. simpl. rewrite forallb_forall in Hlab. apply Hlab.
    rewrite <- Hc. unfold columns. apply in_map_iff. now exists (l, s). }
  unfold get_table_data. rewrite valid_name_passes by assumption.
  unfold Workbook._get_NGS_table. rewrite Hread, Hne, Ht, Hd.
  rewrite (serializable_statistics t Hwt Het Hlt).
  rewrite (existsb_pointwise (fun c => selected c && int_typed (snd c))
             (fun c => match c with
                       | (LStr n, SInt64 _) =>
                           negb (String.eqb (PyStr.lower n) "code")
                       | _ => false
                       end)).
  - now destruct (existsb _ t).
  - intros [[n|z] [cells|cells|cells]]; unfold selected, is_code; simpl;
      try reflexivity; now rewrite ?andb_true_r, ?andb_false_r.
Qed.

Lemma present_sheet_is_served_witness :
  exists t d,
    clean_data decimal_literal fixed_notation
      [(AC, SObject [VStr "Yes"; VStr "Total"]);
       (CODE, SObject [VStr "01"; VStr "99"]);
       (WF, SObject [VStr "1,200.5"; VStr "2,401"])] = Ok t
    /\ dict_get String.eqb [("Table 1", "How many?")] "Table 1" = Some d
    /\ columns t = [AC; CODE; WF]
    /\ nrows t = 2%nat
    /\ get_table_data decimal_literal fixed_notation
         [("Table 1", "How many?")]
         (Workbook._get_NGS_table
            (Workbook.Sheets
               [("Table 1",
                 [(AC, SObject [VStr "Yes"; VStr "Total"]);
                  (CODE, SObject [VStr "01"; VStr "99"]);
                  (WF, SObject [VStr "1,200.5"; VStr "2,401"])])]))
         (Some "Table 1")
       = if existsb (fun c => match c with
                              | (LStr n, SInt64 _) =>
                                  negb (String.eqb (PyStr.lower n) "code")
                              | _ => false
                              end) t
         then Failure (Exception TypeError_not_serializable)
         else Success t
                (create_visualizations decimal_literal fixed_notation t "Table 1")
                (get_basic_statistics t) d.
Proof.
  apply (present_sheet_is_served decimal_literal fixed_notation
           [("Table 1", "How many?")] _ "Table 1"
           [(AC, SObject [VStr "Yes"; VStr "Total"]);
            (CODE, SObject [VStr "01"; VStr "99"]);
            (WF, SObject [VStr "1,200.5"; VStr "2,401"])]).
  - discriminate.
  - left. reflexivity.
  - reflexivity.
  - sheet.
  - reflexivity.
  - reflexivity.
  - intros _ ac H. simpl in H.
    destruct H as [H|[H|[H|[]]]]; inversion H.
    exists [VStr "Yes"; VStr "Total"]. split; [reflexivity|].
    intros Hp. inversion Hp as [|x r Hx Hr]. apply Hx. reflexivity.
Defined.

(** The two answers on concrete sheets: frequencies that cleaning turns
    into integers end in the error object, frequencies delivered as float64
    are served. *)
Lemma integer_frequencies_end_in_the_error_object :
  get_table_data integer_literal fixed_notation
    [("Table 1", "How many?")]
    (Workbook._get_NGS_table
       (Workbook.Sheets
          [("Table 1",
            [(AC, SObject [VStr "Yes"; VStr "Total"]);
             (CODE, SObject [VStr "01"; VStr "99"]);
             (WF, SObject [VStr "1,200"; VStr "1,200"])])]))
    (Some "Table 1")
  = Failure (Exception TypeError_not_serializable).
Proof. reflexivity. Qed.

Lemma float_frequencies_are_served :
  get_table_data decimal_literal fixed_notation
    [("Table 1", "How many?")]
    (Workbook._get_NGS_table
       (Workbook.Sheets
          [("Table 1",
            [(AC, SObject [VStr "Yes"; VStr "Total"]);
             (CODE, SObject [VStr "01"; VStr "99"]);
             (WF, SObject [VStr "1,200.5"; VStr "2,401"])])]))
    (Some "Table 1")
  = Success
      [(AC, SObject [VStr "Yes"; VStr "Total"]);
       (CODE, SObject [VStr "01"; VStr ""]);
       (WF, SFloat64 [1200.5; 2401]%float)]
      [("pie_chart",
        Chart [Pie [VNum (NFloat 1200.5)] [VStr "Yes"]
                   "percent" "label+percent+value" 0%Q]
              (Layout "Table 1: Weighted Distribution" None None
                      (Margin 20 20 20 40) (Some true)));
       ("box_plot",
        Chart [Box [VNum (NFloat 1200.5)] "Weighted Frequency" "all"
                   (3 # 10)%Q (- 18 # 10)%Q]
              (Layout "Table 1: Weighted Frequency Distribution" None
                      (Some "Weighted Frequency") (Margin 60 20 40 40) None));
       ("bar_chart",
        Chart [Bar [VStr "Yes"] [VNum (NFloat 1200.5)] "rgba(55, 128, 191, 0.7)"]
              (Layout "Table 1: Weighted Frequency by Category"
                      (Some "Answer Categories") (Some "Weighted Frequency")
                      (Margin 60 20 100 40) None))]
      [(WF, ColumnStats (NFloat 1800.75) (NFloat 1800.75) (NFloat 1200.5)
                        (NFloat 2401) (NFloat 848.88) 2)]
      "How many?".
Proof. vm_compute. reflexivity. Qed.

Lemma cleaning_keeps_the_shape_witness :
  columns [(AC, SObject [VStr "Yes"; VStr "Total"]);
           (CODE, SObject [VNum (NInt 1); VStr ""])]
  = columns [(AC, SObject [VStr "Yes"; VStr "Total"]); (CODE, SInt64 [1; 2])]
  /\ nrows [(AC, SObject [VStr "Yes"; VStr "Total"]);
            (CODE, SObject [VNum (NInt 1); VStr ""])]
     = nrows [(AC, SObject [VStr "Yes"; VStr "Total"]); (CODE, SInt64 [1; 2])]
  /\ well_formed [(AC, SObject [VStr "Yes"; VStr "Total"]);
                  (CODE, SObject [VNum (NInt 1); VStr ""])].
Proof.
  apply (cleaning_keeps_the_shape integer_literal fixed_notation).
  - sheet.
  - reflexivity.
Defined.

Lemma numeric_columns_are_kept_witness :
  getitem [(AC, SObject [VStr "Yes"; VStr "Total"]);
           (CODE, SObject [VStr "01"; VStr ""]);
           (WF, SFloat64 [2.5; nan]%float)] WF
  = Ok (SFloat64 [2.5; nan]%float).
Proof.
  apply (numeric_columns_are_kept integer_literal fixed_notation
           [(AC, SObject [VStr "Yes"; VStr "Total"]);
            (CODE, SObject [VStr "01"; VStr "99"]);
            (WF, SFloat64 [2.5; nan]%float)]).
  - distinct_labels.
  - reflexivity.
  - right. right. left. reflexivity.
  - reflexivity.
  - discriminate.
Defined.

Lemma cleaning_fails_in_two_ways_witness :
  (AttributeError_lower = AttributeError_lower
   /\ exists z cells,
        In (LInt z, SObject cells)
           [(AC, SObject [VStr "Yes"]); (LInt 2020, SObject [VStr "12"])])
  \/ (AttributeError_lower = AttributeError_str_accessor
      /\ has_column [(AC, SObject [VStr "Yes"]); (LInt 2020, SObject [VStr "12"])]
                    CODE = true
      /\ exists ac,
           In (AC, ac) [(AC, SObject [VStr "Yes"]); (LInt 2020, SObject [VStr "12"])]
           /\ (is_numeric_dtype ac = true
               \/ exists cells,
                    ac = SObject cells
                    /\ Forall (parses integer_literal)
                              (stripped_text fixed_notation cells))).
Proof.
  apply (cleaning_fails_in_two_ways integer_literal fixed_notation).
  - distinct_labels.
  - reflexivity.
Defined.

Lemma text_categories_make_cleaning_succeed_witness :
  exists df',
    clean [(AC, SObject [VStr "Yes"; VStr "Total"]);
           (CODE, SObject [VStr "01"; VStr "99"])]
    = Ok df'.
Proof.
  apply (text_categories_make_cleaning_succeed integer_literal fixed_notation).
  - distinct_labels.
  - reflexivity.
  - intros _ ac H. simpl in H.
    destruct H as [H|[H|[]]]; inversion H.
    exists [VStr "Yes"; VStr "Total"]. split; [reflexivity|].
    intros Hp. inversion Hp as [|x r Hx Hr]. apply Hx. reflexivity.
Defined.

Lemma other_rows_keep_their_code_witness :
  nth_error (tolist (SObject [VStr "7"; VStr ""])) 0
  = Some (if is_numeric_dtype (SObject [VNum (NInt 7); VNum (NInt 9)])
          then VNum (NInt 7)
          else VStr (py_str fixed_notation (VNum (NInt 7)))).
Proof.
  apply (other_rows_keep_their_code integer_literal fixed_notation
           [(AC, SObject [VStr "Yes"; VStr "Total"]);
            (CODE, SObject [VNum (NInt 7); VNum (NInt 9)])]
           [(AC, SObject [VStr "Yes"; VStr "Total"]);
            (CODE, SObject [VStr "7"; VStr ""])]).
  - distinct_labels.
  - reflexivity.
  - reflexivity.
  - reflexivity.
  - intros ac v H Hv. simpl in H. inversion H. subst ac.
    simpl in Hv. inversion Hv. reflexivity.
  - reflexivity.
Defined.

Lemma statistics_entries_are_sound_witness :
  exists name s,
    WF = LStr name
    /\ String.eqb (PyStr.lower name) "code" = false
    /\ In (WF, s) [(CODE, SInt64 [1; 2]); (WF, SFloat64 [2.5; nan]%float)]
    /\ is_numeric_dtype s = true
    /\ column_entry (SFloat64 [2.5; nan]%float) = column_entry s
    /\ 0 <= st_count (column_entry (SFloat64 [2.5; nan]%float))
       <= Z.of_nat (nrows [(CODE, SInt64 [1; 2]);
                           (WF, SFloat64 [2.5; nan]%float)]).
Proof.
  apply (statistics_entries_are_sound
           [(CODE, SInt64 [1; 2]); (WF, SFloat64 [2.5; nan]%float)]).
  - sheet.
  - left. reflexivity.
Defined.

Lemma cleaned_numbers_are_summarised_witness :
  exists s',
    getitem [(AC, SObject [VStr "Yes"; VStr "No"]); (WF, SInt64 [1200; 30])] WF
    = Ok s'
    /\ is_numeric_dtype s'
       = accepted integer_literal
           (stripped_text fixed_notation [VStr "1,200"; VStr "30%"])
    /\ (accepted integer_literal
          (stripped_text fixed_notation [VStr "1,200"; VStr "30%"]) = true ->
        In (WF, column_entry s')
           (get_basic_statistics
              [(AC, SObject [VStr "Yes"; VStr "No"]); (WF, SInt64 [1200; 30])]))
    /\ (forall e,
          In (WF, e)
             (get_basic_statistics
                [(AC, SObject [VStr "Yes"; VStr "No"]); (WF, SInt64 [1200; 30])]) ->
          accepted integer_literal
            (stripped_text fixed_notation [VStr "1,200"; VStr "30%"]) = true
          /\ e = column_entry s').
Proof.
  apply (cleaned_numbers_are_summarised integer_literal fixed_notation
           [(AC, SObject [VStr "Yes"; VStr "No"]);
            (WF, SObject [VStr "1,200"; VStr "30%"])]).
  - sheet.
  - reflexivity.
  - reflexivity.
  - reflexivity.
  - right. left. reflexivity.
  - reflexivity.
Defined.

Lemma bundle_is_empty_exactly_when_witness :
  create_visualizations integer_literal fixed_notation
    [(AC, SObject [VStr "Total"; VNone]); (WF, SObject [VStr "10"; VStr "20"])]
    "Table 1"
  = [].
Proof.
  apply (bundle_is_empty_exactly_when integer_literal fixed_notation
           [(AC, SObject [VStr "Total"; VNone]);
            (WF, SObject [VStr "10"; VStr "20"])] "Table 1").
  - sheet.
  - right. right. right.
    exists (SObject [VStr "Total"; VNone]), (SObject [VStr "10"; VStr "20"]).
    repeat split.
Defined.

Lemma charts_hold_clean_series_witness :
  exists categories frequencies,
    Forall (fun v => isna v = false /\ eq_str v "Total" = false) categories
    /\ Forall (fun v => isna v = false /\ exists n, v = VNum n) frequencies
    /\ length categories = length frequencies
    /\ frequencies <> []
    /\ (box_plot "Table 1" [VNum (NInt 10)]
        = Chart [Pie frequencies categories "percent" "label+percent+value"
                     (if (5 <? length categories)%nat then 3 # 10 else 0)%Q]
                (Layout "Table 1: Weighted Distribution" None None
                        (Margin 20 20 20 40) (Some true))
        \/ box_plot "Table 1" [VNum (NInt 10)]
           = Chart [Box frequencies "Weighted Frequency" "all" (3 # 10)%Q
                        (- 18 # 10)%Q]
                   (Layout "Table 1: Weighted Frequency Distribution"
                           None (Some "Weighted Frequency")
                           (Margin 60 20 40 40) None)
        \/ box_plot "Table 1" [VNum (NInt 10)]
           = Chart [Bar categories frequencies "rgba(55, 128, 191, 0.7)"]
                   (Layout "Table 1: Weighted Frequency by Category"
                           (Some "Answer Categories") (Some "Weighted Frequency")
                           (Margin 60 20 100 40) None)).
Proof.
  apply (charts_hold_clean_series integer_literal fixed_notation
           [(AC, SObject [VStr "A"; VStr "Total"]);
            (WF, SObject [VStr "10"; VStr "20"])] "Table 1" "box_plot").
  - sheet.
  - right. left. reflexivity.
Defined.

Lemma bundle_depends_on_two_columns_witness :
  create_visualizations integer_literal fixed_notation
    [(CODE, SObject [VStr "01"; VStr ""]);
     (AC, SObject [VStr "A"; VStr "Total"]);
     (WF, SInt64 [10; 20])] "Table 1"
  = create_visualizations integer_literal fixed_notation
      [(AC, SObject [VStr "A"; VStr "Total"]); (WF, SInt64 [10; 20])] "Table 1".
Proof.
  apply (bundle_depends_on_two_columns integer_literal fixed_notation).
  - sheet.
  - reflexivity.
  - reflexivity.
Defined.

Lemma integer_frequencies_are_charted_unchanged_witness :
  create_visualizations integer_literal fixed_notation
    [(AC, SObject [VStr "A"; VStr "Total"; VStr "B"]); (WF, SInt64 [10; 30; 20])]
    "Table 1"
  = [("pie_chart",
      Chart [Pie [VNum (NInt 10); VNum (NInt 20)] [VStr "A"; VStr "B"]
                 "percent" "label+percent+value" 0%Q]
            (Layout "Table 1: Weighted Distribution" None None
                    (Margin 20 20 20 40) (Some true)));
     ("box_plot",
      Chart [Box [VNum (NInt 10); VNum (NInt 20)] "Weighted Frequency" "all"
                 (3 # 10)%Q (- 18 # 10)%Q]
            (Layout "Table 1: Weighted Frequency Distribution" None
                    (Some "Weighted Frequency") (Margin 60 20 40 40) None));
     ("bar_chart",
      Chart [Bar [VStr "A"; VStr "B"] [VNum (NInt 10); VNum (NInt 20)]
                 "rgba(55, 128, 191, 0.7)"]
            (Layout "Table 1: Weighted Frequency by Category"
                    (Some "Answer Categories") (Some "Weighted Frequency")
                    (Margin 60 20 100 40) None))].
Proof.
  apply (integer_frequencies_are_charted_unchanged integer_literal fixed_notation
           [(AC, SObject [VStr "A"; VStr "Total"; VStr "B"]);
            (WF, SInt64 [10; 30; 20])] "Table 1"
           (SObject [VStr "A"; VStr "Total"; VStr "B"]) [10; 30; 20]).
  - sheet.
  - reflexivity.
  - reflexivity.
  - reflexivity.
  - repeat constructor.
Defined.

(** * The display of whole numbers *)

Lemma replace_app c a b :
  PyStr.replace c "" (a ++ b) = PyStr.replace c "" a ++ PyStr.replace c "" b.
Proof.
  induction a as [|d r IH]; simpl; [reflexivity|].
  destruct (Ascii.eqb d c); simpl; now rewrite IH.
Qed.

Lemma contains_app c a b :
  PyStr.contains c (a ++ b) = PyStr.contains c a || PyStr.contains c b.
Proof.
  induction a as [|d r IH]; simpl; [reflexivity|].
  now rewrite IH, orb_assoc.
Qed.

Lemma replace_group_thousands s :
  PyStr.replace "," "" (group_thousands s) = PyStr.replace "," "" s.
Proof.
  induction s as [|d r IH]; [reflexivity|].
  cbn [group_thousands PyStr.replace].
  destruct ((0 <? String.length r)%nat && (String.length r mod 3 =? 0)%nat);
    destruct (Ascii.eqb d ","); cbn [PyStr.replace];
    rewrite ?Ascii.eqb_refl; cbn [append]; now rewrite IH.
Qed.

Lemma contains_group_thousands c s :
  c <> ","%char ->
  PyStr.contains c (group_thousands s) = PyStr.contains c s.
Proof.
  intros Hc.
  assert (E : Ascii.eqb "," c = false).
  { destruct (Ascii.eqb "," c) eqn:E; [|reflexivity].
    apply Ascii.eqb_eq in E. congruence. }
  induction s as [|d r IH]; [reflexivity|].
  cbn [group_thousands PyStr.contains].
  destruct ((0 <? String.length r)%nat && (String.length r mod 3 =? 0)%nat);
    cbn [PyStr.contains]; rewrite ?E, IH; reflexivity.
Qed.

Lemma eqb_digit x c :
  is_digit x = true -> is_digit c = false -> Ascii.eqb x c = false.
Proof.
  intros Hx Hc. destruct (Ascii.eqb x c) eqn:E; [|reflexivity].
  apply Ascii.eqb_eq in E. congruence.
Qed.

Lemma digits_only c (d : Decimal.uint) :
  is_digit c = false -> PyStr.contains c (NilEmpty.string_of_uint d) = false.
Proof.
  intros Hc.
  induction d; cbn [NilEmpty.string_of_uint PyStr.contains];
    rewrite ?IHd; try reflexivity;
    rewrite eqb_digit by (reflexivity || assumption); reflexivity.
Qed.

Lemma digits_only_uint c (d : Decimal.uint) :
  is_digit c = false -> PyStr.contains c (NilZero.string_of_uint d) = false.
Proof.
  intros Hc. unfold NilZero.string_of_uint.
  pose proof (digits_only c d Hc) as Hd.
  destruct d; try exact Hd.
  cbn [PyStr.contains]. now rewrite eqb_digit by (reflexivity || assumption).
Qed.

Lemma digits_only_N c n :
  is_digit c = false -> PyStr.contains c (str_of_Z (Z.of_N n)) = false.
Proof.
  intros Hc. unfold str_of_Z.
  destruct n as [|p]; cbn [Z.of_N Z.to_int NilZero.string_of_int];
    now apply digits_only_uint.
Qed.

Lemma str_of_N_not_empty n : str_of_Z (Z.of_N n) <> "".
Proof.
  unfold str_of_Z. destruct n as [|p]; cbn [Z.of_N Z.to_int NilZero.string_of_int].
  - discriminate.
  - unfold NilZero.string_of_uint. destruct (Pos.to_uint p); discriminate.
Qed.

Lemma is_integer_inject z : is_integer (inject_Z z) = true.
Proof. unfold is_integer. rewrite Qfloor_Z. apply Qeq_bool_refl. Qed.

Lemma round_half_even_integer z : round_half_even (inject_Z z) = z.
Proof.
  unfold round_half_even. rewrite Qfloor_Z.
  replace (Qcompare (inject_Z z - inject_Z z) (1 # 2)) with Lt; [reflexivity|].
  symmetry. apply Qlt_alt.
  setoid_replace (inject_Z z - inject_Z z)%Q with 0%Q by ring. reflexivity.
Qed.

Lemma concat_cons_char sep c g gs :
  String c (String.concat sep (g :: gs)) = String.concat sep (String c g :: gs).
Proof. now destruct gs. Qed.

Ltac mod3 n :=
  let H1 := fresh in
  let H2 := fresh in
  pose proof (Nat.div_mod_eq n 3) as H1;
  assert (H2 : (n mod 3 < 3)%nat) by (apply Nat.mod_upper_bound; discriminate).

(** The grouping cuts the digits in groups of three from the right: the
    first group has one to three digits, the others three, and the groups
    are joined by commas. *)
Lemma group_thousands_groups s :
  s <> "" ->
  exists first rest,
    group_thousands s = String.concat "," (first :: rest)
    /\ String.concat "" (first :: rest) = s
    /\ (1 <= String.length first <= 3)%nat
    /\ (String.length first mod 3 = String.length s mod 3)%nat
    /\ Forall (fun g => String.length g = 3%nat) rest.
Proof.
  induction s as [|c r IH]; [congruence|]. intros _.
  destruct r as [|d r'].
  - exists (String c ""), []. repeat split; simpl; auto.
  - destruct IH as [first [rest [Hg [Hc [Hl [Hm Hr]]]]]]; [discriminate|].
    remember (String d r') as r eqn:Er.
    assert (Hpos : (0 < String.length r)%nat) by (subst r; simpl; lia).
    cbn [group_thousands]. rewrite (proj2 (Nat.ltb_lt _ _) Hpos). cbn [andb].
    mod3 (String.length r). mod3 (String.length first).
    mod3 (S (String.length r)). mod3 (S (String.length first)).
    destruct (String.length r mod 3 =? 0)%nat eqn:E.
    + apply Nat.eqb_eq in E.
      exists (String c ""), (first :: rest). split; [|split; [|split; [|split]]].
      * rewrite Hg. reflexivity.
      * change (String.concat "" (String c "" :: first :: rest))
          with (String c "" ++ "" ++ String.concat "" (first :: rest)).
        rewrite Hc. reflexivity.
      * simpl. lia.
      * cbn [String.length]. change (1 mod 3)%nat with 1%nat. lia.
      * constructor; [|assumption]. lia.
    + apply Nat.eqb_neq in E.
      exists (String c first), rest. split; [|split; [|split; [|split]]].
      * rewrite Hg. apply concat_cons_char.
      * rewrite <- concat_cons_char. now rewrite Hc.
      * cbn [String.length]. lia.
      * cbn [String.length]. lia.
      * assumption.
Qed.

(** X18.  An integer-valued number of the table is displayed as its decimal
    digits in groups of three from the right, the groups joined by commas,
    with its sign and without a decimal point; removing the separators, as
    the cleaning does, gives back the decimal form. *)
Theorem whole_numbers_are_displayed_as_integers x n :
  magnitude x = Some (inject_Z (Z.of_N n)) ->
  exists first rest,
    float_format x
    = (if sign_bit x then "-" else "") ++ String.concat "," (first :: rest)
    /\ String.concat "" (first :: rest) = str_of_Z (Z.of_N n)
    /\ (1 <= String.length first <= 3)%nat
    /\ Forall (fun g => String.length g = 3%nat) rest
    /\ PyStr.replace "," "" (float_format x)
       = (if sign_bit x then "-" else "") ++ str_of_Z (Z.of_N n)
    /\ PyStr.contains "." (float_format x) = false.
Proof.
  intros Hx.
  assert (Hf : float_format x
               = (if sign_bit x then "-" else "")
                 ++ group_thousands (str_of_Z (Z.of_N n))).
  { unfold float_format. rewrite Hx, is_integer_inject.
    unfold format_0f, sign_of. now rewrite round_half_even_integer. }
  destruct (group_thousands_groups _ (str_of_N_not_empty n))
    as [first [rest [Hg [Hc [Hl [_ Hr]]]]]].
  exists first, rest. rewrite Hf.
  split; [now rewrite Hg|]. split; [assumption|]. split; [assumption|].
  split; [assumption|]. split.
  - rewrite replace_app, replace_group_thousands.
    rewrite (replace_absent "," (str_of_Z (Z.of_N n)))
      by (apply digits_only_N; reflexivity).
    now destruct (sign_bit x).
  - rewrite contains_app, contains_group_thousands by discriminate.
    rewrite digits_only_N by reflexivity. now destruct (sign_bit x).
Qed.

Lemma whole_numbers_are_displayed_as_integers_witness :
  exists first rest,
    float_format (-1234567)%float = "-" ++ String.concat "," (first :: rest)
    /\ String.concat "" (first :: rest) = "1234567"
    /\ (1 <= String.length first <= 3)%nat
    /\ Forall (fun g => String.length g = 3%nat) rest
    /\ PyStr.replace "," "" (float_format (-1234567)%float) = "-" ++ "1234567"
    /\ PyStr.contains "." (float_format (-1234567)%float) = false.
Proof.
  apply (whole_numbers_are_displayed_as_integers (-1234567)%float 1234567%N).
  reflexivity.
Defined.

(** The format on some numbers. *)
Lemma float_format_examples :
  float_format 1234567%float = "1,234,567"
  /\ float_format 1000%float = "1,000"
  /\ float_format 999%float = "999"
  /\ float_format 0%float = "0"
  /\ float_format 1234.5%float = "1,234.50"
  /\ float_format 0.125%float = "0.12"
  /\ float_format (-2.5)%float = "-2.50".
Proof. repeat split; vm_compute; reflexivity. Qed.

(** * float64 arithmetic on examples *)

(** An integer column that fits one buffer is summed as its cast is. *)
Lemma np_sum_cast_one_buffer zs :
  (length zs <= buffer_size)%nat ->
  np_sum_cast zs = np_sum (map float_of_Z zs).
Proof.
  intros Hlen. unfold np_sum_cast, np_sum.
  rewrite <- (length_map float_of_Z zs) in *.
  destruct (map float_of_Z zs) as [|x r] eqn:E; [reflexivity|].
  cbn [length buffered_sum].
  rewrite firstn_all2, skipn_all2 by exact Hlen.
  now destruct (length r).
Qed.

Lemma np_sum_cast_one_buffer_witness :
  (length [1; 2; 3]%Z <= buffer_size)%nat
  /\ np_sum_cast [1; 2; 3]%Z = np_sum (map float_of_Z [1; 2; 3]%Z).
Proof.
  split; [vm_compute; repeat constructor|].
  apply (np_sum_cast_one_buffer [1; 2; 3]%Z). vm_compute. repeat constructor.
Defined.

(** Rounding to the nearest integer, ties to even, and rounding to two
    decimals through the scaling by 100. *)
Lemma rint_examples :
  rint 0.5 = 0%float /\ rint 1.5 = 2%float /\ rint 2.5 = 2%float
  /\ rint (-1.5) = (-2)%float /\ rint 0.3 = 0%float
  /\ rint 2.4999 = 2%float /\ rint 1234567.5 = 1234568%float
  /\ rint 4503599627370497 = 4503599627370497%float
  /\ isnan (rint NaN) = true /\ rint infinity = infinity
  /\ rint neg_infinity = neg_infinity.
Proof. repeat split; vm_compute; reflexivity. Qed.

Lemma round2_examples :
  round2 (NFloat 2.675) = NFloat 2.68
  /\ round2 (NFloat (-2.675)) = NFloat (-2.68)
  /\ round2 (NFloat 0.005) = NFloat 0
  /\ round2 (NFloat 1.005) = NFloat 1
  /\ round2 (NFloat 0.125) = NFloat 0.12
  /\ round2 (NFloat 0.375) = NFloat 0.38
  /\ round2 (NFloat 48.0624593) = NFloat 48.06
  /\ round2 (NFloat 1e308) = NFloat infinity
  /\ round2 (NInt 7) = NInt 7.
Proof. repeat split; vm_compute; reflexivity. Qed.

(** The cast of an integer to float64 rounds to the nearest float, ties to
    even. *)
Lemma float_of_Z_examples :
  float_of_Z 0 = 0%float /\ float_of_Z (-3) = (-3)%float
  /\ float_of_Z (2 ^ 53) = 9007199254740992%float
  /\ float_of_Z (2 ^ 53 + 1) = 9007199254740992%float
  /\ float_of_Z (2 ^ 53 + 3) = 9007199254740996%float
  /\ float_of_Z (- (2 ^ 53 + 1)) = (-9007199254740992)%float
  /\ float_of_Z (2 ^ 63) = 9223372036854775808%float
  /\ float_of_Z (2 ^ 64 - 1) = 18446744073709551616%float
  /\ float_of_Z (10 ^ 400) = infinity.
Proof. repeat split; vm_compute; reflexivity. Qed.

(** The order of the additions shows in the last digits: nine ones added
    one by one to 1e16 are lost; in eight partial sums they are not. *)
Lemma np_sum_examples :
  sum_from 0 (1e16 :: repeat 1 9)%float = 1e16%float
  /\ np_sum (1e16 :: repeat 1 6)%float = 1e16%float
  /\ np_sum (1e16 :: repeat 1 7)%float = 10000000000000006%float
  /\ np_sum (1e16 :: repeat 1 9)%float = 10000000000000008%float
  /\ np_sum (1e16 :: repeat 1 16)%float = 10000000000000016%float
  /\ np_sum (1e16 :: repeat 1 23)%float = 10000000000000022%float
  /\ np_sum (1e16 :: repeat 1 127)%float = 10000000000000112%float
  /\ np_sum (1e16 :: repeat 1 299)%float = 10000000000000290%float
  /\ np_sum (repeat 1 150 ++ 1e16 :: repeat 1 149)%list%float
     = 10000000000000290%float
  /\ np_sum [] = 0%float
  /\ np_sum [0.1; 0.2; 0.3]%float = 0.60000000000000009%float.
Proof. repeat split; vm_compute; reflexivity. Qed.

(** An integer column is cast and summed buffer by buffer. *)
Lemma np_sum_cast_examples :
  np_sum_cast (2 ^ 53 + 1 :: repeat 1 9)%Z = 9007199254741000%float
  /\ np_sum_cast [] = 0%float
  /\ np_sum_cast (repeat 1 (buffer_size - 1) ++ 2 ^ 53 :: repeat 1 808)%list%Z
     = 9007199254749992%float
  /\ np_sum (map float_of_Z (repeat 1 (buffer_size - 1) ++ 2 ^ 53 :: repeat 1 808)%list%Z)
     = 9007199254749988%float.
Proof. repeat split; vm_compute; reflexivity. Qed.

(** The reductions on columns with missing and infinite values. *)
Lemma reductions_examples :
  column_entry (SFloat64 [1; 2; 3; 4; 5; 6; 7; 8; 9; 10]%float)
  = ColumnStats (NFloat 5.5) (NFloat 5.5) (NFloat 1) (NFloat 10)
                (NFloat 3.03) 10
  /\ column_entry (SFloat64 [NaN; 5]%float)
     = ColumnStats (NFloat 5) (NFloat 5) (NFloat 5) (NFloat 5) (NFloat NaN) 1
  /\ series_min (SFloat64 [3; NaN; -1; 2]%float) = NFloat (-1)
  /\ series_max (SFloat64 [3; NaN; -1; 2]%float) = NFloat 3
  /\ series_min (SInt64 [3; -1; 2]) = NInt (-1)
  /\ series_max (SInt64 [3; -1; 2]) = NInt 3
  /\ series_median (SFloat64 [5; 1; NaN; 3]%float) = NFloat 3
  /\ series_median (SInt64 [4; 1; 3; 2]) = NFloat 2.5
  /\ series_count (SFloat64 [NaN; NaN]%float) = 0%nat
  /\ series_var (SFloat64 [1; 2; 3; 4]%float) = 1.6666666666666667%float
  /\ series_var (SInt64 [2; 4; 4; 4; 5; 5; 7; 9]) = 4.5714285714285712%float.
Proof. repeat split; vm_compute; reflexivity. Qed.

(** An integer and a float are compared by their exact values. *)
Lemma num_eqb_examples :
  num_eqb (NInt 3) (NFloat 3) = true
  /\ num_eqb (NFloat 2.5) (NInt 2) = false
  /\ num_eqb (NInt (2 ^ 53 + 1)) (NFloat 9007199254740992) = false
  /\ num_eqb (NInt (2 ^ 53)) (NFloat 9007199254740992) = true
  /\ num_eqb (NInt (-4)) (NFloat (-4)) = true
  /\ num_eqb (NInt 0) (NFloat NaN) = false
  /\ num_eqb (NFloat NaN) (NFloat NaN) = false
  /\ num_eqb (NInt 10) (NInt 10) = true.
Proof. repeat split; vm_compute; reflexivity. Qed.

(** The literals that the example conversions read and print. *)
Lemma literal_examples :
  decimal_literal "1200.5" = Some (NFloat 1200.5)
  /\ decimal_literal "-0.25" = Some (NFloat (-0.25))
  /\ decimal_literal "12" = Some (NInt 12)
  /\ decimal_literal "1.2.3" = None
  /\ decimal_literal "." = None
  /\ decimal_literal "" = None
  /\ integer_literal "-12" = Some (NInt (-12))
  /\ integer_literal "1 2" = None
  /\ integer_literal "-" = None
  /\ fixed_notation 2.5 = "2.5"
  /\ fixed_notation (-12) = "-12.0"
  /\ fixed_notation 0.125 = "0.125".
Proof. repeat split; vm_compute; reflexivity. Qed.
